(** * A shallow embedding of the [logs] package (log.go)

    The package keeps one process-wide logger: configuration strings, a
    rotation anchor date, the open log file, a [log.Logger] bound to it,
    a level threshold, a read/write mutex and a buffered channel of
    rendered lines.  The embedding below follows log.go function by
    function.  Package-level variables become the record [Services] (the
    name the instance-based twin of the file gives to the same nine
    fields); everything outside the package (file system, clock, call
    stack, configuration file, standard streams) is the record [World].
    Functions are written in a small state monad whose outcomes also
    cover [os.Exit], panics and a goroutine that blocks. *)

From stdpp Require Import gmap strings list fin_maps.
From Stdlib Require Import ZArith Ascii String DecimalString Lia.

Open Scope string_scope.
Open Scope list_scope.
Open Scope Z_scope.

(** ** Bytes and UTF-8 *)

Definition byte (c : ascii) : Z := Z.of_N (N_of_ascii c).

Definition RuneSelf : Z := 128.
Definition RuneError : Z := 65533.

(** A continuation byte, [locb <= b <= hicb]. *)
Definition inRange (lo hi b : Z) : bool := (lo <=? b) && (b <=? hi).

(** [utf8.DecodeRuneInString]: the rune at the head of [s] and its width in
    bytes.  Invalid or truncated encodings give [(RuneError, 1)], the empty
    string gives [(RuneError, 0)].  The second-byte ranges are those of the
    [acceptRanges] table. *)
Definition DecodeRuneInString (s : string) : Z * nat :=
  match s with
  | "" => (RuneError, 0%nat)
  | String c0 r0 =>
    let s0 := byte c0 in
    if s0 <? RuneSelf then (s0, 1%nat)
    else if (s0 <? 194) || (244 <? s0) then (RuneError, 1%nat)
    else
      let sz : nat := if s0 <? 224 then 2%nat else if s0 <? 240 then 3%nat else 4%nat in
      let '(lo, hi) :=
        if s0 =? 224 then (160, 191)
        else if s0 =? 237 then (128, 159)
        else if s0 =? 240 then (144, 191)
        else if s0 =? 244 then (128, 143)
        else (128, 191) in
      match r0 with
      | "" => (RuneError, 1%nat)
      | String c1 r1 =>
        let s1 := byte c1 in
        if negb (inRange lo hi s1) then (RuneError, 1%nat)
        else if (sz <=? 2)%nat then
          (Z.lor (Z.shiftl (Z.land s0 31) 6) (Z.land s1 63), 2%nat)
        else
          match r1 with
          | "" => (RuneError, 1%nat)
          | String c2 r2 =>
            let s2 := byte c2 in
            if negb (inRange 128 191 s2) then (RuneError, 1%nat)
            else if (sz <=? 3)%nat then
              (Z.lor (Z.lor (Z.shiftl (Z.land s0 15) 12)
                            (Z.shiftl (Z.land s1 63) 6))
                     (Z.land s2 63), 3%nat)
            else
              match r2 with
              | "" => (RuneError, 1%nat)
              | String c3 _ =>
                let s3 := byte c3 in
                if negb (inRange 128 191 s3) then (RuneError, 1%nat)
                else
                  (Z.lor (Z.lor (Z.lor (Z.shiftl (Z.land s0 7) 18)
                                       (Z.shiftl (Z.land s1 63) 12))
                                (Z.shiftl (Z.land s2 63) 6))
                         (Z.land s3 63), 4%nat)
              end
          end
      end
  end.

Fixpoint dropBytes (n : nat) (s : string) : string :=
  match n, s with
  | O, _ => s
  | S n', String _ r => dropBytes n' r
  | S _, "" => ""
  end.

(** ** Errors *)

Inductive Errno :=
  ENOENT | EEXIST | ENOTDIR | EISDIR | ENOTEMPTY | EACCES | EBADF | EMFILE | ENOSPC | EIO.

(** Go's [error] values the package meets: [*os.PathError], [*os.LinkError]
    and [os.ErrInvalid] (a method called on a nil [*os.File]). *)
Inductive error :=
| PathError (op path : string) (e : Errno)
| LinkError (op old new : string) (e : Errno)
| ErrInvalid.

(** [os.IsExist]. *)
Definition os_IsExist (err : error) : bool :=
  match err with
  | PathError _ _ EEXIST | PathError _ _ ENOTEMPTY
  | LinkError _ _ _ EEXIST | LinkError _ _ _ ENOTEMPTY => true
  | _ => false
  end.

(** ** What the embedding takes from the Go libraries as given

    [fmt]'s verbs, [filepath.Clean], the header [log.Logger] writes in front
    of a line and the part of Unicode's case-folding table that relates two
    non-ASCII runes are data of the Go distribution, not of this package.
    Every definition and theorem below is parametric in them. *)
Class GoLibrary := {
  (** an [interface{}] operand of a variadic emit call *)
  Value : Type;
  strV : string -> Value;
  intV : Z -> Value;
  sliceV : list Value -> Value;
  errV : error -> Value;
  fmt_Sprintf : string -> list Value -> string;
  fmt_Sprint : list Value -> string;
  fmt_Sprintln : list Value -> string;
  filepath_Clean : string -> string;
  filepath_Base : string -> string;
  (** [unicode_orbit a b]: for non-ASCII runes [a < b], iterating
      [unicode.SimpleFold] from [a] reaches [b] *)
  unicode_orbit : Z -> Z -> bool;
}.

Section Library.
Context `{GoLibrary}.

(** ** strings.EqualFold *)

(** The test both loops of [EqualFold] make once the runes differ and have
    been ordered ([sr < tr]) and both are ASCII. *)
Definition asciiFoldPair (sr tr : Z) : bool :=
  (65 <=? sr) && (sr <=? 90) && (tr =? sr + 32).

(** The general case: [r := SimpleFold(sr); for r != sr && r < tr
    { r = SimpleFold(r) }; r == tr].  For an ASCII [sr] the orbits are known:
    only K, k (with U+212A, the Kelvin sign) and S, s (with U+017F, the
    long s) have a member outside ASCII. *)
Definition simpleFoldReaches (sr tr : Z) : bool :=
  if sr <? RuneSelf then
    (((sr =? 75) || (sr =? 107)) && (tr =? 8490))
    || (((sr =? 83) || (sr =? 115)) && (tr =? 383))
  else unicode_orbit sr tr.

Definition runeFoldEq (sr0 tr0 : Z) : bool :=
  if tr0 =? sr0 then true
  else
    let sr := Z.min sr0 tr0 in
    let tr := Z.max sr0 tr0 in
    if tr <? RuneSelf then asciiFoldPair sr tr
    else simpleFoldReaches sr tr.

(** The [hasUnicode] loop: one rune of [s] against one rune of [t].  Every
    rune is at least one byte wide, so [String.length s] iterations are
    enough; [fuel] is that bound. *)
Fixpoint foldRunes (fuel : nat) (s t : string) : bool :=
  match s with
  | "" => bool_decide (t = "")
  | String _ _ =>
    match fuel with
    | O => false
    | S fuel' =>
      let '(sr, n) := DecodeRuneInString s in
      match t with
      | "" => false
      | String c _ =>
        let '(tr, m) :=
          if byte c <? RuneSelf then (byte c, 1%nat) else DecodeRuneInString t in
        if runeFoldEq sr tr
        then foldRunes fuel' (dropBytes n s) (dropBytes m t)
        else false
      end
    end
  end.

(** The ASCII fast path, byte by byte, leaving for [foldRunes] at the first
    position where either byte is not ASCII. *)
Fixpoint EqualFold (s t : string) : bool :=
  match s, t with
  | String a s', String b t' =>
    let sr := byte a in
    let tr := byte b in
    if RuneSelf <=? Z.lor sr tr then foldRunes (String.length s) s t
    else if tr =? sr then EqualFold s' t'
    else if asciiFoldPair (Z.min sr tr) (Z.max sr tr) then EqualFold s' t'
    else false
  | "", "" => true
  | _, _ => false
  end.

End Library.

(** ** time.Time, Format and Parse with the layout [DateFormat] *)

(** A wall-clock reading by its civil fields ([Time.Date], [Time.Clock] and
    the nanosecond). *)
Record Time := mkTime {
  year : Z; month : Z; day : Z;
  hour : Z; minute : Z; second : Z; nsec : Z
}.

(** [Time{}], which [time.Parse] returns together with an error. *)
Definition zeroTime : Time := mkTime 1 1 1 0 0 0 0.

Definition midnight (y m d : Z) : Time := mkTime y m d 0 0 0 0.

Definition DateFormat : string := "2006-01-02".
Definition TimeFormat : string := "2006-01-02 15:04:05".

Fixpoint zeros (n : nat) : string :=
  match n with O => "" | S n' => String "0" (zeros n') end.

Definition decimal (u : Z) : string := NilZero.string_of_int (Z.to_int u).

(** [appendInt] of package time: a sign for negative [x], then the decimal
    digits of [|x|] padded with zeros on the left up to [width]. *)
Definition appendInt (x : Z) (width : nat) : string :=
  let u := Z.abs x in
  let digits := decimal u in
  (if x <? 0 then "-" else "")
    +:+ zeros (width - String.length digits) +:+ digits.

(** [t.Format(DateFormat)]: [stdLongYear], [stdZeroMonth], [stdZeroDay]. *)
Definition Format_Date (t : Time) : string :=
  appendInt (year t) 4 +:+ "-" +:+ appendInt (month t) 2
    +:+ "-" +:+ appendInt (day t) 2.

(** [t.Format(TimeFormat)]. *)
Definition Format_Time (t : Time) : string :=
  Format_Date t +:+ " " +:+ appendInt (hour t) 2 +:+ ":"
    +:+ appendInt (minute t) 2 +:+ ":" +:+ appendInt (second t) 2.

Definition isDigit (c : ascii) : bool := (48 <=? byte c) && (byte c <=? 57).
Definition digitVal (c : ascii) : Z := byte c - 48.

Definition isLeap (y : Z) : bool :=
  (y mod 4 =? 0) && (negb (y mod 100 =? 0) || (y mod 400 =? 0)).

Definition daysIn (m y : Z) : Z :=
  if (m =? 2) && isLeap y then 29
  else if m =? 2 then 28
  else if (m =? 4) || (m =? 6) || (m =? 9) || (m =? 11) then 30
  else 31.

(** [getnum(s, true)]: exactly two digits. *)
Definition getnum2 (s : string) : option (Z * string) :=
  match s with
  | String a (String b r) =>
    if isDigit a && isDigit b then Some (digitVal a * 10 + digitVal b, r) else None
  | _ => None
  end.

(** [skip(value, "-")]. *)
Definition skipDash (s : string) : option string :=
  match s with
  | String c r => if byte c =? 45 then Some r else None
  | "" => None
  end.

(** The [stdLongYear] case: four bytes, all digits ([atoi] rejects the rest). *)
Definition getyear (s : string) : option (Z * string) :=
  match s with
  | String a (String b (String c (String d r))) =>
    if isDigit a && isDigit b && isDigit c && isDigit d
    then Some (((digitVal a * 10 + digitVal b) * 10 + digitVal c) * 10 + digitVal d, r)
    else None
  | _ => None
  end.

(** [time.Parse(DateFormat, value)]: the time and whether an error came with
    it.  Month and day are range-checked, text after the day is an error,
    and every error comes with [Time{}]. *)
Definition Parse_Date (value : string) : Time * bool :=
  match getyear value with
  | None => (zeroTime, true)
  | Some (y, v1) =>
    match skipDash v1 with
    | None => (zeroTime, true)
    | Some v2 =>
      match getnum2 v2 with
      | None => (zeroTime, true)
      | Some (m, v3) =>
        match skipDash v3 with
        | None => (zeroTime, true)
        | Some v4 =>
          match getnum2 v4 with
          | None => (zeroTime, true)
          | Some (d, v5) =>
            if negb (bool_decide (v5 = "")) then (zeroTime, true)
            else if (m <=? 0) || (12 <? m) then (zeroTime, true)
            else if (d <? 1) || (daysIn m y <? d) then (zeroTime, true)
            else (midnight y m d, false)
          end
        end
      end
    end
  end.

(** [t, _ := time.Parse(DateFormat, time.Now().Format(DateFormat))], the
    expression that log.go uses three times to cut a reading down to its
    day.  The error is dropped, as in the source. *)
Definition dayOf (now : Time) : Time := fst (Parse_Date (Format_Date now)).

Definition lexLt (a b : list Z) : bool :=
  (fix go (a b : list Z) : bool :=
     match a, b with
     | x :: a', y :: b' => (x <? y) || ((x =? y) && go a' b')
     | _, _ => false
     end) a b.

Definition fields (t : Time) : list Z :=
  [year t; month t; day t; hour t; minute t; second t; nsec t].

(** [t.After(u)]. *)
Definition After (t u : Time) : bool := lexLt (fields u) (fields t).

(** A calendar date with a four-digit year, as the clock gives them. *)
Definition validDate (t : Time) : Prop :=
  0 <= year t <= 9999 /\ 1 <= month t <= 12
  /\ 1 <= day t <= daysIn (month t) (year t).

(** Checks of [appendInt] against the parser's readers, run below on every
    four-digit year and every two-digit field. *)
Definition fmt4OK (y : Z) : bool :=
  match appendInt y 4 with
  | String a (String b (String c (String d ""))) =>
    isDigit a && isDigit b && isDigit c && isDigit d
    && ((((digitVal a * 10 + digitVal b) * 10 + digitVal c) * 10 + digitVal d) =? y)
  | _ => false
  end.

Definition fmt2OK (m : Z) : bool :=
  match appendInt m 2 with
  | String a (String b "") =>
    isDigit a && isDigit b && (digitVal a * 10 + digitVal b =? m)
  | _ => false
  end.

Definition upTo (n : Z) : list Z := List.map Z.of_nat (List.seq 0 (Z.to_nat n)).

(** ** The package's data *)

(** [type LEVEL byte] and its six constants, in [iota] order. *)
Inductive LEVEL := TRACE | DEBUG | INFO | WARN | ERROR | OFF.

Definition LEVEL_byte (l : LEVEL) : Z :=
  match l with
  | TRACE => 0 | DEBUG => 1 | INFO => 2 | WARN => 3 | ERROR => 4 | OFF => 5
  end.

(** [a <= b] on two [LEVEL] bytes. *)
Definition LEVEL_le (a b : LEVEL) : bool := LEVEL_byte a <=? LEVEL_byte b.

Record LoggerConf := mkConf {
  FileDir : string; FileName : string; Prefix : string; Level : string
}.

(** [*os.File]: a descriptor and the name it was opened under. *)
Record File := mkFile { fd : nat; name : string }.

(** [*log.Logger] as [log.New] builds it. *)
Record Logger := mkLogger { out : option File; lprefix : string; lflag : Z }.

Definition Ldate : Z := 1.
Definition Ltime : Z := 2.
Definition Lmicroseconds : Z := 4.
Definition Lmsgprefix : Z := 64.
Definition LstdFlags : Z := Z.lor Ldate Ltime.

Definition log_New (f : option File) (pre : string) (flag : Z) : Logger := mkLogger f pre flag.

(** [sync.RWMutex]: whether a writer holds it and how many readers do. *)
Record RWMutex := mkMutex { writer : bool; readers : nat }.

(** [chan string] with a buffer. *)
Record Chan := mkChan { buf : list string; cap : Z; closed : bool }.

Definition make_chan (n : Z) : Chan := mkChan [] n false.

(** The package-level variables of log.go.  Pointers are [option]s, [None]
    being [nil]; before [BootLogger] every field has Go's zero value. *)
Record Services := mkServices {
  fileDir : string;
  fileName : string;
  prefix : string;
  date : option Time;
  logFile : option File;
  logger : option Logger;
  logLevel : LEVEL;
  mutex : option RWMutex;
  logChan : option Chan
}.

Definition zeroServices : Services :=
  mkServices "" "" "" None None None TRACE None None.

Definition set_fileDir (x : string) (p : Services) : Services :=
  mkServices x (fileName p) (prefix p) (date p) (logFile p) (logger p) (logLevel p) (mutex p) (logChan p).
Definition set_fileName (x : string) (p : Services) : Services :=
  mkServices (fileDir p) x (prefix p) (date p) (logFile p) (logger p) (logLevel p) (mutex p) (logChan p).
Definition set_prefix (x : string) (p : Services) : Services :=
  mkServices (fileDir p) (fileName p) x (date p) (logFile p) (logger p) (logLevel p) (mutex p) (logChan p).
Definition set_date (x : option Time) (p : Services) : Services :=
  mkServices (fileDir p) (fileName p) (prefix p) x (logFile p) (logger p) (logLevel p) (mutex p) (logChan p).
Definition set_logFile (x : option File) (p : Services) : Services :=
  mkServices (fileDir p) (fileName p) (prefix p) (date p) x (logger p) (logLevel p) (mutex p) (logChan p).
Definition set_logger (x : option Logger) (p : Services) : Services :=
  mkServices (fileDir p) (fileName p) (prefix p) (date p) (logFile p) x (logLevel p) (mutex p) (logChan p).
Definition set_logLevel (x : LEVEL) (p : Services) : Services :=
  mkServices (fileDir p) (fileName p) (prefix p) (date p) (logFile p) (logger p) x (mutex p) (logChan p).
Definition set_mutex (x : option RWMutex) (p : Services) : Services :=
  mkServices (fileDir p) (fileName p) (prefix p) (date p) (logFile p) (logger p) (logLevel p) x (logChan p).
Definition set_logChan (x : option Chan) (p : Services) : Services :=
  mkServices (fileDir p) (fileName p) (prefix p) (date p) (logFile p) (logger p) (logLevel p) (mutex p) x.

(** ** The world around the package *)

(** A name in the file system is a directory or a file with an inode. *)
Inductive Node := NDir | NFile (ino : nat).

(** An open descriptor: the inode it refers to and the flags of the open. *)
Record Descr := mkDescr { d_ino : nat; d_flag : Z }.

Definition O_RDWR : Z := 2.
Definition O_CREATE : Z := 64.
Definition O_APPEND : Z := 1024.

(** One frame of the running goroutine's stack, as [runtime.Caller]
    reports it. *)
Record Frame := mkFrame { fr_file : string; fr_line : Z }.

Inductive Goroutine := G_logWriter | G_fileMonitor.

(** What the process does that can be seen from outside, in program order. *)
Inductive Event :=
| EvCaller (skip : nat)
| EvStdout (s : string)
| EvStderr (s : string)
| EvSend (s : string)
| EvGo (g : Goroutine)
| EvExit (code : Z).

(** - [names], [inodes]: the file system, names to nodes and inodes to the
      chunks written so far; "." and "/" always exist;
    - [fds]: the process's open descriptors;
    - [faults]: what the operating system does to the coming system calls,
      one entry per call: [Some e] makes the call fail with [e] whatever
      the file system holds (no descriptors left, disk full, permissions,
      a concurrent process), [None] or no entry lets it run;
    - [clock], [reads]: [time.Now()] returns [clock reads] and counts the
      reading;
    - [stack]: the frames of the running goroutine, innermost first, frame
      0 being that of the package function that runs;
    - [trace]: the events so far;
    - [toml]: what the configuration file answers for the four log keys. *)
Record World := mkWorld {
  names : gmap string Node;
  inodes : gmap nat (list string);
  fds : gmap nat Descr;
  faults : list (option Errno);
  clock : nat -> Time;
  reads : nat;
  stack : list Frame;
  trace : list Event;
  toml : LoggerConf
}.

Definition set_names (x : gmap string Node) (w : World) : World :=
  mkWorld x (inodes w) (fds w) (faults w) (clock w) (reads w) (stack w) (trace w) (toml w).
Definition set_inodes (x : gmap nat (list string)) (w : World) : World :=
  mkWorld (names w) x (fds w) (faults w) (clock w) (reads w) (stack w) (trace w) (toml w).
Definition set_fds (x : gmap nat Descr) (w : World) : World :=
  mkWorld (names w) (inodes w) x (faults w) (clock w) (reads w) (stack w) (trace w) (toml w).
Definition set_faults (x : list (option Errno)) (w : World) : World :=
  mkWorld (names w) (inodes w) (fds w) x (clock w) (reads w) (stack w) (trace w) (toml w).
Definition set_reads (x : nat) (w : World) : World :=
  mkWorld (names w) (inodes w) (fds w) (faults w) (clock w) x (stack w) (trace w) (toml w).
Definition set_stack (x : list Frame) (w : World) : World :=
  mkWorld (names w) (inodes w) (fds w) (faults w) (clock w) (reads w) x (trace w) (toml w).
Definition set_trace (x : list Event) (w : World) : World :=
  mkWorld (names w) (inodes w) (fds w) (faults w) (clock w) (reads w) (stack w) x (toml w).

Record State := mkState { pkg : Services; env : World }.

(** ** The monad *)

Inductive Outcome (A : Type) : Type :=
| Done (a : A)          (** the call returned *)
| Exit (code : Z)       (** [os.Exit] *)
| Panic (msg : string)  (** a run-time panic is unwinding *)
| Block.                (** the goroutine is parked on a channel or a mutex *)
Arguments Done {A} a.
Arguments Exit {A} code.
Arguments Panic {A} msg.
Arguments Block {A}.

Definition M (A : Type) : Type := State -> Outcome A * State.

Definition ret {A} (a : A) : M A := fun s => (Done a, s).

Definition bind {A B} (m : M A) (k : A -> M B) : M B :=
  fun s =>
    match m s with
    | (Done a, s') => k a s'
    | (Exit c, s') => (Exit c, s')
    | (Panic msg, s') => (Panic msg, s')
    | (Block, s') => (Block, s')
    end.

Notation "x <- m ;; k" := (bind m (fun x => k))
  (at level 20, m at level 99, k at level 200, only parsing).
Notation "' pat <- m ;; k" := (bind m (fun x => match x with pat => k end))
  (at level 20, pat pattern, m at level 99, k at level 200, only parsing).
Notation "m ;;; k" := (bind m (fun _ => k))
  (at level 100, k at level 200, only parsing, right associativity).

Definition panic {A} (msg : string) : M A := fun s => (Panic msg, s).
Definition exit {A} (code : Z) : M A := fun s => (Exit code, s).
Definition block {A} : M A := fun s => (Block, s).

Definition getp {A} (f : Services -> A) : M A := fun s => (Done (f (pkg s)), s).
Definition modp (f : Services -> Services) : M unit :=
  fun s => (Done tt, mkState (f (pkg s)) (env s)).
Definition gete {A} (f : World -> A) : M A := fun s => (Done (f (env s)), s).
Definition mode (f : World -> World) : M unit :=
  fun s => (Done tt, mkState (pkg s) (f (env s))).

Definition emit (e : Event) : M unit := mode (fun w => set_trace (trace w ++ [e]) w).

(** [defer d] in front of [body]: [d] runs when [body] returns and when it
    panics, not when the process exits or the goroutine is parked. *)
Definition defer {A} (d : M unit) (body : M A) : M A :=
  fun s =>
    match body s with
    | (Done a, s') => (d ;;; ret a) s'
    | (Panic msg, s') => (d ;;; panic msg) s'
    | other => other
    end.

(** [defer func() { recover() }()] at the head of a goroutine's function:
    a panic in [body] ends the function quietly.  The result says whether
    the body ran to its end. *)
Definition recovering (body : M unit) : M bool :=
  fun s =>
    match body s with
    | (Done _, s') => (Done true, s')
    | (Panic _, s') => (Done false, s')
    | (Exit c, s') => (Exit c, s')
    | (Block, s') => (Block, s')
    end.

(** ** Run-time and operating-system primitives *)

Definition nl : string := String "010" "".
Definition esc : string := String "027" "".

(** [time.Now()]. *)
Definition time_Now : M Time :=
  t <- gete (fun w => clock w (reads w)) ;;
  mode (fun w => set_reads (S (reads w)) w) ;;;
  ret t.

(** [_, file, line, _ := runtime.Caller(skip)]: frame [skip] of the stack,
    or the zero values when the stack is not that deep. *)
Definition runtime_Caller (skip : nat) : M (string * Z) :=
  emit (EvCaller skip) ;;;
  gete (fun w =>
          match stack w !! skip with
          | Some f => (fr_file f, fr_line f)
          | None => ("", 0)
          end).

(** Running [m] as a call made from line [site] of the running function;
    the callee's frame stands at its line [inner] while [m] runs. *)
Definition callAt {A} (site inner : Z) (m : M A) : M A :=
  fun s =>
    let st := stack (env s) in
    let callee :=
      match st with
      | f :: r => mkFrame (fr_file f) inner :: mkFrame (fr_file f) site :: r
      | [] => [mkFrame "" inner]
      end in
    let '(o, s') := m (mkState (pkg s) (set_stack callee (env s))) in
    (o, mkState (pkg s') (set_stack st (env s'))).

(** The next entry of [faults]. *)
Definition fault : M (option Errno) :=
  fs <- gete faults ;;
  match fs with
  | [] => ret None
  | f :: rest => mode (set_faults rest) ;;; ret f
  end.

Definition exists_ (ns : gmap string Node) (p : string) : bool :=
  bool_decide (p = ".") || bool_decide (p = "/") || bool_decide (is_Some (ns !! p)).

Definition isDir (ns : gmap string Node) (p : string) : bool :=
  bool_decide (p = ".") || bool_decide (p = "/")
  || match ns !! p with Some NDir => true | _ => false end.

(** The text before the last slash, if there is a slash. *)
Fixpoint dirPart (p : string) : option string :=
  match p with
  | "" => None
  | String c r =>
    match dirPart r with
    | Some d => Some (String c d)
    | None => if byte c =? 47 then Some "" else None
    end
  end.

Definition parentOf (p : string) : string :=
  match dirPart p with
  | None => "."
  | Some "" => "/"
  | Some d => d
  end.

(** [os.Stat(p)]; the [FileInfo] is not used by the package. *)
Definition os_Stat (p : string) : M (option error) :=
  f <- fault ;;
  match f with
  | Some e => ret (Some (PathError "stat" p e))
  | None =>
    ns <- gete names ;;
    if exists_ ns p then ret None else ret (Some (PathError "stat" p ENOENT))
  end.

(** [os.Mkdir(p, perm)]: one level, the parent must be there. *)
Definition os_Mkdir (p : string) (perm : Z) : M (option error) :=
  f <- fault ;;
  match f with
  | Some e => ret (Some (PathError "mkdir" p e))
  | None =>
    ns <- gete names ;;
    if bool_decide (p = "") then ret (Some (PathError "mkdir" p ENOENT))
    else if exists_ ns p then ret (Some (PathError "mkdir" p EEXIST))
    else if negb (isDir ns (parentOf p)) then ret (Some (PathError "mkdir" p ENOENT))
    else mode (set_names (<[p := NDir]> ns)) ;;; ret None
  end.

(** A new descriptor on inode [i]. *)
Definition newFile (p : string) (i : nat) (flag : Z) : M (option File * option error) :=
  ds <- gete fds ;;
  let n := fresh (dom ds) in
  mode (set_fds (<[n := mkDescr i flag]> ds)) ;;;
  ret (Some (mkFile n p), None).

(** [os.OpenFile(p, flag, perm)]: an existing file is opened as it is; a
    missing one is created empty when [flag] has [O_CREATE]. *)
Definition os_OpenFile (p : string) (flag perm : Z) : M (option File * option error) :=
  f <- fault ;;
  match f with
  | Some e => ret (None, Some (PathError "open" p e))
  | None =>
    ns <- gete names ;;
    match ns !! p with
    | Some (NFile i) => newFile p i flag
    | Some NDir => ret (None, Some (PathError "open" p EISDIR))
    | None =>
      if bool_decide (p = ".") || bool_decide (p = "/")
      then ret (None, Some (PathError "open" p EISDIR))
      else if (Z.land flag O_CREATE =? 0) || bool_decide (p = "")
              || negb (isDir ns (parentOf p))
      then ret (None, Some (PathError "open" p ENOENT))
      else
        tbl <- gete inodes ;;
        let i := fresh (dom tbl) in
        mode (set_inodes (<[i := []]> tbl)) ;;;
        mode (set_names (<[p := NFile i]> ns)) ;;;
        newFile p i flag
    end
  end.

(** [os.Rename(old, new)]: the node moves to the new name and replaces a
    file that is there.  A directory is moved as one entry. *)
Definition os_Rename (old new : string) : M (option error) :=
  f <- fault ;;
  match f with
  | Some e => ret (Some (LinkError "rename" old new e))
  | None =>
    ns <- gete names ;;
    match ns !! old with
    | None => ret (Some (LinkError "rename" old new ENOENT))
    | Some node =>
      if bool_decide (old = new) then ret None
      else if bool_decide (new = "") || negb (isDir ns (parentOf new))
      then ret (Some (LinkError "rename" old new ENOENT))
      else
        match node, ns !! new with
        | NFile _, Some NDir => ret (Some (LinkError "rename" old new EISDIR))
        | NDir, Some (NFile _) => ret (Some (LinkError "rename" old new ENOTDIR))
        | NDir, Some NDir => ret (Some (LinkError "rename" old new EEXIST))
        | _, _ =>
          if bool_decide (new = ".") || bool_decide (new = "/")
          then ret (Some (LinkError "rename" old new EISDIR))
          else mode (set_names (<[new := node]> (delete old ns))) ;;; ret None
        end
    end
  end.

(** [f.Close()] on a [*os.File] that may be nil. *)
Definition File_Close (f : option File) : M (option error) :=
  match f with
  | None => ret (Some ErrInvalid)
  | Some fl =>
    ds <- gete fds ;;
    match ds !! fd fl with
    | None => ret (Some (PathError "close" (name fl) EBADF))
    | Some _ =>
      mode (set_fds (delete (fd fl) ds)) ;;;
      e <- fault ;;
      match e with
      | Some e => ret (Some (PathError "close" (name fl) e))
      | None => ret None
      end
    end
  end.

(** [f.Write(data)] on a [*os.File] that may be nil. *)
Definition File_Write (fo : option File) (data : string) : M (option error) :=
  match fo with
  | None => ret (Some ErrInvalid)
  | Some f =>
  ds <- gete fds ;;
  match ds !! fd f with
  | None => ret (Some (PathError "write" (name f) EBADF))
  | Some d =>
    e <- fault ;;
    match e with
    | Some e => ret (Some (PathError "write" (name f) e))
    | None =>
      mode (fun w => set_inodes (alter (fun l => l ++ [data]) (d_ino d) (inodes w)) w) ;;;
      ret None
    end
  end
  end.

(** [logChan <- x]. *)
Definition chan_send (x : string) : M unit :=
  c <- getp logChan ;;
  match c with
  | None => block
  | Some ch =>
    if closed ch then panic "send on closed channel"
    else if Z.of_nat (List.length (buf ch)) <? cap ch
    then modp (set_logChan (Some (mkChan (buf ch ++ [x]) (cap ch) false))) ;;;
         emit (EvSend x)
    else block
  end.

(** [<-logChan]. *)
Definition chan_recv : M string :=
  c <- getp logChan ;;
  match c with
  | None => block
  | Some ch =>
    match buf ch with
    | x :: r => modp (set_logChan (Some (mkChan r (cap ch) (closed ch)))) ;;; ret x
    | [] => if closed ch then ret "" else block
    end
  end.

(** [close(logChan)]. *)
Definition chan_close : M unit :=
  c <- getp logChan ;;
  match c with
  | None => panic "close of nil channel"
  | Some ch =>
    if closed ch then panic "close of closed channel"
    else modp (set_logChan (Some (mkChan (buf ch) (cap ch) true)))
  end.

Definition mutex_Lock : M unit :=
  m <- getp mutex ;;
  match m with
  | None => panic "nil pointer dereference"
  | Some mu =>
    if writer mu || negb (readers mu =? 0)%nat then block
    else modp (set_mutex (Some (mkMutex true (readers mu))))
  end.

Definition mutex_Unlock : M unit :=
  m <- getp mutex ;;
  match m with
  | None => panic "nil pointer dereference"
  | Some mu =>
    if writer mu then modp (set_mutex (Some (mkMutex false (readers mu))))
    else panic "sync: Unlock of unlocked RWMutex"
  end.

Definition mutex_RLock : M unit :=
  m <- getp mutex ;;
  match m with
  | None => panic "nil pointer dereference"
  | Some mu =>
    if writer mu then block
    else modp (set_mutex (Some (mkMutex false (S (readers mu)))))
  end.

Definition mutex_RUnlock : M unit :=
  m <- getp mutex ;;
  match m with
  | None => panic "nil pointer dereference"
  | Some mu =>
    match readers mu with
    | O => panic "sync: RUnlock of unlocked RWMutex"
    | S n => modp (set_mutex (Some (mkMutex (writer mu) n)))
    end
  end.

Definition hasFlag (flag bit : Z) : bool := negb (Z.land flag bit =? 0).

(** [formatHeader] of package log for the flags this package sets. *)
Definition formatHeader (pre : string) (flag : Z) (t : Time) : string :=
  (if hasFlag flag Lmsgprefix then "" else pre)
  +:+ (if hasFlag flag Ldate
       then appendInt (year t) 4 +:+ "/" +:+ appendInt (month t) 2 +:+ "/"
            +:+ appendInt (day t) 2 +:+ " "
       else "")
  +:+ (if hasFlag flag (Z.lor Ltime Lmicroseconds)
       then appendInt (hour t) 2 +:+ ":" +:+ appendInt (minute t) 2 +:+ ":"
            +:+ appendInt (second t) 2
            +:+ (if hasFlag flag Lmicroseconds
                 then "." +:+ appendInt (nsec t / 1000) 6 else "")
            +:+ " "
       else "")
  +:+ (if hasFlag flag Lmsgprefix then pre else "").

Fixpoint endsWithNewline (s : string) : bool :=
  match s with
  | "" => false
  | String c "" => byte c =? 10
  | String _ r => endsWithNewline r
  end.

Definition withNewline (s : string) : string :=
  if endsWithNewline s then s else s +:+ nl.

(** [log.Output(calldepth, s)] on the standard logger: standard error,
    no prefix, [LstdFlags]. *)
Definition log_Output (calldepth : Z) (s : string) : M unit :=
  now <- time_Now ;;
  emit (EvStderr (formatHeader "" LstdFlags now +:+ withNewline s)).

(** [l.Output(calldepth, s)] on a [*log.Logger] that may be nil. *)
Definition Logger_Output (l : option Logger) (calldepth : Z) (s : string) : M (option error) :=
  now <- time_Now ;;
  match l with
  | None => panic "nil pointer dereference"
  | Some lg => File_Write (out lg) (formatHeader (lprefix lg) (lflag lg) now +:+ withNewline s)
  end.

Definition os_Exit {A} (code : Z) : M A :=
  emit (EvExit code) ;;; exit code.

(** [go f()]. *)
Definition go (g : Goroutine) : M unit := emit (EvGo g).

(** ** The package *)

Section Package.
Context `{GoLibrary}.

(** [filepath.Join(a, b)]: the elements from the first non-empty one on,
    joined by the separator and cleaned; the empty string when both are
    empty. *)
Definition filepath_Join (a b : string) : string :=
  if negb (bool_decide (a = "")) then filepath_Clean (a +:+ "/" +:+ b)
  else if negb (bool_decide (b = "")) then filepath_Clean b
  else "".

(** [fmt.Printf]: standard output. *)
Definition fmt_Printf (format : string) (v : list Value) : M unit :=
  emit (EvStdout (fmt_Sprintf format v)).

(** [log.Println(v...)]. *)
Definition log_Println (v : list Value) : M unit :=
  log_Output 2 (fmt_Sprintln v).

(** The four getters of system.go.  Loading the configuration file is not
    part of the model: the world answers. *)
Definition GetLogsDir : M string := gete (fun w => FileDir (toml w)).
Definition GetLogsFilename : M string := gete (fun w => FileName (toml w)).
Definition GetLogsPrefix : M string := gete (fun w => Prefix (toml w)).
Definition GetLogsLevel : M string := gete (fun w => Level (toml w)).

(** log.go, lines 274-276. *)
Definition setNowTime : M string :=
  now <- time_Now ;; ret (Format_Time now).

(** log.go, lines 109-112. *)
Definition isMustSplit : M bool :=
  now <- time_Now ;;
  let t := dayOf now in
  d <- getp date ;;
  match d with
  | None => panic "nil pointer dereference"
  | Some anchor => ret (After t anchor)
  end.

(** log.go, lines 115-123. *)
Definition isExistOrCreate : M unit :=
  dir <- getp fileDir ;;
  err <- os_Stat dir ;;
  match err with
  | Some e =>
    if negb (os_IsExist e) then
      mkdirErr <- os_Mkdir dir 493 ;;
      match mkdirErr with
      | Some me => log_Println [strV "Create dir failed, error: "; errV me]
      | None => ret tt
      end
    else ret tt
  | None => ret tt
  end.

Definition openFlags : Z := Z.lor (Z.lor O_RDWR O_APPEND) O_CREATE.
Definition loggerFlags : Z := Z.lor LstdFlags Lmicroseconds.

(** log.go, lines 126-152. *)
Definition split : M (option error) :=
  mutex_Lock ;;;
  defer mutex_Unlock (
    dir <- getp fileDir ;;
    nm <- getp fileName ;;
    let sourceLog := filepath_Join dir nm in
    d <- getp date ;;
    match d with
    | None => panic "nil pointer dereference"
    | Some anchor =>
      let targetLog := sourceLog +:+ "." +:+ Format_Date anchor in
      lf <- getp logFile ;;
      (match lf with
       | Some _ => _ <- File_Close lf ;; ret tt
       | None => ret tt
       end) ;;;
      err <- os_Rename sourceLog targetLog ;;
      match err with
      | Some e => ret (Some e)
      | None =>
        now <- time_Now ;;
        modp (set_date (Some (dayOf now))) ;;;
        '(f, err) <- os_OpenFile sourceLog openFlags 438 ;;
        modp (set_logFile f) ;;;
        match err with
        | Some e => ret (Some e)
        | None =>
          pre <- getp prefix ;;
          modp (set_logger (Some (log_New f pre loggerFlags))) ;;;
          ret None
        end
      end
    end).

(** log.go, lines 192-195. *)
Definition Printf (format : string) (v : list Value) : M unit :=
  '(file, line) <- runtime_Caller 1 ;;
  chan_send (fmt_Sprintf "[%v:%v]"
               [strV (fmt_Sprintf format v +:+ filepath_Base file); intV line]).

(** log.go, lines 198-201. *)
Definition Print (v : list Value) : M unit :=
  '(file, line) <- runtime_Caller 1 ;;
  chan_send (fmt_Sprintf "[%v:%v]"
               [strV (fmt_Sprint v +:+ filepath_Base file); intV line]).

(** log.go, lines 204-207. *)
Definition Println (v : list Value) : M unit :=
  '(file, line) <- runtime_Caller 1 ;;
  chan_send (fmt_Sprintf "[%v:%v]" [strV (filepath_Base file); intV line]
               +:+ fmt_Sprintln v).

(** log.go, lines 210-215. *)
Definition Fatal (v : list Value) : M unit :=
  '(file, line) <- runtime_Caller 1 ;;
  chan_send (fmt_Sprintf "%v:%v]"
               [strV (fmt_Sprintf "[ERROR] [" [] +:+ filepath_Base file); intV line]
               +:+ fmt_Sprintln v) ;;;
  log_Output 2 (fmt_Sprintln [sliceV v]) ;;;
  os_Exit 1.

(** log.go, lines 218-223. *)
Definition Fatally (v : list Value) : M unit :=
  '(file, line) <- runtime_Caller 1 ;;
  chan_send (fmt_Sprintf "%v:%v]"
               [strV (fmt_Sprintf "[ERROR] [" [] +:+ filepath_Base file); intV line]
               +:+ fmt_Sprintln v) ;;;
  log_Output 2 (fmt_Sprintln [sliceV v]) ;;;
  os_Exit 1.

(** log.go, lines 226-231. *)
Definition Trace (format : string) (v : list Value) : M unit :=
  '(file, line) <- runtime_Caller 2 ;;
  lvl <- getp logLevel ;;
  if LEVEL_le lvl TRACE then
    chan_send (fmt_Sprintf "%v:%v]"
                 [strV (fmt_Sprintf "[TRACE] [" [] +:+ filepath_Base file); intV line]
                 +:+ fmt_Sprintf (" " +:+ format) v)
  else ret tt.

(** log.go, lines 234-241. *)
Definition Debug (format : string) (v : list Value) : M unit :=
  '(file, line) <- runtime_Caller 1 ;;
  let s := fmt_Sprintf "%v:%v:%v%v]"
             [strV (fmt_Sprintf "[DEBUG] [" [] +:+ filepath_Base file); intV line;
              strV format; sliceV v] in
  now <- setNowTime ;;
  fmt_Printf ("%s" +:+ esc +:+ "[0;40;34m%s" +:+ esc +:+ "[0m" +:+ nl) [strV now; strV s] ;;;
  lvl <- getp logLevel ;;
  if LEVEL_le lvl DEBUG then
    chan_send (fmt_Sprintf "%v:%v]"
                 [strV (fmt_Sprintf "[DEBUG] [" [] +:+ filepath_Base file); intV line]
                 +:+ fmt_Sprintf (" " +:+ format) v)
  else ret tt.

(** log.go, lines 244-251. *)
Definition Info (format : string) (v : list Value) : M unit :=
  '(file, line) <- runtime_Caller 1 ;;
  let s := fmt_Sprintf "%v:%v:%v%v]"
             [strV (fmt_Sprintf "[INFO] [" [] +:+ filepath_Base file); intV line;
              strV format; sliceV v] in
  now <- setNowTime ;;
  fmt_Printf ("%s" +:+ esc +:+ "[0;40;32m%s" +:+ esc +:+ "[0m" +:+ nl) [strV now; strV s] ;;;
  lvl <- getp logLevel ;;
  if LEVEL_le lvl INFO then
    chan_send (fmt_Sprintf "%v:%v]"
                 [strV (fmt_Sprintf "[INFO] [" [] +:+ filepath_Base file); intV line]
                 +:+ fmt_Sprintf (" " +:+ format) v)
  else ret tt.

(** log.go, lines 254-261. *)
Definition Warning (format : string) (v : list Value) : M unit :=
  '(file, line) <- runtime_Caller 1 ;;
  let s := fmt_Sprintf "%v:%v:%v%v]"
             [strV (fmt_Sprintf "[WARN] [" [] +:+ filepath_Base file); intV line;
              strV format; sliceV v] in
  now <- setNowTime ;;
  fmt_Printf ("%s" +:+ esc +:+ "[0;40;33m%s" +:+ esc +:+ "[0m" +:+ nl) [strV now; strV s] ;;;
  lvl <- getp logLevel ;;
  if LEVEL_le lvl WARN then
    chan_send (fmt_Sprintf "%v:%v]"
                 [strV (fmt_Sprintf "[WARN] [" [] +:+ filepath_Base file); intV line]
                 +:+ fmt_Sprintf (" " +:+ format) v)
  else ret tt.

(** log.go, lines 264-271. *)
Definition Error (format : string) (v : list Value) : M unit :=
  '(file, line) <- runtime_Caller 1 ;;
  let s := fmt_Sprintf "%v:%v:%v%v]"
             [strV (fmt_Sprintf "[ERROR] [" [] +:+ filepath_Base file); intV line;
              strV format; sliceV v] in
  now <- setNowTime ;;
  fmt_Printf ("%s" +:+ esc +:+ "[0;40;31m%s" +:+ esc +:+ "[0m" +:+ nl) [strV now; strV s] ;;;
  lvl <- getp logLevel ;;
  if LEVEL_le lvl ERROR then
    chan_send (fmt_Sprintf "%v:%v]"
                 [strV (fmt_Sprintf "[ERROR] [" [] +:+ filepath_Base file); intV line]
                 +:+ fmt_Sprintf (" " +:+ format) v)
  else ret tt.

(** One turn of the loop of [logWriter] (log.go, lines 158-163). *)
Definition logWriter_body : M unit :=
  str <- chan_recv ;;
  mutex_RLock ;;;
  lg <- getp logger ;;
  _ <- Logger_Output lg 2 str ;;
  mutex_RUnlock.

(** The same under the function's [defer func() { recover() }()]: [true]
    when the loop goes on, [false] when a panic ended the goroutine. *)
Definition logWriter_turn : M bool := recovering logWriter_body.

(** One turn of the loop of [fileMonitor] once the ticker has fired
    (log.go, lines 174-178).  [Error] is entered from line 176 and asks for
    its caller from its own line 265. *)
Definition fileMonitor_body : M unit :=
  due <- isMustSplit ;;
  if due then
    err <- split ;;
    match err with
    | Some e => callAt 176 265 (Error ("Log split error: %v" +:+ nl) [errV e])
    | None => ret tt
    end
  else ret tt.

Definition fileMonitor_turn : M bool := recovering fileMonitor_body.

(** log.go, lines 183-189. *)
Definition CloseLogger : M unit :=
  c <- getp logChan ;;
  match c with
  | Some _ =>
    chan_close ;;;
    modp (set_logger None) ;;;
    lf <- getp logFile ;;
    _ <- File_Close lf ;;
    ret tt
  | None => ret tt
  end.

(** The threshold chosen by lines 68-80 of [BootLogger]. *)
Definition bootLevel (level : string) : LEVEL :=
  if EqualFold level "OFF" then OFF
  else if EqualFold level "TRACE" then TRACE
  else if EqualFold level "INFO" then INFO
  else if EqualFold level "WARN" then WARN
  else if EqualFold level "ERROR" then ERROR
  else DEBUG.

(** log.go, lines 54-106. *)
Definition BootLogger : M (option error) :=
  dir <- GetLogsDir ;;
  nm <- GetLogsFilename ;;
  pre <- GetLogsPrefix ;;
  lvl <- GetLogsLevel ;;
  let conf := mkConf dir nm pre lvl in
  modp (set_fileDir (FileDir conf)) ;;;
  modp (set_fileName (FileName conf)) ;;;
  modp (set_prefix (Prefix conf)) ;;;
  modp (set_mutex (Some (mkMutex false 0))) ;;;
  modp (set_logChan (Some (make_chan 8000))) ;;;
  modp (set_logLevel (bootLevel (Level conf))) ;;;
  now <- time_Now ;;
  modp (set_date (Some (dayOf now))) ;;;
  due <- isMustSplit ;;
  err <- (if due then split
          else
            isExistOrCreate ;;;
            d <- getp fileDir ;;
            n <- getp fileName ;;
            let logFilepath := filepath_Join d n in
            '(f, err) <- os_OpenFile logFilepath openFlags 438 ;;
            modp (set_logFile f) ;;;
            match err with
            | Some e => ret (Some e)
            | None =>
              p <- getp prefix ;;
              modp (set_logger (Some (log_New f p loggerFlags))) ;;;
              ret None
            end) ;;
  match err with
  | Some e => ret (Some e)
  | None =>
    go G_logWriter ;;;
    go G_fileMonitor ;;;
    ret None
  end.

End Package.

(** ** A small instance of the library, to run the package on examples

    Operands are given by the text [%v] prints for them; [Sprintf] replaces
    each [%v] and [%s] by the next operand; paths are taken as clean. *)

Fixpoint joinWith (sep : string) (l : list string) : string :=
  match l with
  | [] => ""
  | [x] => x
  | x :: r => x +:+ sep +:+ joinWith sep r
  end.

Fixpoint subst (format : string) (v : list string) : string :=
  match format with
  | String "%" (String c r) =>
    if (byte c =? 118) || (byte c =? 115) then
      match v with
      | x :: v' => x +:+ subst r v'
      | [] => "%!" +:+ String c "(MISSING)" +:+ subst r []
      end
    else String "%" (String c (subst r v))
  | String c r => String c (subst r v)
  | "" => ""
  end.

Fixpoint baseName (acc p : string) : string :=
  match p with
  | "" => acc
  | String c r => if byte c =? 47 then baseName "" r else baseName (acc +:+ String c "") r
  end.

Definition errText (e : error) : string :=
  match e with
  | PathError op p _ => op +:+ " " +:+ p +:+ ": failed"
  | LinkError op a b _ => op +:+ " " +:+ a +:+ " " +:+ b +:+ ": failed"
  | ErrInvalid => "invalid argument"
  end.

Definition plainLibrary : GoLibrary := {|
  Value := string;
  strV := fun s => s;
  intV := fun z => decimal z;
  sliceV := fun l => "[" +:+ joinWith " " l +:+ "]";
  errV := errText;
  fmt_Sprintf := subst;
  fmt_Sprint := joinWith "";
  fmt_Sprintln := fun l => joinWith " " l +:+ nl;
  filepath_Clean := fun p => p;
  filepath_Base := baseName "";
  unicode_orbit := fun _ _ => false
|}.

(** ** Vocabulary for the statements *)

(** The 256 bytes. *)
Definition allAscii : list ascii := List.map ascii_of_nat (List.seq 0 256).

(** The first two bytes of a well-formed multi-byte encoding already put
    the rune outside ASCII. *)
Definition leadOK (c c1 : ascii) : bool :=
  let s0 := byte c in
  let s1 := byte c1 in
  if (s0 <? 194) || (244 <? s0) then true
  else
    let '(lo, hi) :=
      if s0 =? 224 then (160, 191)
      else if s0 =? 237 then (128, 159)
      else if s0 =? 240 then (144, 191)
      else if s0 =? 244 then (128, 143)
      else (128, 191) in
    if negb (inRange lo hi s1) then true
    else if s0 <? 224 then 128 <=? Z.lor (Z.shiftl (Z.land s0 31) 6) (Z.land s1 63)
    else if s0 <? 240
         then 128 <=? Z.lor (Z.shiftl (Z.land s0 15) 12) (Z.shiftl (Z.land s1 63) 6)
    else 128 <=? Z.lor (Z.shiftl (Z.land s0 7) 18) (Z.shiftl (Z.land s1 63) 12).

(** ASCII upper-casing, byte by byte. *)
Definition upperByte (c : ascii) : ascii :=
  if (97 <=? byte c) && (byte c <=? 122)
  then ascii_of_N (N_of_ascii c - 32) else c.

Fixpoint upperAscii (s : string) : string :=
  match s with
  | "" => ""
  | String c r => String (upperByte c) (upperAscii r)
  end.

(** An upper-case ASCII letter other than K and S. *)
Definition plainUpperByte (c : ascii) : bool :=
  (65 <=? byte c) && (byte c <=? 90)
  && negb (byte c =? 75) && negb (byte c =? 83).

Fixpoint plainUpper (s : string) : bool :=
  match s with
  | "" => true
  | String c r => plainUpperByte c && plainUpper r
  end.

(** What one step of [EqualFold] does with a byte [a] of the input against
    a letter [b] of such a literal, checked on all pairs of bytes. *)
Definition stepOK (a b : ascii) : bool :=
  if plainUpperByte b then
    (byte b <? RuneSelf)
    && negb ((byte b =? 75) || (byte b =? 107))
    && negb ((byte b =? 83) || (byte b =? 115))
    && (if byte a <? 128
        then negb (RuneSelf <=? Z.lor (byte a) (byte b))
             && Bool.eqb ((byte b =? byte a)
                          || asciiFoldPair (Z.min (byte a) (byte b)) (Z.max (byte a) (byte b)))
                         (bool_decide (upperByte a = b))
        else (RuneSelf <=? Z.lor (byte a) (byte b))
             && negb (bool_decide (upperByte a = b)))
  else true.

(** The threshold as the specification words it: the level whose name the
    string is, letter case aside, and [DEBUG] for every other string. *)
Definition levelOfName (s : string) : LEVEL :=
  let u := upperAscii s in
  if bool_decide (u = "OFF") then OFF
  else if bool_decide (u = "TRACE") then TRACE
  else if bool_decide (u = "INFO") then INFO
  else if bool_decide (u = "WARN") then WARN
  else if bool_decide (u = "ERROR") then ERROR
  else DEBUG.


Section Reading.
Context `{GoLibrary}.

(** The emit operations of the package. *)
Inductive EmitOp :=
  EPrintf | EPrint | EPrintln | EFatal | EFatally
| ETrace | EDebug | EInfo | EWarning | EError.

Definition emitOp (op : EmitOp) (format : string) (v : list Value) : M unit :=
  match op with
  | EPrintf => Printf format v
  | EPrint => Print v
  | EPrintln => Println v
  | EFatal => Fatal v
  | EFatally => Fatally v
  | ETrace => Trace format v
  | EDebug => Debug format v
  | EInfo => Info format v
  | EWarning => Warning format v
  | EError => Error format v
  end.

(** The severity a leveled operation stands for; the Print family and the
    Fatal pair have none. *)
Definition severity (op : EmitOp) : option LEVEL :=
  match op with
  | ETrace => Some TRACE
  | EDebug => Some DEBUG
  | EInfo => Some INFO
  | EWarning => Some WARN
  | EError => Some ERROR
  | _ => None
  end.

Definition levelName (l : LEVEL) : string :=
  match l with
  | TRACE => "TRACE" | DEBUG => "DEBUG" | INFO => "INFO"
  | WARN => "WARN" | ERROR => "ERROR" | OFF => "OFF"
  end.

(** The lines waiting in the channel. *)
Definition queue (s : State) : list string :=
  match logChan (pkg s) with
  | Some ch => buf ch
  | None => []
  end.

(** The logger is running and a send would not block. *)
Definition ready (s : State) : Prop :=
  exists ch, logChan (pkg s) = Some ch /\ closed ch = false
             /\ Z.of_nat (List.length (buf ch)) < cap ch.

(** File and line of frame [k] of the stack. *)
Definition frameAt (k : nat) (s : State) : string * Z :=
  match stack (env s) !! k with
  | Some f => (fr_file f, fr_line f)
  | None => ("", 0)
  end.

(** A line with a bracketed level tag, the caller's base name and line, and
    the message. *)
Definition taggedLine (tag : string) (loc : string * Z) (msg : string) : string :=
  fmt_Sprintf "%v:%v]"
    [strV (fmt_Sprintf ("[" +:+ tag +:+ "] [") [] +:+ filepath_Base (fst loc));
     intV (snd loc)] +:+ msg.

(** A Print-family line: message and location inside one pair of brackets
    ([Printf], [Print]), or the location in brackets and then the message
    ([Println]). *)
Definition plainLine (op : EmitOp) (loc : string * Z) (format : string) (v : list Value) : string :=
  match op with
  | EPrintf => fmt_Sprintf "[%v:%v]" [strV (fmt_Sprintf format v +:+ filepath_Base (fst loc)); intV (snd loc)]
  | EPrint => fmt_Sprintf "[%v:%v]" [strV (fmt_Sprint v +:+ filepath_Base (fst loc)); intV (snd loc)]
  | _ => fmt_Sprintf "[%v:%v]" [strV (filepath_Base (fst loc)); intV (snd loc)] +:+ fmt_Sprintln v
  end.

Definition isPrintFamily (op : EmitOp) : bool :=
  match op with EPrintf | EPrint | EPrintln => true | _ => false end.

Definition isFatal (op : EmitOp) : bool :=
  match op with EFatal | EFatally => true | _ => false end.

(** The [skip] arguments of the calls to [runtime.Caller] in a trace. *)
Definition callerQueries (t : list Event) : list nat :=
  omap (fun e => match e with EvCaller k => Some k | _ => None end) t.

Definition goroutinesStarted (t : list Event) : list Goroutine :=
  omap (fun e => match e with EvGo g => Some g | _ => None end) t.

(** Every package variable but the mutex and the channel. *)
Definition core (s : State) : Services :=
  set_mutex None (set_logChan None (pkg s)).

(** The configured strings and the threshold. *)
Definition config (s : State) : string * string * string * LEVEL :=
  (fileDir (pkg s), fileName (pkg s), prefix (pkg s), logLevel (pkg s)).

(** What the package offers besides [BootLogger], loop bodies of the two
    goroutines included. *)
Inductive Operation :=
| Op_isMustSplit
| Op_isExistOrCreate
| Op_split
| Op_logWriter
| Op_fileMonitor
| Op_CloseLogger
| Op_setNowTime
| Op_emit (op : EmitOp) (format : string) (v : list Value).

(** The state an operation leaves. *)
Definition after (o : Operation) (s : State) : State :=
  match o with
  | Op_isMustSplit => snd (isMustSplit s)
  | Op_isExistOrCreate => snd (isExistOrCreate s)
  | Op_split => snd (split s)
  | Op_logWriter => snd (logWriter_turn s)
  | Op_fileMonitor => snd (fileMonitor_turn s)
  | Op_CloseLogger => snd (CloseLogger s)
  | Op_setNowTime => snd (setNowTime s)
  | Op_emit op format v => snd (emitOp op format v s)
  end.

Definition rotates (o : Operation) : bool :=
  match o with Op_split | Op_fileMonitor => true | _ => false end.

(** The state with another stack. *)
Definition withStack (st : list Frame) (s : State) : State :=
  mkState (pkg s) (set_stack st (env s)).

(** The state with another threshold. *)
Definition withLevel (l : LEVEL) (s : State) : State :=
  mkState (set_logLevel l (pkg s)) (env s).

(** [keeps f m]: running [m] does not change the observation [f] of the
    state, whatever the outcome. *)
Definition keeps {A B} (f : State -> B) (m : M A) : Prop :=
  forall s, f (snd (m s)) = f s.

(** [settles m]: [m] returns or panics; it neither parks the goroutine nor
    ends the process. *)
Definition settles {A} (m : M A) : Prop :=
  forall s, match fst (m s) with Done _ | Panic _ => True | _ => False end.

(** [returns m]: [m] returns, whatever the state. *)
Definition returns {A} (m : M A) : Prop :=
  forall s, exists a s', m s = (Done a, s').

End Reading.

(** ** The writer's loop, and more vocabulary

    [logWriter] is [defer func() { recover() }()] in front of an endless
    [for]; below are the first [fuel] iterations of that loop and the
    function around them. *)

Section Running.
Context `{GoLibrary}.

(** log.go, lines 158-163, at most [fuel] times round. *)
Fixpoint logWriter_for (fuel : nat) : M unit :=
  match fuel with
  | O => ret tt
  | S k => logWriter_body ;;; logWriter_for k
  end.

(** log.go, lines 155-164: [true] when the iterations ran to their end,
    [false] when a panic ended the goroutine. *)
Definition logWriter (fuel : nat) : M bool := recovering (logWriter_for fuel).

(** What [l.Output] writes for the lines [xs], the first one stamped with
    reading [r0] of the clock, the next with reading [r0 + 1], and so on. *)
Fixpoint rendered (lg : Logger) (clk : nat -> Time) (r0 : nat) (xs : list string)
  : list string :=
  match xs with
  | [] => []
  | x :: xs' =>
    (formatHeader (lprefix lg) (lflag lg) (clk r0) +:+ withNewline x)
      :: rendered lg clk (S r0) xs'
  end.

(** Whether an operation gets as far as its send under threshold [T]: the
    leveled ones when [T] is at most their level, the others always. *)
Definition passes (op : EmitOp) (T : LEVEL) : bool :=
  match severity op with
  | Some L => LEVEL_le T L
  | None => true
  end.

(** The colour code of the console line, for the four operations that
    print one (log.go, lines 237, 247, 257, 267). *)
Definition echoColor (op : EmitOp) : option string :=
  match op with
  | EDebug => Some "34"
  | EInfo => Some "32"
  | EWarning => Some "33"
  | EError => Some "31"
  | _ => None
  end.

(** The console line of a leveled operation called from [loc] at time
    [now]. *)
Definition consoleLine (color : string) (L : LEVEL) (loc : string * Z) (now : Time)
           (format : string) (v : list Value) : string :=
  fmt_Sprintf ("%s" +:+ esc +:+ "[0;40;" +:+ color +:+ "m%s" +:+ esc +:+ "[0m" +:+ nl)
    [strV (Format_Time now);
     strV (fmt_Sprintf "%v:%v:%v%v]"
             [strV (fmt_Sprintf ("[" +:+ levelName L +:+ "] [") []
                      +:+ filepath_Base (fst loc));
              intV (snd loc); strV format; sliceV v])].

(** What a trace wrote to standard output and to standard error. *)
Definition stdoutLines (t : list Event) : list string :=
  omap (fun e => match e with EvStdout x => Some x | _ => None end) t.

Definition stderrLines (t : list Event) : list string :=
  omap (fun e => match e with EvStderr x => Some x | _ => None end) t.

(** The file system and the descriptors. *)
Definition disk (s : State) :=
  (names (env s), inodes (env s), fds (env s)).

End Running.

(** ** config.go and system.go: where the four strings come from *)

(** [strings.LastIndex(s, substr)]: the index of the last place where
    [substr] starts in [s], or -1. *)
Fixpoint strings_HasPrefix (s pre : string) {struct pre} : bool :=
  match pre, s with
  | "", _ => true
  | String a pre', String b s' => Ascii.eqb a b && strings_HasPrefix s' pre'
  | String _ _, "" => false
  end.

Fixpoint strings_LastIndex (s substr : string) : Z :=
  match s with
  | "" => if strings_HasPrefix "" substr then 0 else -1
  | String _ r =>
    let i := strings_LastIndex r substr in
    if 0 <=? i then i + 1
    else if strings_HasPrefix s substr then 0 else -1
  end.

Fixpoint takeBytes (n : nat) (s : string) : string :=
  match n, s with
  | S n', String c r => String c (takeBytes n' r)
  | _, _ => ""
  end.

(** The slice expression [s[:i]], which panics out of range. *)
Definition sliceTo (s : string) (i : Z) : Outcome string :=
  if (i <? 0) || (Z.of_nat (String.length s) <? i)
  then Panic "slice bounds out of range"
  else Done (takeBytes (Z.to_nat i) s).

Definition PathSeparator : string := "/".

(** system.go, lines 99-102. *)
Definition GetLastPath (currentPath : string) : Outcome string :=
  let index := strings_LastIndex currentPath PathSeparator in
  sliceTo currentPath index.

(** A value of type [interface{}] as a toml tree hands it out. *)
Inductive TomlValue :=
| TNil                (** nil: the key is not there *)
| TStr (s : string)
| TInt (z : Z)        (** dynamic type [int] *)
| TInt64 (z : Z)      (** dynamic type [int64] *)
| TBool (b : bool)
| TOther.             (** a sub-tree, a float, a date, an array *)

(** go-toml's [*Tree], taken by its method [Get]; the receiver may be nil. *)
Class TomlTree := {
  Tree : Type;
  Tree_Get : option Tree -> string -> Outcome TomlValue
}.

(** A state monad over any state, with the outcomes of [M]. *)
Definition St (S A : Type) : Type := S -> Outcome A * S.

Definition retS {S A} (a : A) : St S A := fun s => (Done a, s).

Definition bindS {S A B} (m : St S A) (k : A -> St S B) : St S B :=
  fun s =>
    match m s with
    | (Done a, s') => k a s'
    | (Exit c, s') => (Exit c, s')
    | (Panic msg, s') => (Panic msg, s')
    | (Block, s') => (Block, s')
    end.

Notation "x <~ m ;; k" := (bindS m (fun x => k))
  (at level 20, m at level 99, k at level 200, only parsing).
Notation "' pat <~ m ;; k" := (bindS m (fun x => match x with pat => k end))
  (at level 20, pat pattern, m at level 99, k at level 200, only parsing).
Notation "m ;;~ k" := (bindS m (fun _ => k))
  (at level 100, k at level 200, only parsing, right associativity).

Definition getS {S A} (f : S -> A) : St S A := fun s => (Done (f s), s).
Definition modS {S} (f : S -> S) : St S unit := fun s => (Done tt, f s).
Definition liftO {S A} (o : Outcome A) : St S A := fun s => (o, s).

Section Config.
Context `{GoLibrary} `{TomlTree}.

(** config.go, lines 14-19. *)
Record TomlConfig := mkToml {
  keyName : string;
  value : TomlValue;
  Structured : TomlValue;
  cfg : option Tree
}.

Definition set_keyName (x : string) (tf : TomlConfig) : TomlConfig :=
  mkToml x (value tf) (Structured tf) (cfg tf).
Definition set_value (x : TomlValue) (tf : TomlConfig) : TomlConfig :=
  mkToml (keyName tf) x (Structured tf) (cfg tf).
Definition set_cfg (x : option Tree) (tf : TomlConfig) : TomlConfig :=
  mkToml (keyName tf) (value tf) (Structured tf) x.

(** The type assertions [v.(string)], [v.(int)] and [v.(bool)]. *)
Definition assertString {S} (v : TomlValue) : St S string :=
  match v with TStr s => retS s | _ => liftO (Panic "interface conversion") end.
Definition assertInt {S} (v : TomlValue) : St S Z :=
  match v with TInt z => retS z | _ => liftO (Panic "interface conversion") end.
Definition assertBool {S} (v : TomlValue) : St S bool :=
  match v with TBool b => retS b | _ => liftO (Panic "interface conversion") end.

(** [tf.cfg.Get(tf.keyName)]. *)
Definition cfg_Get : St TomlConfig TomlValue :=
  fun tf => (Tree_Get (cfg tf) (keyName tf), tf).

(** config.go, lines 36-39.  Each method returns its receiver; a chain
    [a.b().c()] is the sequence of the calls on the one object. *)
Definition Zone (key : string) : St TomlConfig unit :=
  modS (set_keyName key).

(** config.go, lines 42-45. *)
Definition Get (key : string) : St TomlConfig unit :=
  modS (fun tf => set_keyName (keyName tf +:+ "." +:+ key) tf).

(** config.go, lines 50-52. *)
Definition To : St TomlConfig TomlValue := cfg_Get.

(** config.go, lines 55-58. *)
Definition AtStr : St TomlConfig string :=
  v <~ cfg_Get ;; modS (set_value v) ;;~
  v' <~ getS value ;; assertString v'.

(** config.go, lines 61-64. *)
Definition AtInt : St TomlConfig Z :=
  v <~ cfg_Get ;; modS (set_value v) ;;~
  v' <~ getS value ;; assertInt v'.

(** config.go, lines 67-70. *)
Definition AtBool : St TomlConfig bool :=
  v <~ cfg_Get ;; modS (set_value v) ;;~
  v' <~ getS value ;; assertBool v'.

(** config.go, lines 73-77. *)
Definition Fetch (key : string) : St TomlConfig unit :=
  modS (fun tf => set_keyName (keyName tf +:+ "." +:+ key) tf) ;;~
  v <~ cfg_Get ;; modS (set_value v).

(** config.go, lines 80-84. *)
Definition Read (key : string) : St TomlConfig unit :=
  modS (set_keyName key) ;;~
  v <~ To ;; modS (set_value v).

(** config.go, lines 87-89, 92-94 and 97-99. *)
Definition ToStr : St TomlConfig string := v <~ getS value ;; assertString v.
Definition ToInt : St TomlConfig Z := v <~ getS value ;; assertInt v.
Definition ToBool : St TomlConfig bool := v <~ getS value ;; assertBool v.

(** What system.go and [NewToml] take from the host: the program's name,
    [exec.LookPath], [os.Getwd], [toml.LoadFile], the clock of the standard
    logger; and what they leave: the object behind the package variable
    [Toml] and the lines on standard error.  An error is kept as the
    operand [log.Println] prints. *)
Record Host := mkHost {
  h_args0 : string;
  h_LookPath : string -> string * option Value;
  h_Getwd : string * option Value;
  h_LoadFile : string -> option Tree * option Value;
  h_clock : nat -> Time;
  h_reads : nat;
  h_Toml : TomlConfig;
  h_stderr : list string
}.

Definition set_h_Toml (x : TomlConfig) (h : Host) : Host :=
  mkHost (h_args0 h) (h_LookPath h) (h_Getwd h) (h_LoadFile h) (h_clock h)
         (h_reads h) x (h_stderr h).

(** A chain of calls on [Toml]. *)
Definition onToml {A} (m : St TomlConfig A) : St Host A :=
  fun h => let '(o, tf) := m (h_Toml h) in (o, set_h_Toml tf h).

(** [log.Println(v...)] on the standard logger. *)
Definition host_Println (v : list Value) : St Host unit :=
  fun h =>
    (Done tt,
     mkHost (h_args0 h) (h_LookPath h) (h_Getwd h) (h_LoadFile h) (h_clock h)
            (S (h_reads h)) (h_Toml h)
            (h_stderr h ++ [formatHeader "" LstdFlags (h_clock h (h_reads h))
                            +:+ withNewline (fmt_Sprintln v)])).

(** [filepath.Join(elem...)]. *)
Fixpoint filepath_Joins (elem : list string) : string :=
  match elem with
  | [] => ""
  | e :: r =>
    if bool_decide (e = "") then filepath_Joins r
    else filepath_Clean (joinWith "/" elem)
  end.

Definition filepath_IsAbs (path : string) : bool := strings_HasPrefix path "/".

(** [filepath.Abs(path)]. *)
Definition filepath_Abs (path : string) : St Host (string * option Value) :=
  if filepath_IsAbs path then retS (filepath_Clean path, None)
  else
    '(wd, err) <~ getS h_Getwd ;;
    match err with
    | Some e => retS ("", Some e)
    | None => retS (filepath_Joins [wd; path], None)
    end.

(** [filepath.Dir(path)]: the text up to the last separator, cleaned. *)
Definition filepath_Dir (path : string) : string :=
  filepath_Clean
    (takeBytes (Z.to_nat (strings_LastIndex path PathSeparator + 1)) path).

(** system.go, lines 29-37. *)
Definition SetCurrentPath : St Host string :=
  current <~ getS h_args0 ;;
  '(path, err) <~ getS (fun h => h_LookPath h current) ;;
  (match err with
   | Some e => host_Println [strV "Set the current path error: "; e]
   | None => retS tt
   end) ;;~
  retS path.

(** system.go, lines 40-47. *)
Definition GetAbsPath (current : string) : St Host string :=
  '(absPath, err) <~ filepath_Abs current ;;
  (match err with
   | Some e => host_Println [strV "Get the current absolute of path error: "; e]
   | None => retS tt
   end) ;;~
  retS absPath.

(** system.go, lines 23-26. *)
Definition CurrentAndAbsPath : St Host string :=
  current <~ SetCurrentPath ;; GetAbsPath current.

(** system.go, lines 17-20. *)
Definition GetCurrentDir : St Host string :=
  currentPath <~ CurrentAndAbsPath ;; retS (filepath_Dir currentPath).

(** system.go, lines 105-109. *)
Definition GetRootPath : St Host string :=
  dir <~ GetCurrentDir ;;
  rootPath <~ liftO (GetLastPath dir) ;;
  retS (filepath_Joins [rootPath; PathSeparator]).

(** system.go, lines 112-115. *)
Definition GetCustomConfigDir (dirname : string) : St Host string :=
  rootPath <~ GetRootPath ;;
  retS (filepath_Joins [rootPath; dirname; PathSeparator]).

(** system.go, lines 118-121. *)
Definition GetCustomConfigPath (dirname filename : string) : St Host string :=
  configDir <~ GetCustomConfigDir dirname ;;
  retS (filepath_Joins [configDir; filename]).

(** config.go, lines 23-33, on the receiver [Toml]. *)
Definition NewToml (dirname filename : string) : St Host unit :=
  name <~ GetCustomConfigPath dirname filename ;;
  '(conf, err) <~ getS (fun h => h_LoadFile h name) ;;
  (match err with
   | Some e => host_Println [strV "Load toml file error: "; e]
   | None => retS tt
   end) ;;~
  onToml (modS (set_cfg conf)).

(** system.go, lines 68-75. *)
Definition GetConfigDir : string := "config".
Definition GetConfigPath : string := "logs.toml".

(** system.go, lines 78-82. *)
Definition GetToml : St Host unit := NewToml GetConfigDir GetConfigPath.

End Config.

(** The four getters as system.go has them.  The package above calls
    them by what they return, the answers of the world. *)
Module system.
Section Getters.
Context `{GoLibrary} `{TomlTree}.

(** system.go, lines 50-53. *)
Definition GetLogsFilename : St Host string :=
  GetToml ;;~ onToml (Zone "log" ;;~ Fetch "name" ;;~ ToStr).

(** system.go, lines 56-59. *)
Definition GetLogsPrefix : St Host string :=
  GetToml ;;~ onToml (Zone "log" ;;~ Fetch "prefix" ;;~ ToStr).

(** system.go, lines 62-65. *)
Definition GetLogsLevel : St Host string :=
  GetToml ;;~ onToml (Zone "log" ;;~ Fetch "level" ;;~ ToStr).

(** system.go, lines 85-96. *)
Definition GetLogsDir : St Host string :=
  rootPath <~ GetRootPath ;;
  GetToml ;;~
  relative <~ onToml (Zone "log" ;;~ Fetch "relative" ;;~ ToBool) ;;
  logDir <~ onToml (Zone "log" ;;~ Fetch "dir" ;;~ ToStr) ;;
  if relative
  then retS (filepath_Joins [rootPath; logDir; PathSeparator])
  else retS logDir.

End Getters.
End system.

(** ** The twin of log.go with the variables in a struct (part_000)

    The same nine variables are the fields of a [Services] struct, the
    package keeps a pointer [fileLog] to the struct of the last boot that
    went through, and the functions are methods.  The methods that only
    use their receiver have the body of their namesake in log.go, with
    the fields of the receiver for the package variables. *)

Section Twin.
Context `{GoLibrary}.

(** [fileLog], the structs allocated so far, and the world. *)
Record Process := mkProcess {
  fileLog : option nat;
  heap : gmap nat Services;
  world : World
}.

(** Running code that is written against the package variables of log.go
    on the fields of the struct at address [a]. *)
Definition onInstance {A} (a : nat) (m : M A) : St Process A :=
  fun p =>
    match heap p !! a with
    | None => (Panic "nil pointer dereference", p)
    | Some inst =>
      let '(o, s') := m (mkState inst (world p)) in
      (o, mkProcess (fileLog p) (<[a := pkg s']> (heap p)) (env s'))
    end.

(** Running code that uses no struct: library and system calls. *)
Definition outside {A} (m : M A) : St Process A :=
  fun p =>
    let '(o, s') := m (mkState zeroServices (world p)) in
    (o, mkProcess (fileLog p) (heap p) (env s')).

(** A field of [*fileLog]: the code runs on the struct [fileLog] points
    to, and panics when [fileLog] is nil. *)
Definition throughFileLog {A} (m : M A) : St Process A :=
  fl <~ getS fileLog ;;
  match fl with
  | None => liftO (Panic "nil pointer dereference")
  | Some a => onInstance a m
  end.

(** [&Services{...}]: a new struct. *)
Definition new_Services (init : Services) : St Process nat :=
  fun p =>
    let a := fresh (dom (heap p)) in
    (Done a, mkProcess (fileLog p) (<[a := init]> (heap p)) (world p)).

(** part_000, lines 115-118, 121-129, 132-158. *)
Definition Services_isMustSplit (f : nat) : St Process bool :=
  onInstance f isMustSplit.
Definition Services_isExistOrCreate (f : nat) : St Process unit :=
  onInstance f isExistOrCreate.
Definition Services_split (f : nat) : St Process (option error) :=
  onInstance f split.

(** One turn of the loop of [f.logWriter()] (part_000, lines 164-170). *)
Definition Services_logWriter_body (f : nat) : St Process unit :=
  onInstance f logWriter_body.

(** part_000, lines 199-202.  The receiver [f] of the emit methods is not
    used: all of them go through [fileLog]. *)
Definition Services_Printf (f : option nat) (format : string) (v : list Value)
  : St Process unit :=
  '(file, line) <~ outside (runtime_Caller 1) ;;
  throughFileLog
    (chan_send (fmt_Sprintf "[%v:%v]"
                  [strV (fmt_Sprintf format v +:+ filepath_Base file); intV line])).

(** part_000, lines 205-208. *)
Definition Services_Print (f : option nat) (v : list Value) : St Process unit :=
  '(file, line) <~ outside (runtime_Caller 1) ;;
  throughFileLog
    (chan_send (fmt_Sprintf "[%v:%v]"
                  [strV (fmt_Sprint v +:+ filepath_Base file); intV line])).

(** part_000, lines 211-214. *)
Definition Services_Println (f : option nat) (v : list Value) : St Process unit :=
  '(file, line) <~ outside (runtime_Caller 1) ;;
  throughFileLog
    (chan_send (fmt_Sprintf "[%v:%v]" [strV (filepath_Base file); intV line]
                  +:+ fmt_Sprintln v)).

(** part_000, lines 217-222. *)
Definition Services_Fatal (f : option nat) (v : list Value) : St Process unit :=
  '(file, line) <~ outside (runtime_Caller 1) ;;
  throughFileLog
    (chan_send (fmt_Sprintf "%v:%v]"
                  [strV (fmt_Sprintf "[ERROR] [" [] +:+ filepath_Base file); intV line]
                  +:+ fmt_Sprintln v)) ;;~
  outside (log_Output 2 (fmt_Sprintln [sliceV v])) ;;~
  outside (os_Exit 1).

(** part_000, lines 225-230. *)
Definition Services_Fatally (f : option nat) (v : list Value) : St Process unit :=
  '(file, line) <~ outside (runtime_Caller 1) ;;
  throughFileLog
    (chan_send (fmt_Sprintf "%v:%v]"
                  [strV (fmt_Sprintf "[ERROR] [" [] +:+ filepath_Base file); intV line]
                  +:+ fmt_Sprintln v)) ;;~
  outside (log_Output 2 (fmt_Sprintln [sliceV v])) ;;~
  outside (os_Exit 1).

(** part_000, lines 233-238. *)
Definition Services_Trace (f : option nat) (format : string) (v : list Value)
  : St Process unit :=
  '(file, line) <~ outside (runtime_Caller 2) ;;
  lvl <~ throughFileLog (getp logLevel) ;;
  if LEVEL_le lvl TRACE then
    throughFileLog
      (chan_send (fmt_Sprintf "%v:%v]"
                    [strV (fmt_Sprintf "[TRACE] [" [] +:+ filepath_Base file); intV line]
                    +:+ fmt_Sprintf (" " +:+ format) v))
  else retS tt.

(** The shape of lines 241-248, 251-258, 261-268 and 271-278: the console
    line in colour [color], then the test against [L]. *)
Definition Services_leveled (color : string) (L : LEVEL) (format : string)
           (v : list Value) : St Process unit :=
  '(file, line) <~ outside (runtime_Caller 1) ;;
  let s := fmt_Sprintf "%v:%v:%v%v]"
             [strV (fmt_Sprintf ("[" +:+ levelName L +:+ "] [") []
                      +:+ filepath_Base file);
              intV line; strV format; sliceV v] in
  now <~ outside setNowTime ;;
  outside (fmt_Printf ("%s" +:+ esc +:+ "[0;40;" +:+ color +:+ "m%s" +:+ esc
                         +:+ "[0m" +:+ nl) [strV now; strV s]) ;;~
  lvl <~ throughFileLog (getp logLevel) ;;
  if LEVEL_le lvl L then
    throughFileLog
      (chan_send (fmt_Sprintf "%v:%v]"
                    [strV (fmt_Sprintf ("[" +:+ levelName L +:+ "] [") []
                             +:+ filepath_Base file);
                     intV line]
                    +:+ fmt_Sprintf (" " +:+ format) v))
  else retS tt.

(** part_000, lines 241-248. *)
Definition Services_Debug (f : option nat) (format : string) (v : list Value)
  : St Process unit := Services_leveled "34" DEBUG format v.
(** part_000, lines 251-258. *)
Definition Services_Info (f : option nat) (format : string) (v : list Value)
  : St Process unit := Services_leveled "32" INFO format v.
(** part_000, lines 261-268. *)
Definition Services_Warning (f : option nat) (format : string) (v : list Value)
  : St Process unit := Services_leveled "33" WARN format v.
(** part_000, lines 271-278. *)
Definition Services_Error (f : option nat) (format : string) (v : list Value)
  : St Process unit := Services_leveled "31" ERROR format v.

Definition Services_emit (f : option nat) (op : EmitOp) (format : string)
           (v : list Value) : St Process unit :=
  match op with
  | EPrintf => Services_Printf f format v
  | EPrint => Services_Print f v
  | EPrintln => Services_Println f v
  | EFatal => Services_Fatal f v
  | EFatally => Services_Fatally f v
  | ETrace => Services_Trace f format v
  | EDebug => Services_Debug f format v
  | EInfo => Services_Info f format v
  | EWarning => Services_Warning f format v
  | EError => Services_Error f format v
  end.

(** part_000, lines 190-196. *)
Definition Services_CloseLogger : St Process unit :=
  fl <~ getS fileLog ;;
  match fl with
  | Some _ =>
    throughFileLog chan_close ;;~
    throughFileLog (modp (set_logger None)) ;;~
    lf <~ throughFileLog (getp logFile) ;;
    _ <~ outside (File_Close lf) ;;
    retS tt
  | None => retS tt
  end.

(** part_000, lines 56-112. *)
Definition Services_BootLogger : St Process (option error) :=
  dir <~ outside GetLogsDir ;;
  nm <~ outside GetLogsFilename ;;
  pre <~ outside GetLogsPrefix ;;
  lvl <~ outside GetLogsLevel ;;
  let conf := mkConf dir nm pre lvl in
  f <~ new_Services
         (mkServices (FileDir conf) (FileName conf) (Prefix conf) None None None
                     TRACE (Some (mkMutex false 0)) (Some (make_chan 8000))) ;;
  onInstance f (modp (set_logLevel (bootLevel (Level conf)))) ;;~
  now <~ outside time_Now ;;
  onInstance f (modp (set_date (Some (dayOf now)))) ;;~
  due <~ Services_isMustSplit f ;;
  err <~ (if due then Services_split f
          else
            Services_isExistOrCreate f ;;~
            d <~ onInstance f (getp fileDir) ;;
            n <~ onInstance f (getp fileName) ;;
            let path := filepath_Join d n in
            '(fl, err) <~ outside (os_OpenFile path openFlags 438) ;;
            onInstance f (modp (set_logFile fl)) ;;~
            match err with
            | Some e => retS (Some e)
            | None =>
              p <~ onInstance f (getp prefix) ;;
              onInstance f (modp (set_logger (Some (log_New fl p loggerFlags)))) ;;~
              retS None
            end) ;;
  match err with
  | Some e => retS (Some e)
  | None =>
    outside (go G_logWriter) ;;~
    outside (go G_fileMonitor) ;;~
    modS (fun p => mkProcess (Some f) (heap p) (world p)) ;;~
    retS None
  end.

(** Running [m] as a call made from line [site], as [callAt] does. *)
Definition callAtP {A} (site inner : Z) (m : St Process A) : St Process A :=
  fun p =>
    let st := stack (world p) in
    let callee :=
      match st with
      | f :: r => mkFrame (fr_file f) inner :: mkFrame (fr_file f) site :: r
      | [] => [mkFrame "" inner]
      end in
    let '(o, p') := m (mkProcess (fileLog p) (heap p) (set_stack callee (world p))) in
    (o, mkProcess (fileLog p') (heap p') (set_stack st (world p'))).

(** One turn of the loop of [f.fileMonitor()] once the ticker has fired
    (part_000, lines 181-185).  [Error] is entered from line 183 and asks
    for its caller from its own line 272. *)
Definition Services_fileMonitor_body (f : nat) : St Process unit :=
  due <~ Services_isMustSplit f ;;
  if due then
    err <~ Services_split f ;;
    match err with
    | Some e =>
      callAtP 183 272 (Services_Error (Some f) ("Log split error: %v" +:+ nl) [errV e])
    | None => retS tt
    end
  else retS tt.

(** The process [p] with the struct at [a] and the world taken from [s]. *)
Definition put (a : nat) (p : Process) (s : State) : Process :=
  mkProcess (fileLog p) (<[a := pkg s]> (heap p)) (env s).

(** [m] looks at no package variable and changes none. *)
Definition envOnly {A} (m : M A) : Prop :=
  forall (s : State) (pk : Services),
    m (mkState pk (env s)) = (fst (m s), mkState pk (env (snd (m s)))).

(** The method [tm] does on the struct at [a] what [m] does on the package
    variables of log.go. *)
Definition simulates {A} (a : nat) (p0 : Process) (tm : St Process A) (m : M A)
  : Prop :=
  forall s : State, tm (put a p0 s) = (fst (m s), put a p0 (snd (m s))).

(** The same for a boot on the new struct at [a], after which [fileLog]
    points to it when the boot went through. *)
Definition booted (a : nat) (p0 : Process) (o : Outcome (option error)) (s : State)
  : Process :=
  mkProcess (match o with Done None => Some a | _ => fileLog p0 end)
            (<[a := pkg s]> (heap p0)) (env s).

Definition boots (a : nat) (p0 : Process) (tm : St Process (option error))
           (m : M (option error)) : Prop :=
  forall s : State, tm (put a p0 s) = (fst (m s), booted a p0 (fst (m s)) (snd (m s))).

End Twin.

(** Vocabulary for the statements about paths and lookups. *)

(** No separator in [s]. *)
Definition slashFree (s : string) : Prop :=
  ~ List.In "/"%char (list_ascii_of_string s).

Section Answers.
Context `{GoLibrary} `{TomlTree}.

(** What the host answers, whatever has been printed or looked up. *)
Definition oracles (h : Host) :=
  (h_args0 h, h_LookPath h, h_Getwd h, h_LoadFile h).

(** The outcome of a type assertion on what the tree holds under [key]. *)
Definition lookedUp {A} (assert : TomlValue -> Outcome A) (t : option Tree)
           (key : string) : Outcome A :=
  match Tree_Get t key with
  | Done v => assert v
  | Exit c => Exit c
  | Panic msg => Panic msg
  | Block => Block
  end.

Definition asString (v : TomlValue) : Outcome string :=
  match v with TStr s => Done s | _ => Panic "interface conversion" end.
Definition asInt (v : TomlValue) : Outcome Z :=
  match v with TInt z => Done z | _ => Panic "interface conversion" end.
Definition asBool (v : TomlValue) : Outcome bool :=
  match v with TBool b => Done b | _ => Panic "interface conversion" end.

End Answers.

(** ** Scenarios

    Concrete worlds for the examples at the end.  The application's log
    directory is "logs", the active file "logs/app.log" already holds one
    line, and it is 13:01 on 18 March 2021 at every reading of the clock. *)

Definition demoNow : Time := mkTime 2021 3 18 13 1 0 0.

Definition demoStack : list Frame :=
  [mkFrame "/src/logs/log.go" 235; mkFrame "/src/app/main.go" 42;
   mkFrame "/src/app/run.go" 7].

Definition demoWorld : World :=
  mkWorld (<["logs" := NDir]> (<["logs/app.log" := NFile 0]> ∅))
          (<[0%nat := ["old line"]]> ∅)
          ∅ [] (fun _ => demoNow) 0 demoStack []
          (mkConf "logs" "app.log" "[app] " "warn").

(** The logger after a boot in that world: threshold WARN, anchor
    2021-03-18, "logs/app.log" open on descriptor 0. *)
Definition demoBooted : State :=
  snd (@BootLogger plainLibrary (mkState zeroServices demoWorld)).

(** The same logger with an anchor of the day before and no active file on
    disk: the rename of a rotation will fail. *)
Definition demoStale : State :=
  mkState (set_date (Some (midnight 2021 3 17)) (pkg demoBooted))
          (set_names (<["logs" := NDir]> ∅) (env demoBooted)).

(** The booted logger in a world where the third system call from now
    fails for want of descriptors. *)
Definition demoNoDescriptors : State :=
  mkState (pkg demoBooted)
          (set_faults [None; None; Some EMFILE] (env demoBooted)).

(** The booted logger with an anchor of the day before, the active file
    still on disk: a rotation is due. *)
Definition demoYesterday : State :=
  mkState (set_date (Some (midnight 2021 3 17)) (pkg demoBooted)) (env demoBooted).

(** Operands for the small library: each is the text [%v] prints. *)
Definition vals (l : list string) : list (@Value plainLibrary) := l.

(** A configuration with an empty directory name: the active file is
    "app.log" in the working directory. *)
Definition emptyDirWorld : World :=
  mkWorld ∅ ∅ ∅ [] (fun _ => demoNow) 0 demoStack []
          (mkConf "" "app.log" "[app] " "info").

(** Before boot, with that configuration. *)
Definition emptyDirStart : State := mkState zeroServices emptyDirWorld.

(** The booted logger after [CloseLogger]. *)
Definition demoClosed : State := snd (CloseLogger demoBooted).

(** The booted logger with two lines waiting in the channel. *)
Definition demoQueued : State :=
  mkState (set_logChan (Some (mkChan ["first"; "second"] 8000 false)) (pkg demoBooted))
          (env demoBooted).

(** The same when the disk is full at the next write. *)
Definition demoDiskFull : State :=
  mkState (pkg demoQueued) (set_faults [Some ENOSPC] (env demoQueued)).

(** The booted logger behind a channel of one slot, taken. *)
Definition demoFull : State :=
  mkState (set_logChan (Some (mkChan ["waiting"] 1 false)) (pkg demoBooted))
          (env demoBooted).

(** The booted logger with yesterday's anchor and one line waiting. *)
Definition demoYesterdayQueued : State :=
  mkState (set_logChan (Some (mkChan ["after midnight"] 8000 false)) (pkg demoYesterday))
          (env demoYesterday).

(** Before boot, with the directory "logs" configured and not on disk. *)
Definition demoNoDir : State :=
  mkState (set_fileDir "logs" zeroServices) emptyDirWorld.

(** A tree as a map from dotted keys to values; a nil tree panics. *)
Definition mapTree : TomlTree := {|
  Tree := gmap string TomlValue;
  Tree_Get := fun t key =>
    match t with
    | Some m => Done (default TNil (m !! key))
    | None => Panic "nil pointer dereference"
    end
|}.

(** Cleaning as far as the examples need it: runs of separators become
    one, a trailing separator goes, and nothing is left as "." or "/". *)
Fixpoint squeeze (s : string) : string :=
  match s with
  | "" => ""
  | String c r =>
    if byte c =? 47 then
      match r with
      | "" => ""
      | String d _ => if byte d =? 47 then squeeze r else String c (squeeze r)
      end
    else String c (squeeze r)
  end.

Definition cleanSlashes (s : string) : string :=
  let r := squeeze s in
  if bool_decide (r = "") then (if strings_HasPrefix s "/" then "/" else ".") else r.

Definition pathLibrary : GoLibrary := {|
  Value := string;
  strV := fun s => s;
  intV := fun z => decimal z;
  sliceV := fun l => "[" +:+ joinWith " " l +:+ "]";
  errV := errText;
  fmt_Sprintf := subst;
  fmt_Sprint := joinWith "";
  fmt_Sprintln := fun l => joinWith " " l +:+ nl;
  filepath_Clean := cleanSlashes;
  filepath_Base := baseName "";
  unicode_orbit := fun _ _ => false
|}.

Definition demoTree : gmap string TomlValue :=
  <["log.name" := TStr "app.log"]>
    (<["log.prefix" := TStr "[app] "]>
       (<["log.level" := TStr "warn"]>
          (<["log.dir" := TStr "logs"]>
             (<["log.relative" := TBool true]>
                (<["log.size" := TInt64 8000]> ∅))))).

(** The program /srv/app/bin/logd with its configuration in
    /srv/app/config/logs.toml. *)
Definition demoHost : @Host pathLibrary mapTree :=
  @mkHost pathLibrary mapTree
    "/srv/app/bin/logd"
    (fun p => (p, None))
    ("/srv/app", None)
    (fun name =>
       if bool_decide (name = "/srv/app/config/logs.toml")
       then (Some demoTree, None)
       else (None, Some "no such file or directory"))
    (fun _ => demoNow) 0
    (@mkToml mapTree "" TNil TNil None) [].

(** A program that is not on the search path, started in a directory
    that has been removed. *)
Definition lostHost : @Host pathLibrary mapTree :=
  @mkHost pathLibrary mapTree
    "logd"
    (fun _ => ("", Some "executable file not found in $PATH"))
    ("", Some "getwd: no such file or directory")
    (fun _ => (None, Some "no such file or directory"))
    (fun _ => demoNow) 0
    (@mkToml mapTree "" TNil TNil None) [].


(** The twin after its first boot in the demonstration world: the struct
    is at address 0. *)
Definition demoProcess : Process :=
  snd (@Services_BootLogger plainLibrary (mkProcess None ∅ demoWorld)).

(** Two structs: the one of a first boot at address 0, its anchor on the
    day before and its active file gone, and the one of a second boot at
    address 1, to which [fileLog] points. *)
Definition demoTwoBoots : Process :=
  mkProcess (Some 1%nat)
            (<[0%nat := pkg demoStale]> (<[1%nat := pkg demoBooted]> ∅))
            (env demoStale).

(** * Properties *)

Section Properties.
Context `{GoLibrary}.

Lemma chan_send_ready (x : string) (s : State) (ch : Chan) :
  logChan (pkg s) = Some ch -> closed ch = false ->
  Z.of_nat (List.length (buf ch)) < cap ch ->
  chan_send x s =
  (Done tt,
   mkState (set_logChan (Some (mkChan (buf ch ++ [x]) (cap ch) false)) (pkg s))
           (set_trace (trace (env s) ++ [EvSend x]) (env s))).
Proof.
  intros Hc Hcl Hlt. unfold chan_send, bind, getp. rewrite Hc, Hcl.
  apply Z.ltb_lt in Hlt. rewrite Hlt. reflexivity.
Qed.

Lemma app_one_neq {A} (q : list A) (x : A) : q ++ [x] <> q.
Proof.
  intros E. apply (f_equal (@List.length A)) in E.
  rewrite length_app in E. simpl in E. lia.
Qed.

(** The five leveled operations have the same shape: the call to
    [runtime.Caller], for four of them the console line, and then the test
    of the threshold. *)
Lemma leveled_queue (op : EmitOp) (L : LEVEL) (format : string) (v : list Value)
      (s : State) (ch : Chan) :
  severity op = Some L ->
  logChan (pkg s) = Some ch -> closed ch = false ->
  Z.of_nat (List.length (buf ch)) < cap ch ->
  queue (snd (emitOp op format v s)) =
  if LEVEL_le (logLevel (pkg s)) L
  then buf ch ++ [taggedLine (levelName L)
                    (frameAt (match op with ETrace => 2 | _ => 1 end) s)
                    (fmt_Sprintf (" " +:+ format) v)]
  else buf ch.
Proof.
  intros Hsev Hc Hcl Hlt.
  destruct op; simpl in Hsev; try discriminate; injection Hsev as <-;
    unfold emitOp, Trace, Debug, Info, Warning, Error, bind, runtime_Caller,
      setNowTime, fmt_Printf, emit, mode, gete, getp, time_Now, ret,
      frameAt, taggedLine; simpl;
    (destruct (stack (env s) !! _) as [fr|]; simpl;
     (destruct (LEVEL_le (logLevel (pkg s)) _) eqn:E;
      [ erewrite chan_send_ready by (simpl; eauto); unfold queue; reflexivity
      | unfold queue; simpl; rewrite Hc; reflexivity ])).
Qed.

Lemma ready_queue (s : State) (ch : Chan) :
  logChan (pkg s) = Some ch -> queue s = buf ch.
Proof. intros Hc. unfold queue. rewrite Hc. reflexivity. Qed.

(** C1.  Level gating.  While the logger runs and the channel has room, a
    leveled operation of severity [L] under threshold [T] appends its
    rendered line to the queue exactly when [T <= L], and otherwise leaves
    the queue as it was; under [T = OFF] no leveled operation appends. *)
Theorem level_gating (op : EmitOp) (L : LEVEL) (format : string) (v : list Value)
        (s : State) :
  severity op = Some L ->
  ready s ->
  let T := logLevel (pkg s) in
  let s' := snd (emitOp op format v s) in
  let line := taggedLine (levelName L)
                (frameAt (match op with ETrace => 2 | _ => 1 end) s)
                (fmt_Sprintf (" " +:+ format) v) in
  (T <> OFF ->
   (queue s' = queue s ++ [line] <-> LEVEL_byte T <= LEVEL_byte L))
  /\ (T = OFF -> queue s' = queue s)
  /\ (queue s' = queue s ++ [line] \/ queue s' = queue s).
Proof.
  intros Hsev (ch & Hc & Hcl & Hlt) T s' line.
  pose proof (leveled_queue op L format v s ch Hsev Hc Hcl Hlt) as Hq.
  rewrite (ready_queue s ch Hc).
  fold s' in Hq. fold line in Hq. fold T in Hq.
  unfold LEVEL_le in Hq.
  assert (HL : L <> OFF) by (destruct op; simpl in Hsev; congruence).
  repeat split.
  - intros E. destruct (Z.leb_spec (LEVEL_byte T) (LEVEL_byte L)); [assumption|].
    rewrite Hq in E. symmetry in E. exfalso. exact (app_one_neq _ _ E).
  - intros Hle. apply Z.leb_le in Hle. rewrite Hle in Hq. exact Hq.
  - intros HT. rewrite HT in Hq.
    destruct L; simpl in Hq; try exact Hq. congruence.
  - destruct (LEVEL_byte T <=? LEVEL_byte L); [left | right]; exact Hq.
Qed.

(** C7.  Fatal and Fatally under any threshold [T], [OFF] included: while
    the logger runs and the channel has room, the call appends its record
    to the queue without looking at [T], then writes to standard error
    through the standard logger, then ends the process with status 1. *)
Theorem fatal_unconditional (op : EmitOp) (T : LEVEL) (format : string)
        (v : list Value) (s : State) :
  isFatal op = true ->
  ready s ->
  let r := emitOp op format v (withLevel T s) in
  let line := taggedLine "ERROR" (frameAt 1 s) (fmt_Sprintln v) in
  let now := clock (env s) (reads (env s)) in
  fst r = Exit 1
  /\ queue (snd r) = queue s ++ [line]
  /\ trace (env (snd r)) =
     trace (env s) ++
       [EvCaller 1; EvSend line;
        EvStderr (formatHeader "" LstdFlags now +:+ withNewline (fmt_Sprintln [sliceV v]));
        EvExit 1].
Proof.
  intros Hop (ch & Hc & Hcl & Hlt). rewrite (ready_queue s ch Hc).
  destruct op; simpl in Hop; try discriminate;
    unfold emitOp, Fatal, Fatally, withLevel, bind, runtime_Caller, log_Output,
      os_Exit, exit, emit, mode, gete, getp, time_Now, bind, ret, frameAt,
      taggedLine; simpl;
    (destruct (stack (env s) !! _) as [fr|]; simpl;
     erewrite chan_send_ready by (simpl; eauto); simpl;
     unfold queue; simpl; rewrite <- !app_assoc; simpl; auto).
Qed.

(** C10.  Printf, Print and Println under any threshold [T], [OFF]
    included: while the logger runs and the channel has room, the call
    returns after appending one line, which is made of the message and the
    caller's base name and line number only: no threshold is read and no
    level tag is put in. *)
Theorem print_family_unfiltered (op : EmitOp) (T : LEVEL) (format : string)
        (v : list Value) (s : State) :
  isPrintFamily op = true ->
  ready s ->
  let r := emitOp op format v (withLevel T s) in
  let line := plainLine op (frameAt 1 s) format v in
  fst r = Done tt
  /\ queue (snd r) = queue s ++ [line]
  /\ trace (env (snd r)) = trace (env s) ++ [EvCaller 1; EvSend line].
Proof.
  intros Hop (ch & Hc & Hcl & Hlt). rewrite (ready_queue s ch Hc).
  destruct op; simpl in Hop; try discriminate;
    unfold emitOp, Printf, Print, Println, withLevel, bind, runtime_Caller,
      emit, mode, gete, getp, ret, frameAt, plainLine; simpl;
    (destruct (stack (env s) !! _) as [fr|]; simpl;
     erewrite chan_send_ready by (simpl; eauto); simpl;
     unfold queue; simpl; rewrite <- !app_assoc; simpl; auto).
Qed.

Ltac run_emit :=
  repeat progress
    unfold emitOp, Printf, Print, Println, Fatal, Fatally, Trace, Debug, Info,
      Warning, Error, withStack, bind, runtime_Caller, setNowTime, fmt_Printf,
      log_Output, os_Exit, chan_send, panic, block, exit, emit, mode, gete, getp,
      modp, time_Now, ret;
  simpl.

Ltac split_cases :=
  repeat match goal with
         | |- context [match ?x with _ => _ end] =>
           match type of x with
           | option _ => destruct x
           | bool => destruct x
           | LEVEL => destruct x
           end; simpl
         end.

(** C9.  Every emit operation asks [runtime.Caller] once for its caller's
    location, at a depth that is fixed for the operation: two frames up
    for Trace, one frame up for each of the other nine.  Nothing the
    operation does depends on any other frame of the stack. *)
Theorem caller_depth (op : EmitOp) (format : string) (v : list Value) (s : State) :
  let k := match op with ETrace => 2%nat | _ => 1%nat end in
  let r := emitOp op format v s in
  callerQueries (trace (env (snd r))) = callerQueries (trace (env s)) ++ [k]
  /\ (forall st : list Frame,
        st !! k = stack (env s) !! k ->
        let r2 := emitOp op format v (withStack st s) in
        fst r2 = fst r /\ pkg (snd r2) = pkg (snd r)
        /\ trace (env (snd r2)) = trace (env (snd r))).
Proof.
  split.
  - unfold callerQueries.
    destruct op; run_emit; split_cases;
      rewrite ?omap_app; simpl; rewrite ?app_nil_r; reflexivity.
  - intros st Hst.
    destruct op; run_emit; rewrite Hst; split_cases; auto.
Qed.

(** ** What an operation leaves alone *)

Lemma keeps_ret {A B} (f : State -> B) (a : A) : keeps f (ret a).
Proof. intros s. reflexivity. Qed.

Lemma keeps_panic {A B} (f : State -> B) (msg : string) : keeps f (@panic A msg).
Proof. intros s. reflexivity. Qed.

Lemma keeps_block {A B} (f : State -> B) : keeps f (@block A).
Proof. intros s. reflexivity. Qed.

Lemma keeps_exit {A B} (f : State -> B) (code : Z) : keeps f (@exit A code).
Proof. intros s. reflexivity. Qed.

Lemma keeps_getp {A B} (f : State -> B) (g : Services -> A) : keeps f (getp g).
Proof. intros s. reflexivity. Qed.

Lemma keeps_gete {A B} (f : State -> B) (g : World -> A) : keeps f (gete g).
Proof. intros s. reflexivity. Qed.

Lemma keeps_bind {A B C} (f : State -> C) (m : M A) (k : A -> M B) :
  keeps f m -> (forall a, keeps f (k a)) -> keeps f (bind m k).
Proof.
  intros Hm Hk s. unfold bind. specialize (Hm s).
  destruct (m s) as [[a| | |] s1]; simpl in *; try assumption.
  rewrite Hk. assumption.
Qed.

Lemma keeps_modp {B} (f : State -> B) (g : Services -> Services) :
  (forall s, f (mkState (g (pkg s)) (env s)) = f s) -> keeps f (modp g).
Proof. intros Hg s. apply Hg. Qed.

Lemma keeps_mode {B} (f : State -> B) (g : World -> World) :
  (forall s, f (mkState (pkg s) (g (env s))) = f s) -> keeps f (mode g).
Proof. intros Hg s. apply Hg. Qed.

Lemma keeps_defer {A B} (f : State -> B) (d : M unit) (body : M A) :
  keeps f d -> keeps f body -> keeps f (defer d body).
Proof.
  intros Hd Hb s. unfold defer. specialize (Hb s).
  destruct (body s) as [[a| | |] s1]; simpl in *; try assumption.
  - rewrite (keeps_bind f d (fun _ => ret a)); auto using keeps_ret.
  - rewrite (keeps_bind f d (fun _ => panic msg)); auto using keeps_panic.
Qed.

Lemma keeps_recovering {B} (f : State -> B) (body : M unit) :
  keeps f body -> keeps f (recovering body).
Proof.
  intros Hb s. unfold recovering. specialize (Hb s).
  destruct (body s) as [[a| | |] s1]; simpl in *; assumption.
Qed.

Lemma keeps_callAt {A B} (f : State -> B) (site inner : Z) (m : M A) :
  (forall s st, f (mkState (pkg s) (set_stack st (env s))) = f s) ->
  keeps f m -> keeps f (callAt site inner m).
Proof.
  intros Hst Hm s. unfold callAt.
  match goal with |- context [m ?x] => specialize (Hm x); destruct (m x) as [o s1] end.
  simpl in *. rewrite Hst, Hm, Hst. reflexivity.
Qed.

Lemma keeps_emit_other (e : Event) :
  match e with EvGo _ => False | _ => True end ->
  keeps (fun s => goroutinesStarted (trace (env s))) (emit e).
Proof.
  intros He s. unfold emit, mode, goroutinesStarted. simpl.
  rewrite omap_app. destruct e; try contradiction; simpl; apply app_nil_r.
Qed.

(** Decomposing a goal [keeps f m] along the structure of [m]. *)
Ltac frame_step :=
  match goal with
  | |- keeps _ (ret _) => apply keeps_ret
  | |- keeps _ (panic _) => apply keeps_panic
  | |- keeps _ block => apply keeps_block
  | |- keeps _ (exit _) => apply keeps_exit
  | |- keeps _ (getp _) => apply keeps_getp
  | |- keeps _ (gete _) => apply keeps_gete
  | |- keeps _ (bind _ _) => apply keeps_bind; [| intros ?]
  | |- keeps _ (modp _) => apply keeps_modp; intros ?; reflexivity
  | |- keeps _ (mode _) => apply keeps_mode; intros ?; reflexivity
  | |- keeps _ (emit _) =>
    first [ apply keeps_mode; intros ?; reflexivity
          | apply keeps_emit_other; exact I ]
  | |- keeps _ (defer _ _) => apply keeps_defer
  | |- keeps _ (recovering _) => apply keeps_recovering
  | |- keeps _ (callAt _ _ _) => apply keeps_callAt; [intros ? ?; reflexivity |]
  | |- keeps _ (match ?x with _ => _ end) => destruct x
  | |- keeps _ (if ?x then _ else _) => destruct x
  | |- keeps _ (let '(_, _) := ?x in _) => destruct x
  end.

Ltac frame := repeat frame_step.

Ltac unfold_prims :=
  repeat progress
    unfold time_Now, runtime_Caller, fault, os_Stat, os_Mkdir, newFile,
      os_OpenFile, os_Rename, File_Close, File_Write, chan_send, chan_recv,
      chan_close, mutex_Lock, mutex_Unlock, mutex_RLock, mutex_RUnlock,
      log_Output, Logger_Output, os_Exit, go, fmt_Printf, log_Println,
      setNowTime, GetLogsDir, GetLogsFilename, GetLogsPrefix, GetLogsLevel.

Ltac unfold_emit :=
  unfold emitOp, Printf, Print, Println, Fatal, Fatally, Trace, Debug, Info,
    Warning, Error.

Lemma emitOp_keeps_core (op : EmitOp) (format : string) (v : list Value) :
  keeps core (emitOp op format v).
Proof. destruct op; unfold_emit; unfold_prims; frame. Qed.

Lemma isMustSplit_keeps_pkg : keeps pkg isMustSplit.
Proof. unfold isMustSplit; unfold_prims; frame. Qed.

Lemma isExistOrCreate_keeps_pkg : keeps pkg isExistOrCreate.
Proof. unfold isExistOrCreate; unfold_prims; frame. Qed.

Lemma setNowTime_keeps_pkg : keeps pkg setNowTime.
Proof. unfold_prims; frame. Qed.

Lemma logWriter_keeps_core : keeps core logWriter_turn.
Proof. unfold logWriter_turn, logWriter_body; unfold_prims; frame. Qed.

Lemma CloseLogger_keeps : keeps (fun s => set_logger None (core s)) CloseLogger.
Proof. unfold CloseLogger; unfold_prims; frame. Qed.

Lemma split_keeps_config : keeps (fun s => (config s, logChan (pkg s))) split.
Proof. unfold split; unfold_prims; frame. Qed.

Lemma fileMonitor_keeps_config : keeps config fileMonitor_turn.
Proof.
  unfold fileMonitor_turn, fileMonitor_body, isMustSplit, split, Error;
    unfold_prims; frame.
Qed.

(** ** Operations that come to an end *)

Lemma settles_ret {A} (a : A) : settles (ret a).
Proof. intros s. exact I. Qed.

Lemma settles_panic {A} (msg : string) : settles (@panic A msg).
Proof. intros s. exact I. Qed.

Lemma settles_getp {A} (g : Services -> A) : settles (getp g).
Proof. intros s. exact I. Qed.

Lemma settles_gete {A} (g : World -> A) : settles (gete g).
Proof. intros s. exact I. Qed.

Lemma settles_modp (g : Services -> Services) : settles (modp g).
Proof. intros s. exact I. Qed.

Lemma settles_mode (g : World -> World) : settles (mode g).
Proof. intros s. exact I. Qed.

Lemma settles_bind {A B} (m : M A) (k : A -> M B) :
  settles m -> (forall a, settles (k a)) -> settles (bind m k).
Proof.
  intros Hm Hk s. unfold bind. specialize (Hm s).
  destruct (m s) as [[a| | |] s1]; simpl in *; try assumption. apply Hk.
Qed.

Ltac settle_step :=
  match goal with
  | |- settles (ret _) => apply settles_ret
  | |- settles (panic _) => apply settles_panic
  | |- settles (getp _) => apply settles_getp
  | |- settles (gete _) => apply settles_gete
  | |- settles (modp _) => apply settles_modp
  | |- settles (mode _) => apply settles_mode
  | |- settles (emit _) => apply settles_mode
  | |- settles (bind _ _) => apply settles_bind; [| intros ?]
  | |- settles (match ?x with _ => _ end) => destruct x
  | |- settles (if ?x then _ else _) => destruct x
  end.

Ltac settle := repeat settle_step.

(** [split] gives the mutex back: every path through the body returns or
    panics, and the deferred [Unlock] runs on both. *)
Lemma split_keeps_mutex : keeps (fun s => mutex (pkg s)) split.
Proof.
  intros s. unfold split.
  match goal with
  | |- context [defer mutex_Unlock ?b] =>
    set (body := b);
    assert (Hk : keeps (fun s => mutex (pkg s)) body)
      by (subst body; unfold_prims; frame);
    assert (Hs : settles body) by (subst body; unfold_prims; settle)
  end.
  unfold bind at 1. unfold mutex_Lock, bind, getp.
  destruct (mutex (pkg s)) as [[w r]|] eqn:Hm; simpl; [| congruence].
  destruct w; simpl; [congruence |].
  destruct r; simpl; [| congruence].
  unfold defer.
  match goal with |- context [body ?x] => specialize (Hk x); specialize (Hs x) end.
  destruct (body _) as [[a| | |] s1]; simpl in *; try contradiction;
    repeat progress unfold bind, mutex_Unlock, getp, modp;
    simpl; rewrite Hk; reflexivity.
Qed.

Lemma File_Close_keeps_pkg (f : option File) : keeps pkg (File_Close f).
Proof. unfold_prims; frame. Qed.

Lemma CloseLogger_logger (s : State) :
  logger (pkg (snd (CloseLogger s))) = None
  \/ logger (pkg (snd (CloseLogger s))) = logger (pkg s).
Proof.
  cbv beta iota delta [CloseLogger bind getp chan_close modp panic ret].
  simpl.
  destruct (logChan (pkg s)) as [ch|] eqn:E; simpl; [| right; reflexivity].
  rewrite E.
  destruct (closed ch); simpl; [right; reflexivity |]. left.
  match goal with
  | |- context [File_Close ?lf ?x] =>
    pose proof (File_Close_keeps_pkg lf x) as Hk;
    destruct (File_Close lf x) as [[a| | |] s1]
  end; simpl in *; rewrite Hk; reflexivity.
Qed.

(** C8, as the code has it.  No operation other than [BootLogger] changes
    [fileDir], [fileName] or [prefix].  [date] and [logFile] are changed
    only by [split], alone or inside the monitor's turn.  [logger] is
    changed only by [split] and by [CloseLogger], which sets it to nil.
    [split] changes no variable besides [date], [logFile] and [logger]:
    threshold and channel stay, and the mutex is given back as it was. *)
Theorem frame_of_operations (o : Operation) (s : State) :
  let s' := after o s in
  (fileDir (pkg s') = fileDir (pkg s)
   /\ fileName (pkg s') = fileName (pkg s)
   /\ prefix (pkg s') = prefix (pkg s))
  /\ (rotates o = false ->
      date (pkg s') = date (pkg s) /\ logFile (pkg s') = logFile (pkg s))
  /\ (rotates o = false -> o <> Op_CloseLogger ->
      logger (pkg s') = logger (pkg s))
  /\ (o = Op_CloseLogger ->
      logger (pkg s') = None \/ logger (pkg s') = logger (pkg s))
  /\ (o = Op_split ->
      logLevel (pkg s') = logLevel (pkg s)
      /\ logChan (pkg s') = logChan (pkg s)
      /\ mutex (pkg s') = mutex (pkg s)).
Proof.
  assert (Hcore : forall s1 s2 : State, core s1 = core s2 ->
            (fileDir (pkg s1) = fileDir (pkg s2)
             /\ fileName (pkg s1) = fileName (pkg s2)
             /\ prefix (pkg s1) = prefix (pkg s2))
            /\ (date (pkg s1) = date (pkg s2) /\ logFile (pkg s1) = logFile (pkg s2))
            /\ logger (pkg s1) = logger (pkg s2)).
  { intros s1 s2 E.
    pose proof (f_equal fileDir E). pose proof (f_equal fileName E).
    pose proof (f_equal prefix E). pose proof (f_equal date E).
    pose proof (f_equal logFile E). pose proof (f_equal logger E). auto. }
  assert (Hpkg : forall s1 s2 : State, pkg s1 = pkg s2 -> core s1 = core s2)
    by (intros s1 s2 E; unfold core; rewrite E; reflexivity).
  simpl. destruct o; simpl.
  - pose proof (Hcore _ _ (Hpkg _ _ (isMustSplit_keeps_pkg s))) as (? & ? & ?).
    repeat split; intros; try discriminate; tauto.
  - pose proof (Hcore _ _ (Hpkg _ _ (isExistOrCreate_keeps_pkg s))) as (? & ? & ?).
    repeat split; intros; try discriminate; tauto.
  - pose proof (split_keeps_config s) as E. simpl in E. unfold config in E.
    pose proof (split_keeps_mutex s) as Em. simpl in Em.
    injection E as E1 E2 E3 E4 E5.
    repeat split; intros; try discriminate; try congruence.
  - pose proof (Hcore _ _ (logWriter_keeps_core s)) as (? & ? & ?).
    repeat split; intros; try discriminate; tauto.
  - pose proof (fileMonitor_keeps_config s) as E. unfold config in E.
    injection E as E1 E2 E3 E4.
    repeat split; intros; try discriminate; try congruence.
  - pose proof (CloseLogger_keeps s) as E. simpl in E.
    pose proof (f_equal fileDir E). pose proof (f_equal fileName E).
    pose proof (f_equal prefix E). pose proof (f_equal date E).
    pose proof (f_equal logFile E).
    repeat split; intros; try discriminate; try congruence; auto.
    apply CloseLogger_logger.
  - pose proof (Hcore _ _ (Hpkg _ _ (setNowTime_keeps_pkg s))) as (? & ? & ?).
    repeat split; intros; try discriminate; tauto.
  - pose proof (Hcore _ _ (emitOp_keeps_core op format v s)) as (? & ? & ?).
    repeat split; intros; try discriminate; tauto.
Qed.

(** ** Inverting a run that returned *)

Lemma bind_Done {A B} (m : M A) (k : A -> M B) (s s' : State) (b : B) :
  bind m k s = (Done b, s') ->
  exists a s1, m s = (Done a, s1) /\ k a s1 = (Done b, s').
Proof.
  unfold bind. destruct (m s) as [[a| | |] s1]; try discriminate. eauto.
Qed.

Lemma defer_Done {A} (d : M unit) (body : M A) (s s' : State) (a : A) :
  defer d body s = (Done a, s') ->
  exists s1, body s = (Done a, s1) /\ d s1 = (Done tt, s').
Proof.
  unfold defer. destruct (body s) as [[a0| | |] s1]; try discriminate.
  - unfold bind, ret. destruct (d s1) as [[[]| | |] s2] eqn:Hd; try discriminate.
    intros E. injection E as <- <-. eauto.
  - unfold bind, panic. destruct (d s1) as [[[]| | |] s2]; discriminate.
Qed.

Ltac inv_run :=
  repeat match goal with
         | H : bind _ _ _ = (Done _, _) |- _ =>
           apply bind_Done in H; destruct H as (? & ? & ? & ?)
         | H : defer _ _ _ = (Done _, _) |- _ =>
           apply defer_Done in H; destruct H as (? & ? & ?)
         | H : getp _ _ = (Done _, _) |- _ =>
           unfold getp in H; inversion H; subst; clear H
         | H : gete _ _ = (Done _, _) |- _ =>
           unfold gete in H; inversion H; subst; clear H
         | H : modp _ _ = (Done _, _) |- _ =>
           unfold modp in H; inversion H; subst; clear H
         | H : mode _ _ = (Done _, _) |- _ =>
           unfold mode in H; inversion H; subst; clear H
         | H : ret _ _ = (Done _, _) |- _ =>
           unfold ret in H; inversion H; subst; clear H
         | H : panic _ _ = (Done _, _) |- _ => discriminate H
         | H : block _ = (Done _, _) |- _ => discriminate H
         | H : (match ?x with _ => _ end) _ = (Done _, _) |- _ =>
           destruct x eqn:?
         end.

(** ** What the system calls of [split] do *)

Lemma time_Now_spec (s s' : State) (t : Time) :
  time_Now s = (Done t, s') ->
  t = clock (env s) (reads (env s))
  /\ s' = mkState (pkg s) (set_reads (S (reads (env s))) (env s)).
Proof. unfold time_Now. intros E. inv_run. auto. Qed.

Lemma File_Close_spec (f : option File) (s s' : State) (r : option error) :
  File_Close f s = (Done r, s') ->
  pkg s' = pkg s /\ names (env s') = names (env s)
  /\ inodes (env s') = inodes (env s)
  /\ clock (env s') = clock (env s) /\ reads (env s') = reads (env s).
Proof.
  unfold File_Close; unfold_prims.
  cbv beta iota delta [bind gete mode ret].
  destruct f as [fl|]; simpl; [| intros E; injection E as <- <-; auto].
  destruct (fds (env s) !! fd fl); simpl; [| intros E; injection E as <- <-; auto].
  destruct (faults (env s)) as [|[e|] rest]; simpl;
    intros E; injection E as <- <-; auto.
Qed.

Lemma os_Rename_spec (old new : string) (s s' : State) (r : option error) :
  os_Rename old new s = (Done r, s') ->
  pkg s' = pkg s /\ inodes (env s') = inodes (env s)
  /\ fds (env s') = fds (env s)
  /\ clock (env s') = clock (env s) /\ reads (env s') = reads (env s)
  /\ match r with
     | Some e => names (env s') = names (env s)
                 /\ exists en, e = LinkError "rename" old new en
     | None => exists node, names (env s) !! old = Some node
                 /\ names (env s') =
                    if bool_decide (old = new) then names (env s)
                    else <[new := node]> (delete old (names (env s)))
     end.
Proof.
  unfold os_Rename; unfold_prims.
  cbv beta iota delta [bind gete mode ret]. simpl.
  destruct (faults (env s)) as [|[e|] rest]; simpl;
    try (intros E; injection E as <- <-; simpl; eauto 10);
    (destruct (names (env s) !! old) as [node|] eqn:Ho; simpl;
     [| intros E; injection E as <- <-; simpl; eauto 10];
     destruct (bool_decide (old = new)) eqn:Hd; simpl;
     [intros E; injection E as <- <-; simpl; eauto 10 |];
     destruct (bool_decide (new = "") || negb (isDir _ (parentOf new))); simpl;
     [intros E; injection E as <- <-; simpl; eauto 10 |];
     destruct node, (names (env s) !! new) as [[|]|]; simpl;
     try (intros E; injection E as <- <-; simpl; eauto 10);
     (destruct (bool_decide (new = ".") || bool_decide (new = "/")); simpl;
      intros E; injection E as <- <-; simpl; eauto 10)).
Qed.

Lemma os_OpenFile_spec (p : string) (flag perm : Z) (s s' : State)
      (f : option File) (e : option error) :
  os_OpenFile p flag perm s = (Done (f, e), s') ->
  pkg s' = pkg s
  /\ clock (env s') = clock (env s) /\ reads (env s') = reads (env s)
  /\ match e with
     | Some err =>
       f = None /\ names (env s') = names (env s)
       /\ inodes (env s') = inodes (env s) /\ fds (env s') = fds (env s)
       /\ exists en, err = PathError "open" p en
     | None =>
       exists i,
         f = Some (mkFile (fresh (dom (fds (env s)))) p)
         /\ fds (env s') = <[fresh (dom (fds (env s))) := mkDescr i flag]> (fds (env s))
         /\ ((names (env s) !! p = Some (NFile i)
              /\ names (env s') = names (env s)
              /\ inodes (env s') = inodes (env s))
             \/ (names (env s) !! p = None
                 /\ i = fresh (dom (inodes (env s)))
                 /\ names (env s') = <[p := NFile i]> (names (env s))
                 /\ inodes (env s') = <[i := []]> (inodes (env s))))
     end.
Proof.
  unfold os_OpenFile; unfold_prims.
  cbv beta iota delta [bind gete mode ret]. simpl.
  destruct (faults (env s)) as [|[en|] rest]; simpl;
    try (intros E; injection E as <- <- <-; simpl; eauto 12);
    (destruct (names (env s) !! p) as [[|i]|] eqn:Hp; simpl;
     try (intros E; injection E as <- <- <-; simpl; eauto 12);
     (destruct (bool_decide (p = ".") || bool_decide (p = "/")); simpl;
      [intros E; injection E as <- <- <-; simpl; eauto 12 |];
      destruct ((Z.land flag O_CREATE =? 0) || bool_decide (p = "")
                || negb (isDir _ (parentOf p))); simpl;
      intros E; injection E as <- <- <-; simpl; eauto 12)).
Qed.

Lemma append_length (a b : string) :
  String.length (a +:+ b) = (String.length a + String.length b)%nat.
Proof. induction a as [|c a IH]; simpl; [reflexivity | rewrite IH; reflexivity]. Qed.

Lemma append_inj_l (a b c : string) : a +:+ b = a +:+ c -> b = c.
Proof. induction a as [|x a IH]; simpl; intros E; [assumption | injection E; auto]. Qed.

Lemma backup_name_differs (src d : string) : src <> src +:+ "." +:+ d.
Proof.
  intros E. apply (f_equal String.length) in E.
  rewrite append_length in E. simpl in E. lia.
Qed.

Lemma mutex_Lock_Done (s s' : State) (u : unit) :
  mutex_Lock s = (Done u, s') ->
  s' = mkState (set_mutex (Some (mkMutex true 0)) (pkg s)) (env s).
Proof.
  unfold mutex_Lock, bind, getp.
  destruct (mutex (pkg s)) as [[w r]|]; simpl; try discriminate.
  destruct w, r; simpl; try discriminate.
  unfold modp. intros E. injection E as _ <-. reflexivity.
Qed.

Lemma mutex_Unlock_Done (s s' : State) (u : unit) :
  mutex_Unlock s = (Done u, s') ->
  env s' = env s /\ set_mutex None (pkg s') = set_mutex None (pkg s).
Proof.
  unfold mutex_Unlock, bind, getp.
  destruct (mutex (pkg s)) as [[w r]|]; simpl; try discriminate.
  destruct w; simpl; try discriminate.
  unfold modp. intros E. injection E as _ <-. auto.
Qed.

Ltac use_specs :=
  repeat match goal with
         | H : mutex_Lock _ = _ |- _ => apply mutex_Lock_Done in H; subst
         | H : mutex_Unlock _ = _ |- _ =>
           apply mutex_Unlock_Done in H; destruct H as [? ?]
         | H : File_Close _ _ = _ |- _ =>
           apply File_Close_spec in H; destruct H as (? & ? & ? & ? & ?)
         | H : os_Rename _ _ _ = _ |- _ =>
           apply os_Rename_spec in H; destruct H as (? & ? & ? & ? & ? & ?)
         | H : time_Now _ = _ |- _ =>
           apply time_Now_spec in H; destruct H as [? ?]; subst
         | H : os_OpenFile _ _ _ _ = _ |- _ =>
           apply os_OpenFile_spec in H; destruct H as (? & ? & ? & ?)
         end.

Lemma split_inv (s s' : State) (r : option error) :
  split s = (Done r, s') ->
  exists A,
    date (pkg s) = Some A
    /\ let src := filepath_Join (fileDir (pkg s)) (fileName (pkg s)) in
       let tgt := src +:+ "." +:+ Format_Date A in
       let today := dayOf (clock (env s) (reads (env s))) in
       match r with
       | Some e =>
         ((exists en, e = LinkError "rename" src tgt en)
          /\ date (pkg s') = Some A
          /\ logFile (pkg s') = logFile (pkg s)
          /\ logger (pkg s') = logger (pkg s)
          /\ names (env s') = names (env s)
          /\ inodes (env s') = inodes (env s))
         \/ ((exists en, e = PathError "open" src en)
             /\ date (pkg s') = Some today
             /\ logFile (pkg s') = None
             /\ logger (pkg s') = logger (pkg s)
             /\ inodes (env s') = inodes (env s)
             /\ exists node, names (env s) !! src = Some node
                  /\ names (env s') = <[tgt := node]> (delete src (names (env s))))
       | None =>
         exists node n,
           let i := fresh (dom (inodes (env s))) in
           names (env s) !! src = Some node
           /\ names (env s') = <[src := NFile i]> (<[tgt := node]> (delete src (names (env s))))
           /\ inodes (env s') = <[i := []]> (inodes (env s))
           /\ fds (env s') !! n = Some (mkDescr i openFlags)
           /\ date (pkg s') = Some today
           /\ logFile (pkg s') = Some (mkFile n src)
           /\ logger (pkg s') = Some (log_New (Some (mkFile n src)) (prefix (pkg s)) loggerFlags)
           /\ clock (env s') = clock (env s)
           /\ reads (env s') = S (reads (env s))
       end.
Proof.
  unfold split. intros Hrun. inv_run; use_specs; simpl in *;
    repeat match goal with
           | H : set_mutex None _ = set_mutex None _ |- _ =>
             pose proof (f_equal date H); pose proof (f_equal logFile H);
             pose proof (f_equal logger H); clear H
           | H : _ /\ _ |- _ => destruct H
           | H : exists _, _ |- _ => destruct H
           end; simpl in *;
    repeat match goal with
           | H : pkg ?x = _ |- _ => is_var x; rewrite H in *; clear H
           | H : env ?x = _ |- _ => is_var x; rewrite H in *; clear H
           end; simpl in *;
    try rewrite (bool_decide_eq_false_2 _ (backup_name_differs _ _)) in *;
    repeat match goal with
           | H : ?f (env ?x) = _ |- _ => is_var x; rewrite H in *; clear H
           end;
    (eexists; split; [eassumption |]).
  all: try solve [left; repeat split; eauto; congruence].
  all: try solve [right; repeat split; eauto; try congruence].
  all: match goal with
       | Hd : _ \/ _ |- _ => destruct Hd as [(Hl & _) | (_ & -> & Hn & Hi)]
       end;
    [ rewrite lookup_insert_ne, lookup_delete_eq in Hl
        by (apply not_eq_sym, backup_name_differs); discriminate
    | subst; eexists _, _; repeat split; eauto; try congruence;
      apply lookup_insert_eq ].
Qed.

(** C2.  A call to [split] that returns nil has renamed the active file
    [Join(fileDir, fileName)] to that path followed by a dot and the anchor
    held before the call in the layout [2006-01-02]; has set the anchor to
    the day of the clock reading it took; has created an empty file at the
    active path and holds it open in append mode in [logFile]; and has set
    [logger] to a new logger on that handle with the configured prefix. *)
Theorem split_success (s s' : State) :
  split s = (Done None, s') ->
  exists (A : Time) (node : Node) (n : nat),
    let src := filepath_Join (fileDir (pkg s)) (fileName (pkg s)) in
    let tgt := src +:+ "." +:+ Format_Date A in
    let i := fresh (dom (inodes (env s))) in
    date (pkg s) = Some A
    /\ names (env s) !! src = Some node
    /\ names (env s') !! tgt = Some node
    /\ date (pkg s') = Some (dayOf (clock (env s) (reads (env s))))
    /\ names (env s') !! src = Some (NFile i)
    /\ inodes (env s) !! i = None
    /\ inodes (env s') !! i = Some []
    /\ logFile (pkg s') = Some (mkFile n src)
    /\ fds (env s') !! n = Some (mkDescr i openFlags)
    /\ hasFlag openFlags O_APPEND = true
    /\ hasFlag openFlags O_CREATE = true
    /\ logger (pkg s') =
       Some (log_New (logFile (pkg s')) (prefix (pkg s')) loggerFlags).
Proof.
  intros Hrun.
  pose proof (split_keeps_config s) as Hc. rewrite Hrun in Hc. simpl in Hc.
  unfold config in Hc. injection Hc as _ _ Hp _ _.
  destruct (split_inv s s' None Hrun) as (A & HA & node & n & Hsrc & Hn & Hi & Hfd & Hd & Hf & Hl & _).
  exists A, node, n. simpl.
  repeat split; try assumption.
  - rewrite Hn. rewrite lookup_insert_ne by apply backup_name_differs.
    apply lookup_insert_eq.
  - rewrite Hn. apply lookup_insert_eq.
  - apply not_elem_of_dom. apply is_fresh.
  - rewrite Hi. apply lookup_insert_eq.
  - rewrite Hl, Hf, Hp. reflexivity.
Qed.

(** C3, as the code has it.  A call to [split] that returns an error
    either failed in [os.Rename], and then the anchor, [logFile] and
    [logger] are as before the call and no name has changed; or failed in
    [os.OpenFile] after the rename was done, and then the anchor is the day
    of the clock reading taken in between and [logFile] is nil. *)
Theorem split_failure (s s' : State) (e : error) :
  split s = (Done (Some e), s') ->
  exists A : Time,
    let src := filepath_Join (fileDir (pkg s)) (fileName (pkg s)) in
    let tgt := src +:+ "." +:+ Format_Date A in
    date (pkg s) = Some A
    /\ (((exists en, e = LinkError "rename" src tgt en)
         /\ date (pkg s') = date (pkg s)
         /\ logFile (pkg s') = logFile (pkg s)
         /\ logger (pkg s') = logger (pkg s)
         /\ names (env s') = names (env s))
        \/ ((exists en, e = PathError "open" src en)
            /\ date (pkg s') = Some (dayOf (clock (env s) (reads (env s))))
            /\ logFile (pkg s') = None
            /\ logger (pkg s') = logger (pkg s)
            /\ exists node, names (env s) !! src = Some node
                 /\ names (env s') !! tgt = Some node
                 /\ names (env s') !! src = None)).
Proof.
  intros Hrun.
  destruct (split_inv s s' (Some e) Hrun) as (A & HA & Hcase).
  exists A. simpl. split; [assumption |].
  destruct Hcase as [(He & Hd & Hf & Hl & Hn & _) | (He & Hd & Hf & Hl & _ & node & Hsrc & Hn)].
  - left. repeat split; try assumption. congruence.
  - right. repeat split; try assumption.
    exists node. repeat split; try assumption.
    + rewrite Hn. apply lookup_insert_eq.
    + rewrite Hn. rewrite lookup_insert_ne
        by (apply not_eq_sym, backup_name_differs).
      apply lookup_delete_eq.
Qed.

(** ** Case folding against an ASCII literal *)

Lemma forall_ascii (P : ascii -> bool) :
  List.forallb P allAscii = true -> forall a, P a = true.
Proof.
  intros Hall a. rewrite List.forallb_forall in Hall. apply Hall.
  unfold allAscii. rewrite <- (ascii_nat_embedding a).
  apply List.in_map. apply List.in_seq. pose proof (nat_ascii_bounded a). lia.
Qed.

Lemma lor_ge_l (x y : Z) : 0 <= x -> 0 <= y -> x <= Z.lor x y.
Proof.
  intros Hx Hy.
  assert (D : Z.land x (Z.ldiff y x) = 0).
  { apply Z.bits_inj'. intros n Hn.
    rewrite Z.land_spec, Z.ldiff_spec, Z.bits_0.
    destruct (Z.testbit x n), (Z.testbit y n); reflexivity. }
  assert (E : Z.lor x y = Z.lor x (Z.ldiff y x)).
  { apply Z.bits_inj'. intros n Hn.
    rewrite !Z.lor_spec, Z.ldiff_spec.
    destruct (Z.testbit x n), (Z.testbit y n); reflexivity. }
  rewrite E, <- Z.lxor_lor, <- Z.add_nocarry_lxor by assumption.
  assert (0 <= Z.ldiff y x) by (apply Z.ldiff_nonneg; auto).
  lia.
Qed.

Lemma byte_range (c : ascii) : 0 <= byte c < 256.
Proof.
  unfold byte. pose proof (N_ascii_bounded c). lia.
Qed.

Lemma leadOK_all (c c1 : ascii) : leadOK c c1 = true.
Proof.
  revert c1. apply forall_ascii. revert c.
  apply (forall_ascii (fun c => List.forallb (leadOK c) allAscii)).
  vm_compute. reflexivity.
Qed.

(** A byte outside ASCII never starts a rune inside ASCII. *)
Lemma Decode_nonascii (c : ascii) (r : string) :
  128 <= byte c -> 128 <= fst (DecodeRuneInString (String c r)).
Proof.
  intros Hc. unfold DecodeRuneInString.
  destruct (byte c <? RuneSelf) eqn:E0; [unfold RuneSelf in E0; lia |].
  destruct ((byte c <? 194) || (244 <? byte c)) eqn:E1; [simpl; unfold RuneError; lia |].
  destruct r as [|c1 r1]; [destruct (if byte c =? 224 then _ else _); simpl; unfold RuneError; lia |].
  pose proof (leadOK_all c c1) as K. unfold leadOK in K. rewrite E1 in K.
  destruct (if byte c =? 224 then _ else _) as [lo hi].
  destruct (negb (inRange lo hi (byte c1))); [simpl; unfold RuneError; lia |].
  assert (Hnn : forall (x : ascii) (k n : Z), 0 <= Z.shiftl (Z.land (byte x) k) n).
  { intros x k n. apply Z.shiftl_nonneg, Z.land_nonneg. left. apply byte_range. }
  assert (Hn0 : forall (x : ascii) (k : Z), 0 <= Z.land (byte x) k).
  { intros x k. apply Z.land_nonneg. left. apply byte_range. }
  destruct (byte c <? 224); simpl; [apply Z.leb_le; exact K |].
  destruct (byte c <? 240); simpl; apply Z.leb_le in K;
    (destruct r1 as [|c2 r2]; [simpl; unfold RuneError; lia |]);
    (destruct (negb (inRange 128 191 (byte c2))); [simpl; unfold RuneError; lia |]);
    simpl.
  - etransitivity; [exact K |].
    apply lor_ge_l; [apply Z.lor_nonneg; split |]; auto.
  - destruct r2 as [|c3 r3]; [simpl; unfold RuneError; lia |].
    destruct (negb (inRange 128 191 (byte c3))); [simpl; unfold RuneError; lia |].
    simpl. etransitivity; [exact K |].
    etransitivity; [apply lor_ge_l | apply lor_ge_l]; auto;
      repeat (apply Z.lor_nonneg; split); auto.
Qed.


Lemma stepOK_all (a b : ascii) : stepOK a b = true.
Proof.
  revert b. apply forall_ascii. revert a.
  apply (forall_ascii (fun a => List.forallb (stepOK a) allAscii)).
  vm_compute. reflexivity.
Qed.

Lemma foldRunes_cons (fuel : nat) (a b : ascii) (s t : string) :
  foldRunes (S fuel) (String a s) (String b t) =
  let '(sr, n) := DecodeRuneInString (String a s) in
  let '(tr, m) :=
    if byte b <? RuneSelf then (byte b, 1%nat) else DecodeRuneInString (String b t) in
  if runeFoldEq sr tr
  then foldRunes fuel (dropBytes n (String a s)) (dropBytes m (String b t))
  else false.
Proof. reflexivity. Qed.

Lemma EqualFold_cons (a b : ascii) (s t : string) :
  EqualFold (String a s) (String b t) =
  if RuneSelf <=? Z.lor (byte a) (byte b)
  then foldRunes (String.length (String a s)) (String a s) (String b t)
  else if byte b =? byte a then EqualFold s t
  else if asciiFoldPair (Z.min (byte a) (byte b)) (Z.max (byte a) (byte b))
       then EqualFold s t
  else false.
Proof. reflexivity. Qed.

(** Against a literal of upper-case letters without K and S, [EqualFold]
    is equality after ASCII upper-casing: no rune outside ASCII folds to
    any of its letters. *)
Lemma EqualFold_literal (t : string) :
  plainUpper t = true ->
  forall s, EqualFold s t = bool_decide (upperAscii s = t).
Proof.
  induction t as [|b t IH]; intros Ht s.
  - destruct s; reflexivity.
  - simpl in Ht. apply andb_prop in Ht. destruct Ht as [Hb Ht].
    destruct s as [|a s]; [reflexivity |].
    pose proof (stepOK_all a b) as K. unfold stepOK in K. rewrite Hb in K.
    repeat (apply andb_prop in K; destruct K as [K ?]).
    assert (Hdec : bool_decide (upperAscii (String a s) = String b t)
                   = bool_decide (upperByte a = b) && bool_decide (upperAscii s = t)).
    { simpl. repeat case_bool_decide; simpl; congruence. }
    rewrite Hdec, EqualFold_cons.
    destruct (byte a <? 128) eqn:Ea.
    + match goal with
      | H0 : _ && _ = true |- _ => apply andb_prop in H0; destruct H0 as [N E]
      end.
      apply negb_true_iff in N. rewrite N.
      rewrite <- (IH Ht). apply Bool.eqb_prop in E. rewrite <- E.
      destruct (byte b =? byte a); simpl; [reflexivity |].
      destruct (asciiFoldPair _ _); reflexivity.
    + match goal with
      | H0 : _ && _ = true |- _ => apply andb_prop in H0; destruct H0 as [N E]
      end.
      rewrite N. apply negb_true_iff in E. rewrite E. simpl andb.
      change (String.length (String a s)) with (S (String.length s)).
      rewrite foldRunes_cons.
      pose proof (Decode_nonascii a s) as D.
      destruct (DecodeRuneInString (String a s)) as [sr n]. simpl in D.
      rewrite K.
      assert (Hr : runeFoldEq sr (byte b) = false).
      { assert (128 <= sr) by (apply D; apply Z.ltb_ge in Ea; exact Ea).
        apply Z.ltb_lt in K. unfold RuneSelf in *.
        unfold runeFoldEq.
        destruct (Z.eqb_spec (byte b) sr); [lia |].
        rewrite Z.min_r, Z.max_l by lia.
        destruct (Z.ltb_spec sr RuneSelf); [unfold RuneSelf in *; lia |].
        unfold simpleFoldReaches.
        destruct (Z.ltb_spec (byte b) RuneSelf); [| unfold RuneSelf in *; lia].
        repeat match goal with
               | Hn : negb _ = true |- _ => apply negb_true_iff in Hn; rewrite Hn
               end.
        reflexivity. }
      rewrite Hr. reflexivity.
Qed.


Lemma bootLevel_levelOfName (level : string) : bootLevel level = levelOfName level.
Proof.
  unfold bootLevel, levelOfName.
  rewrite !EqualFold_literal by reflexivity. reflexivity.
Qed.

Lemma bind_gete_run {A B} (g : World -> A) (k : A -> M B) (s : State) :
  bind (gete g) k s = k (g (env s)) s.
Proof. reflexivity. Qed.

Lemma bind_modp_run {B} (g : Services -> Services) (k : unit -> M B) (s : State) :
  bind (modp g) k s = k tt (mkState (g (pkg s)) (env s)).
Proof. reflexivity. Qed.

(** C4.  Whatever else happens during boot, the threshold [BootLogger]
    leaves is the level named by the configured string, letter case
    aside, when that level is OFF, TRACE, INFO, WARN or ERROR, and DEBUG
    for every other string: "error", "Error" and "ERROR" give ERROR,
    "bogus" and "DEBUG" give DEBUG. *)
Theorem boot_threshold (s : State) :
  logLevel (pkg (snd (BootLogger s))) = levelOfName (Level (toml (env s)))
  /\ (forall level : string, bootLevel level = levelOfName level)
  /\ bootLevel "error" = ERROR /\ bootLevel "Error" = ERROR
  /\ bootLevel "ERROR" = ERROR
  /\ bootLevel "bogus" = DEBUG /\ bootLevel "DEBUG" = DEBUG.
Proof.
  split; [| split; [exact bootLevel_levelOfName | repeat split; reflexivity]].
  unfold BootLogger, GetLogsDir, GetLogsFilename, GetLogsPrefix, GetLogsLevel.
  repeat (rewrite bind_gete_run || rewrite bind_modp_run).
  match goal with
  | |- context [snd (?m ?st)] =>
    assert (Hk : keeps (fun s => logLevel (pkg s)) m)
      by (unfold isMustSplit, split, isExistOrCreate; unfold_prims; frame);
    rewrite (Hk st)
  end.
  simpl. apply bootLevel_levelOfName.
Qed.

(** ** Dates *)

Lemma upTo_all (P : Z -> bool) (n : Z) :
  List.forallb P (upTo n) = true ->
  forall z, 0 <= z < n -> P z = true.
Proof.
  intros Hall z Hz. rewrite List.forallb_forall in Hall. apply Hall.
  unfold upTo. rewrite <- (Z2Nat.id z) by lia.
  apply List.in_map. apply List.in_seq. lia.
Qed.

Lemma fmt4OK_all (y : Z) : 0 <= y <= 9999 -> fmt4OK y = true.
Proof.
  intros Hy. apply (upTo_all fmt4OK 10000); [vm_compute; reflexivity | lia].
Qed.

Lemma fmt2OK_all (m : Z) : 0 <= m <= 99 -> fmt2OK m = true.
Proof.
  intros Hm. apply (upTo_all fmt2OK 100); [vm_compute; reflexivity | lia].
Qed.

Lemma getyear_appendInt (y : Z) (rest : string) :
  0 <= y <= 9999 -> getyear (appendInt y 4 +:+ rest) = Some (y, rest).
Proof.
  intros Hy. pose proof (fmt4OK_all y Hy) as K. unfold fmt4OK in K.
  destruct (appendInt y 4) as [|a [|b [|c [|d [|? ?]]]]]; try discriminate.
  cbv beta iota in K.
  repeat (apply andb_prop in K; destruct K as [K ?]).
  unfold getyear. simpl. unfold isDigit in *.
  repeat match goal with
         | Hd : (_ <=? _) = true |- _ => rewrite Hd; clear Hd
         | Hd : _ && _ = true |- _ => rewrite Hd; clear Hd
         end.
  match goal with Hv : (_ =? y) = true |- _ => apply Z.eqb_eq in Hv; rewrite Hv end.
  reflexivity.
Qed.

Lemma getnum2_appendInt (m : Z) (rest : string) :
  0 <= m <= 99 -> getnum2 (appendInt m 2 +:+ rest) = Some (m, rest).
Proof.
  intros Hm. pose proof (fmt2OK_all m Hm) as K. unfold fmt2OK in K.
  destruct (appendInt m 2) as [|a [|b [|? ?]]]; try discriminate.
  cbv beta iota in K.
  repeat (apply andb_prop in K; destruct K as [K ?]).
  unfold getnum2. simpl. unfold isDigit in *.
  repeat match goal with
         | Hd : (_ <=? _) = true |- _ => rewrite Hd; clear Hd
         | Hd : _ && _ = true |- _ => rewrite Hd; clear Hd
         end.
  match goal with Hv : (_ =? m) = true |- _ => apply Z.eqb_eq in Hv; rewrite Hv end.
  reflexivity.
Qed.

Lemma append_nil_r (a : string) : a +:+ "" = a.
Proof.
  induction a as [|c a IH]; [reflexivity |].
  change (String c (a +:+ "") = String c a). f_equal. exact IH.
Qed.

Lemma daysIn_le_31 (m y : Z) : daysIn m y <= 31.
Proof.
  unfold daysIn.
  destruct ((m =? 2) && isLeap y), (m =? 2),
    ((m =? 4) || (m =? 6) || (m =? 9) || (m =? 11)); lia.
Qed.

(** Formatting a date with [DateFormat] and parsing it back gives midnight
    of the same day. *)
Lemma dayOf_valid (t : Time) :
  validDate t -> dayOf t = midnight (year t) (month t) (day t).
Proof.
  intros (Hy & Hm & Hd).
  pose proof (daysIn_le_31 (month t) (year t)).
  assert (Hdash : forall r, skipDash ("-" +:+ r) = Some r) by reflexivity.
  unfold dayOf, Parse_Date, Format_Date.
  rewrite getyear_appendInt, Hdash by lia.
  rewrite getnum2_appendInt, Hdash by lia.
  rewrite <- (append_nil_r (appendInt (day t) 2)).
  rewrite getnum2_appendInt by lia. simpl.
  destruct (Z.leb_spec (month t) 0); [lia |].
  destruct (Z.ltb_spec 12 (month t)); [lia |].
  destruct (Z.ltb_spec (day t) 1); [lia |].
  destruct (Z.ltb_spec (daysIn (month t) (year t)) (day t)); [lia |].
  reflexivity.
Qed.

(** Two valid dates that format alike are the same day. *)
Lemma Format_Date_inj (a b : Time) :
  validDate a -> validDate b -> Format_Date a = Format_Date b ->
  year a = year b /\ month a = month b /\ day a = day b.
Proof.
  intros Ha Hb E.
  pose proof (dayOf_valid a Ha) as Da. pose proof (dayOf_valid b Hb) as Db.
  unfold dayOf in Da, Db. rewrite E in Da. rewrite Da in Db.
  injection Db as -> -> ->. auto.
Qed.

Lemma After_irrefl (t : Time) : After t t = false.
Proof.
  unfold After, fields, lexLt.
  rewrite !Z.ltb_irrefl, !Z.eqb_refl. reflexivity.
Qed.

(** A rotation that is due has an anchor that formats unlike today: both
    are midnights, and a midnight is not after itself. *)
Lemma due_distinct (t0 now : Time) :
  validDate t0 -> validDate now ->
  After (dayOf now) (dayOf t0) = true ->
  Format_Date (dayOf t0) <> Format_Date (dayOf now).
Proof.
  intros H0 H1 Hdue E.
  rewrite (dayOf_valid t0 H0), (dayOf_valid now H1) in *.
  apply Format_Date_inj in E; [| exact H0 | exact H1].
  simpl in E. destruct E as (Ey & Em & Ed).
  rewrite Ey, Em, Ed, After_irrefl in Hdue. discriminate.
Qed.

Lemma isMustSplit_run (s : State) (D : Time) :
  date (pkg s) = Some D ->
  isMustSplit s =
  (Done (After (dayOf (clock (env s) (reads (env s)))) D),
   mkState (pkg s) (set_reads (S (reads (env s))) (env s))).
Proof.
  intros HD. unfold isMustSplit, time_Now, bind, gete, mode, getp, ret. simpl.
  rewrite HD. reflexivity.
Qed.

(** C6, as the code has it.  First part: the due-check answers whether the
    day of the clock reading is after the anchor, so two checks in a row
    whose readings fall on the anchor's day both answer no.  Second part:
    two calls to [split] in a row that both return nil rename the active
    file first to the backup name of the anchor [A] and then to the backup
    name of the day [D] of the first call.  When the two formatted dates
    differ, the names differ and the first backup is still there after the
    second call; that is so whenever the first call was due, [D] after
    [A].  When they are equal, the second rename is onto the first
    backup's name, which from then on names the file the first call had
    created and no longer the first backup. *)
Theorem rotation_twice :
  (forall (s : State) (D : Time),
      date (pkg s) = Some D ->
      let t1 := clock (env s) (reads (env s)) in
      let t2 := clock (env s) (S (reads (env s))) in
      fst (isMustSplit s) = Done (After (dayOf t1) D)
      /\ (dayOf t1 = D -> dayOf t2 = D ->
          fst ((a <- isMustSplit ;; b <- isMustSplit ;; ret (a, b)) s)
          = Done (false, false)))
  /\ (forall s s1 s2 : State,
        split s = (Done None, s1) -> split s1 = (Done None, s2) ->
        exists (A D : Time) (node : Node),
          let src := filepath_Join (fileDir (pkg s)) (fileName (pkg s)) in
          let b1 := src +:+ "." +:+ Format_Date A in
          let b2 := src +:+ "." +:+ Format_Date D in
          let created := NFile (fresh (dom (inodes (env s)))) in
          date (pkg s) = Some A
          /\ D = dayOf (clock (env s) (reads (env s)))
          /\ date (pkg s1) = Some D
          /\ names (env s1) !! b1 = Some node
          /\ names (env s1) !! src = Some created
          /\ names (env s2) !! b2 = Some created
          /\ (Format_Date A <> Format_Date D ->
              b1 <> b2 /\ names (env s2) !! b1 = Some node)
          /\ (forall t0 : Time,
                validDate t0 -> validDate (clock (env s) (reads (env s))) ->
                A = dayOf t0 -> After D A = true ->
                b1 <> b2 /\ names (env s2) !! b1 = Some node)
          /\ (Format_Date A = Format_Date D ->
              b1 = b2
              /\ ((forall j, node = NFile j -> is_Some (inodes (env s) !! j)) ->
                  names (env s2) !! b1 <> Some node))).
Proof.
  split.
  - intros s D HD t1 t2. split.
    + rewrite (isMustSplit_run s D HD). reflexivity.
    + intros E1 E2. unfold bind. rewrite (isMustSplit_run s D HD).
      rewrite isMustSplit_run with (D := D) by exact HD.
      simpl. fold t1 t2. rewrite E1, E2, After_irrefl. reflexivity.
  - intros s s1 s2 Hrun1 Hrun2.
    pose proof (split_keeps_config s) as Hc. rewrite Hrun1 in Hc. simpl in Hc.
    unfold config in Hc. injection Hc as Hdir Hname _ _ _.
    destruct (split_inv s s1 None Hrun1)
      as (A & HA & node & n & Hsrc & Hn & Hi & Hfd & Hd & Hf & Hl & _).
    destruct (split_inv s1 s2 None Hrun2)
      as (A' & HA' & node' & n' & Hsrc' & Hn' & _).
    rewrite Hdir, Hname in Hsrc', Hn'.
    rewrite Hd in HA'. injection HA' as <-.
    set (src := filepath_Join (fileDir (pkg s)) (fileName (pkg s))) in *.
    set (D := dayOf (clock (env s) (reads (env s)))) in *.
    assert (Hnode' : node' = NFile (fresh (dom (inodes (env s))))).
    { rewrite Hn, lookup_insert_eq in Hsrc'. congruence. }
    subst node'.
    assert (Hdist : Format_Date A <> Format_Date D ->
                    src +:+ "." +:+ Format_Date A <> src +:+ "." +:+ Format_Date D
                    /\ names (env s2) !! (src +:+ "." +:+ Format_Date A) = Some node).
    { intros Hne. split.
      - intros E. do 2 apply append_inj_l in E. contradiction.
      - rewrite Hn'. rewrite lookup_insert_ne by apply backup_name_differs.
        rewrite lookup_insert_ne.
        + rewrite lookup_delete_ne by apply backup_name_differs.
          rewrite Hn. rewrite lookup_insert_ne by apply backup_name_differs.
          apply lookup_insert_eq.
        + intros E. do 2 apply append_inj_l in E. congruence. }
    exists A, D, node. simpl.
    split; [exact HA |]. split; [reflexivity |]. split; [exact Hd |].
    split.
    { rewrite Hn. rewrite lookup_insert_ne by apply backup_name_differs.
      apply lookup_insert_eq. }
    split; [exact Hsrc' |].
    split.
    { rewrite Hn'. rewrite lookup_insert_ne by apply backup_name_differs.
      apply lookup_insert_eq. }
    split; [exact Hdist |].
    split.
    { intros t0 Ht0 Hnow -> Hdue. apply Hdist.
      apply due_distinct; assumption. }
    intros HE. split; [congruence |].
    intros Hwf. rewrite HE.
    rewrite Hn'. rewrite lookup_insert_ne by apply backup_name_differs.
    rewrite lookup_insert_eq. intros E. injection E as E.
    destruct (Hwf _ (eq_sym E)) as [x Hx].
    pose proof (is_fresh (dom (inodes (env s)))) as Hfresh.
    apply Hfresh. apply elem_of_dom. eauto.
Qed.

(** ** Operations that always return *)

Lemma returns_ret {A} (a : A) : returns (ret a).
Proof. intros s. unfold ret. eauto. Qed.

Lemma returns_getp {A} (g : Services -> A) : returns (getp g).
Proof. intros s. unfold getp. eauto. Qed.

Lemma returns_gete {A} (g : World -> A) : returns (gete g).
Proof. intros s. unfold gete. eauto. Qed.

Lemma returns_modp (g : Services -> Services) : returns (modp g).
Proof. intros s. unfold modp. eauto. Qed.

Lemma returns_mode (g : World -> World) : returns (mode g).
Proof. intros s. unfold mode. eauto. Qed.

Lemma returns_bind {A B} (m : M A) (k : A -> M B) :
  returns m -> (forall a, returns (k a)) -> returns (bind m k).
Proof.
  intros Hm Hk s. unfold bind. destruct (Hm s) as (a & s1 & E). rewrite E.
  apply Hk.
Qed.

Ltac total_step :=
  match goal with
  | |- returns (ret _) => apply returns_ret
  | |- returns (getp _) => apply returns_getp
  | |- returns (gete _) => apply returns_gete
  | |- returns (modp _) => apply returns_modp
  | |- returns (mode _) => apply returns_mode
  | |- returns (emit _) => apply returns_mode
  | |- returns (bind _ _) => apply returns_bind; [| intros ?]
  | |- returns (match ?x with _ => _ end) => destruct x
  | |- returns (if ?x then _ else _) => destruct x
  end.

Ltac total := repeat total_step.

Lemma bind_run {A B} (m : M A) (k : A -> M B) (s s1 : State) (a : A) :
  m s = (Done a, s1) -> bind m k s = k a s1.
Proof. intros E. unfold bind. rewrite E. reflexivity. Qed.

Lemma bind_getp_run {A B} (g : Services -> A) (k : A -> M B) (s : State) :
  bind (getp g) k s = k (g (pkg s)) s.
Proof. reflexivity. Qed.

(** With the mutex free and an anchor set, [split] returns. *)
Lemma split_total (s : State) (A : Time) :
  mutex (pkg s) = Some (mkMutex false 0) -> date (pkg s) = Some A ->
  exists r s', split s = (Done r, s').
Proof.
  intros Hm HA. unfold split.
  rewrite (bind_run mutex_Lock _ s
             (mkState (set_mutex (Some (mkMutex true 0)) (pkg s)) (env s)) tt)
    by (unfold mutex_Lock, bind, getp; rewrite Hm; reflexivity).
  unfold defer. rewrite !bind_getp_run. simpl. rewrite HA.
  match goal with
  | |- context [let (_, _) := ?m ?st in _] =>
    assert (Ht : returns m) by (unfold_prims; total);
    assert (Hk : keeps (fun s => mutex (pkg s)) m) by (unfold_prims; frame);
    destruct (Ht st) as (r & s1 & E); specialize (Hk st); rewrite E in *
  end.
  simpl in Hk.
  exists r. unfold bind, mutex_Unlock, bind, getp. rewrite Hk. simpl. eauto.
Qed.

Lemma bind_assoc {A B C} (m : M A) (k1 : A -> M B) (k2 : B -> M C) (s : State) :
  bind (bind m k1) k2 s = bind m (fun a => bind (k1 a) k2) s.
Proof. unfold bind. destruct (m s) as [[a| | |] s1]; reflexivity. Qed.

Lemma bind_time_Now_run {B} (k : Time -> M B) (s : State) :
  bind time_Now k s =
  k (clock (env s) (reads (env s)))
    (mkState (pkg s) (set_reads (S (reads (env s))) (env s))).
Proof. reflexivity. Qed.

Lemma isExistOrCreate_returns : returns isExistOrCreate.
Proof. unfold isExistOrCreate; unfold_prims; total. Qed.

Lemma os_OpenFile_returns (p : string) (flag perm : Z) :
  returns (os_OpenFile p flag perm).
Proof. unfold_prims; total. Qed.

Lemma split_keeps_goroutines :
  keeps (fun s => goroutinesStarted (trace (env s))) split.
Proof. unfold split; unfold_prims; frame. Qed.

Lemma isExistOrCreate_keeps_goroutines :
  keeps (fun s => goroutinesStarted (trace (env s))) isExistOrCreate.
Proof. unfold isExistOrCreate; unfold_prims; frame. Qed.

Lemma os_OpenFile_keeps_trace (p : string) (flag perm : Z) :
  keeps (fun s => trace (env s)) (os_OpenFile p flag perm).
Proof. unfold_prims; frame. Qed.

Lemma started_two (t : list Event) :
  goroutinesStarted ((t ++ [EvGo G_logWriter]) ++ [EvGo G_fileMonitor])
  = goroutinesStarted t ++ [G_logWriter; G_fileMonitor].
Proof.
  unfold goroutinesStarted. rewrite !omap_app. simpl.
  rewrite <- app_assoc. reflexivity.
Qed.

(** C5, as the code has it.  [BootLogger] always returns.  When it returns
    an error, the error is that of [os.OpenFile] (or of the rename of a
    rotation at boot), no goroutine has been started and [logger] is as it
    was.  When it returns nil, [logFile] is an open descriptor, [logger]
    writes to it with the configured prefix, and the two goroutines have
    been started.  An error of [os.Mkdir] is never returned: it is only
    printed. *)
Theorem boot_result (s : State) :
  exists (r : option error) (s' : State),
    BootLogger s = (Done r, s')
    /\ match r with
       | Some e =>
         ((exists p en, e = PathError "open" p en)
          \/ (exists a b en, e = LinkError "rename" a b en))
         /\ goroutinesStarted (trace (env s')) = goroutinesStarted (trace (env s))
         /\ logger (pkg s') = logger (pkg s)
       | None =>
         goroutinesStarted (trace (env s'))
         = goroutinesStarted (trace (env s)) ++ [G_logWriter; G_fileMonitor]
         /\ exists f, logFile (pkg s') = Some f
              /\ is_Some (fds (env s') !! fd f)
              /\ logger (pkg s')
                 = Some (log_New (Some f) (Prefix (toml (env s))) loggerFlags)
       end.
Proof.
  unfold BootLogger, GetLogsDir, GetLogsFilename, GetLogsPrefix, GetLogsLevel.
  repeat (rewrite bind_gete_run || rewrite bind_modp_run).
  rewrite bind_time_Now_run, bind_modp_run.
  erewrite (bind_run isMustSplit) by (apply isMustSplit_run; reflexivity).
  match goal with
  | |- context [bind (if ?b then _ else _) _ ?st] =>
    set (st0 := st); destruct b
  end.
  - destruct (split_total st0 (dayOf (clock (env s) (reads (env s)))))
      as (r & s1 & E); [reflexivity | reflexivity |].
    rewrite (bind_run _ _ _ _ _ E).
    pose proof (split_keeps_goroutines st0) as Hg. rewrite E in Hg. simpl in Hg.
    destruct (split_inv _ _ _ E) as (A & HA & Hcase).
    destruct r as [e|].
    + exists (Some e), s1. split; [reflexivity |].
      destruct Hcase as [(He & _ & _ & Hl & _) | (He & _ & _ & Hl & _)];
        destruct He as [en He]; (repeat split; [eauto 6 | exact Hg | exact Hl]).
    + destruct Hcase as (node & n & _ & _ & _ & Hfd & _ & Hf & Hl & _).
      eexists None, _. split; [reflexivity |]. simpl.
      rewrite started_two. rewrite Hg. split; [reflexivity |].
      eexists. repeat split; [exact Hf | simpl; eauto | exact Hl].
  - destruct (isExistOrCreate_returns st0) as ([] & s1 & E1).
    rewrite bind_assoc, (bind_run _ _ _ _ _ E1).
    repeat (rewrite bind_assoc || rewrite bind_getp_run).
    pose proof (isExistOrCreate_keeps_goroutines st0) as Hg1.
    pose proof (isExistOrCreate_keeps_pkg st0) as Hp1.
    rewrite E1 in Hg1, Hp1. simpl in Hg1, Hp1.
    match goal with
    | |- context [bind (os_OpenFile ?p ?fl ?pm) _ _] =>
      destruct (os_OpenFile_returns p fl pm s1) as ([f e] & s2 & E2);
      pose proof (os_OpenFile_keeps_trace p fl pm s1) as Hg2;
      destruct (os_OpenFile_spec _ _ _ _ _ _ _ E2) as (Hp2 & _ & _ & Hcase)
    end.
    rewrite E2 in Hg2. simpl in Hg2.
    rewrite (bind_run _ _ _ _ _ E2). cbv beta iota.
    rewrite bind_assoc, bind_modp_run.
    destruct e as [e|].
    + destruct Hcase as (_ & _ & _ & _ & en & He).
      eexists (Some e), _. split; [reflexivity |]. simpl.
      rewrite Hg2, Hg1, Hp2, Hp1. repeat split; eauto 6.
    + destruct Hcase as (i & Hf & Hfd & _).
      eexists None, _. split; [reflexivity |]. simpl.
      rewrite started_two, Hg2, Hg1. split; [reflexivity |].
      rewrite Hp2, Hf. rewrite Hp1.
      eexists. split; [reflexivity |]. split; [| reflexivity].
      simpl. rewrite Hfd, lookup_insert_eq. eauto.
Qed.

(** ** More of the package *)

Lemma emitOp_keeps_disk (op : EmitOp) (format : string) (v : list Value) :
  keeps (fun s => (disk s, faults (env s), mutex (pkg s))) (emitOp op format v).
Proof. destruct op; unfold_emit; unfold_prims; frame. Qed.

(** X1.  No emit operation does file I/O or takes the mutex: the names,
    the file contents, the descriptors, the pending faults of the
    operating system and the mutex are after the call what they were
    before it, whatever the outcome.  Only the writer's loop writes. *)
Theorem emit_without_file_io (op : EmitOp) (format : string) (v : list Value) (s : State) :
  let s' := snd (emitOp op format v s) in
  names (env s') = names (env s)
  /\ inodes (env s') = inodes (env s)
  /\ fds (env s') = fds (env s)
  /\ faults (env s') = faults (env s)
  /\ mutex (pkg s') = mutex (pkg s).
Proof.
  pose proof (emitOp_keeps_disk op format v s) as E. unfold disk in E.
  injection E as E1 E2 E3 E4 E5. auto.
Qed.

(** X5.  After [close(logChan)]: an operation that gets as far as its send
    panics with "send on closed channel"; a leveled one that the threshold
    stops returns.  No package variable changes, nothing is written to
    standard error, and for [Fatal] and [Fatally] the panic comes before
    [log.Output] and [os.Exit]: the trace has gained the caller query and
    nothing else. *)
Theorem emit_on_closed_channel (op : EmitOp) (format : string) (v : list Value)
        (s : State) (ch : Chan) :
  logChan (pkg s) = Some ch -> closed ch = true ->
  let r := emitOp op format v s in
  fst r = (if passes op (logLevel (pkg s))
           then Panic "send on closed channel" else Done tt)
  /\ pkg (snd r) = pkg s
  /\ stderrLines (trace (env (snd r))) = stderrLines (trace (env s))
  /\ (isFatal op = true -> trace (env (snd r)) = trace (env s) ++ [EvCaller 1]).
Proof.
  intros Hc Hcl. unfold passes, stderrLines.
  destruct op; run_emit;
    (destruct (stack (env s) !! _); simpl);
    try (destruct (LEVEL_le (logLevel (pkg s)) _) eqn:E; simpl);
    rewrite ?Hc; simpl; rewrite ?Hcl; simpl;
    rewrite ?omap_app; simpl; rewrite ?app_nil_r;
    (repeat split; try reflexivity; try discriminate; try (destruct s; reflexivity)).
Qed.

(** X3.  Before [BootLogger] the channel is nil and the threshold is the
    zero value of [LEVEL], which is TRACE and lets every level pass: each of
    the ten emit operations parks on its send, and the package variables
    stay at their zero values. *)
Theorem emit_before_boot (op : EmitOp) (format : string) (v : list Value) (s : State) :
  pkg s = zeroServices ->
  let r := emitOp op format v s in
  fst r = Block /\ pkg (snd r) = zeroServices.
Proof.
  intros Hz.
  destruct op; run_emit;
    (destruct (stack (env s) !! _); simpl);
    rewrite ?Hz; simpl; auto.
Qed.

(** X4.  With the channel open and its buffer full, an operation that gets
    as far as its send parks there; a leveled one that the threshold stops
    returns.  The package variables, the queue among them, are unchanged
    and nothing is written to standard error. *)
Theorem emit_on_full_channel (op : EmitOp) (format : string) (v : list Value)
        (s : State) (ch : Chan) :
  logChan (pkg s) = Some ch -> closed ch = false ->
  cap ch <= Z.of_nat (List.length (buf ch)) ->
  let r := emitOp op format v s in
  fst r = (if passes op (logLevel (pkg s)) then Block else Done tt)
  /\ pkg (snd r) = pkg s
  /\ stderrLines (trace (env (snd r))) = stderrLines (trace (env s)).
Proof.
  intros Hc Hcl Hfull. apply Z.ltb_ge in Hfull. unfold passes, stderrLines.
  destruct op; run_emit;
    (destruct (stack (env s) !! _); simpl);
    try (destruct (LEVEL_le (logLevel (pkg s)) _) eqn:E; simpl);
    rewrite ?Hc; simpl; rewrite ?Hcl; simpl; rewrite ?Hfull; simpl;
    rewrite ?omap_app; simpl; rewrite ?app_nil_r;
    (repeat split; try reflexivity; try discriminate; try (destruct s; reflexivity)).
Qed.

(** X2.  The console line does not depend on the threshold or on the
    channel: in every state, [Debug], [Info], [Warning] and [Error] write
    exactly one line to standard output, in their colour, stamped with
    the clock reading and naming the caller at depth 1; the other six
    operations write none. *)
Theorem console_echo (op : EmitOp) (format : string) (v : list Value) (s : State) :
  let s' := snd (emitOp op format v s) in
  stdoutLines (trace (env s')) =
  stdoutLines (trace (env s)) ++
    match echoColor op, severity op with
    | Some c, Some L =>
      [consoleLine c L (frameAt 1 s) (clock (env s) (reads (env s))) format v]
    | _, _ => []
    end.
Proof.
  unfold stdoutLines, consoleLine, frameAt.
  destruct op; run_emit;
    (destruct (stack (env s) !! _); simpl);
    try (destruct (LEVEL_le (logLevel (pkg s)) _) eqn:E; simpl);
    repeat match goal with
           | |- context [match ?x with _ => _ end] =>
             match type of x with
             | option _ => destruct x
             | bool => destruct x
             end; simpl
           end;
    rewrite ?omap_app; simpl; rewrite ?app_nil_r; reflexivity.
Qed.

(** One turn of the writer on a logger in working order. *)
Lemma logWriter_body_run (s : State) (ch : Chan) (x : string) (r : list string)
      (n : nat) (lg : Logger) (f : File) (d : Descr) :
  logChan (pkg s) = Some ch -> buf ch = x :: r ->
  mutex (pkg s) = Some (mkMutex false n) ->
  logger (pkg s) = Some lg -> out lg = Some f ->
  fds (env s) !! fd f = Some d ->
  faults (env s) = [] ->
  logWriter_body s =
  (Done tt,
   mkState (set_mutex (Some (mkMutex false n))
              (set_logChan (Some (mkChan r (cap ch) (closed ch))) (pkg s)))
           (set_inodes
              (alter (fun l => l ++ [formatHeader (lprefix lg) (lflag lg)
                                       (clock (env s) (reads (env s)))
                                     +:+ withNewline x])
                     (d_ino d) (inodes (env s)))
              (set_reads (S (reads (env s))) (env s)))).
Proof.
  intros Hc Hb Hm Hl Ho Hfd Hfa.
  unfold logWriter_body, chan_recv, mutex_RLock, mutex_RUnlock, Logger_Output,
    File_Write, fault, time_Now.
  cbv beta iota delta [bind getp gete modp mode ret]. simpl.
  rewrite Hc, Hb. simpl. rewrite Hm. simpl. rewrite Hl. simpl. rewrite Ho. simpl.
  rewrite Hfd. simpl. rewrite Hfa. simpl. reflexivity.
Qed.

Lemma logWriter_for_run (xs : list string) :
  forall (s : State) (ch : Chan) (r : list string) (n : nat) (lg : Logger)
         (f : File) (d : Descr),
  logChan (pkg s) = Some ch -> buf ch = xs ++ r ->
  mutex (pkg s) = Some (mkMutex false n) ->
  logger (pkg s) = Some lg -> out lg = Some f ->
  fds (env s) !! fd f = Some d ->
  faults (env s) = [] ->
  exists s',
    logWriter_for (List.length xs) s = (Done tt, s')
    /\ logChan (pkg s') = Some (mkChan r (cap ch) (closed ch))
    /\ core s' = core s /\ mutex (pkg s') = mutex (pkg s)
    /\ names (env s') = names (env s) /\ fds (env s') = fds (env s)
    /\ faults (env s') = [] /\ trace (env s') = trace (env s)
    /\ clock (env s') = clock (env s)
    /\ reads (env s') = (reads (env s) + List.length xs)%nat
    /\ inodes (env s') !! d_ino d =
       (fun old => old ++ rendered lg (clock (env s)) (reads (env s)) xs)
         <$> inodes (env s) !! d_ino d
    /\ (forall j, j <> d_ino d -> inodes (env s') !! j = inodes (env s) !! j).
Proof.
  induction xs as [|x xs IH]; intros s ch r n lg f d Hc Hb Hm Hl Ho Hfd Hfa.
  - exists s. simpl in *. destruct ch as [b c cl]. simpl in *. subst b.
    rewrite Nat.add_0_r.
    repeat split; auto.
    destruct (inodes (env s) !! d_ino d); simpl; [rewrite app_nil_r |]; reflexivity.
  - simpl List.length. cbn [logWriter_for].
    rewrite (bind_run _ _ _ _ _
               (logWriter_body_run s ch x (xs ++ r) n lg f d Hc Hb Hm Hl Ho Hfd Hfa)).
    match goal with |- context [logWriter_for _ ?st] => set (s1 := st) end.
    destruct (IH s1 (mkChan (xs ++ r) (cap ch) (closed ch)) r n lg f d)
      as (s' & Hrun & Hc' & Hcore & Hm' & Hn' & Hfd' & Hfa' & Htr & Hck & Hrd & Hi & Hj);
      try reflexivity; try assumption.
    exists s'. split; [exact Hrun |].
    split; [exact Hc' |].
    split; [rewrite Hcore; reflexivity |].
    split; [rewrite Hm'; simpl; symmetry; exact Hm |].
    split; [rewrite Hn'; reflexivity |].
    split; [rewrite Hfd'; reflexivity |].
    split; [exact Hfa' |].
    split; [rewrite Htr; reflexivity |].
    split; [rewrite Hck; reflexivity |].
    split; [rewrite Hrd; simpl; lia |].
    split.
    + rewrite Hi. simpl. rewrite lookup_alter_eq.
      destruct (inodes (env s) !! d_ino d); simpl; [| reflexivity].
      rewrite <- app_assoc. reflexivity.
    + intros j Hne. rewrite (Hj j Hne). simpl.
      apply lookup_alter_ne. congruence.
Qed.

(** X6.  The writer keeps the order of the queue.  With a logger on an
    open descriptor, no writer holding the mutex and no fault pending,
    [length xs] turns of the loop of [logWriter] take the lines [xs] off
    the head of the queue and append them to the file of the descriptor in
    that order, each behind the header of its own clock reading; no other
    file and no name changes, the mutex is given back, and with the queue
    empty and the channel open the next turn parks. *)
Theorem writer_in_order (s : State) (ch : Chan) (xs r : list string) (n : nat)
        (lg : Logger) (f : File) (d : Descr) (old : list string) :
  logChan (pkg s) = Some ch -> buf ch = xs ++ r ->
  mutex (pkg s) = Some (mkMutex false n) ->
  logger (pkg s) = Some lg -> out lg = Some f ->
  fds (env s) !! fd f = Some d ->
  inodes (env s) !! d_ino d = Some old ->
  faults (env s) = [] ->
  exists s',
    logWriter (List.length xs) s = (Done true, s')
    /\ queue s' = r
    /\ inodes (env s') !! d_ino d
       = Some (old ++ rendered lg (clock (env s)) (reads (env s)) xs)
    /\ (forall j, j <> d_ino d -> inodes (env s') !! j = inodes (env s) !! j)
    /\ names (env s') = names (env s)
    /\ mutex (pkg s') = mutex (pkg s)
    /\ (r = [] -> closed ch = false -> fst (logWriter 1 s') = Block).
Proof.
  intros Hc Hb Hm Hl Ho Hfd Hold Hfa.
  destruct (logWriter_for_run xs s ch r n lg f d Hc Hb Hm Hl Ho Hfd Hfa)
    as (s' & Hrun & Hc' & _ & Hm' & Hn' & _ & _ & _ & _ & _ & Hi & Hj).
  exists s'. unfold logWriter, recovering. rewrite Hrun.
  split; [reflexivity |].
  split; [unfold queue; rewrite Hc'; reflexivity |].
  split; [rewrite Hi, Hold; reflexivity |].
  split; [exact Hj |].
  split; [exact Hn' |].
  split; [exact Hm' |].
  intros -> Hcl. simpl. unfold logWriter_body, chan_recv, bind, getp.
  rewrite Hc'. simpl. rewrite Hcl. reflexivity.
Qed.

(** [CloseLogger], case by case. *)
Lemma CloseLogger_run (s : State) (ch : Chan) :
  logChan (pkg s) = Some ch -> closed ch = false ->
  exists s',
    CloseLogger s = (Done tt, s')
    /\ pkg s' = set_logger None
                  (set_logChan (Some (mkChan (buf ch) (cap ch) true)) (pkg s))
    /\ names (env s') = names (env s) /\ inodes (env s') = inodes (env s)
    /\ clock (env s') = clock (env s) /\ reads (env s') = reads (env s)
    /\ (forall f, logFile (pkg s) = Some f -> fds (env s') !! fd f = None).
Proof.
  intros Hc Hcl.
  unfold CloseLogger, chan_close, File_Close, fault.
  cbv beta iota delta [bind getp gete modp mode ret panic]. simpl.
  rewrite Hc. simpl. rewrite Hc, Hcl. simpl.
  destruct (logFile (pkg s)) as [f|] eqn:Hf; simpl.
  - destruct (fds (env s) !! fd f) as [d|] eqn:Hd; simpl.
    + destruct (faults (env s)) as [|[e|] rest]; simpl;
        (eexists; split; [reflexivity |]; simpl; repeat split; try reflexivity;
         intros f0 E; injection E as <-; apply lookup_delete_eq).
    + eexists; split; [reflexivity |]; simpl; repeat split; try reflexivity.
      intros f0 E; injection E as <-; exact Hd.
  - eexists; split; [reflexivity |]; simpl; repeat split; try reflexivity.
    intros f0 E; discriminate E.
Qed.

(** X8.  [CloseLogger], by the state of the channel.  Nil channel (before
    boot): nothing happens.  Open channel: the channel is closed with its
    buffer as it is, [logger] becomes nil, the descriptor of [logFile] is
    no longer open, names and file contents are untouched; and a second
    call right after panics.  Closed channel: the call panics with
    "close of closed channel" and changes nothing. *)
Theorem CloseLogger_effect (s : State) :
  match logChan (pkg s) with
  | None => CloseLogger s = (Done tt, s)
  | Some ch =>
    if closed ch then CloseLogger s = (Panic "close of closed channel", s)
    else
      fst (CloseLogger s) = Done tt
      /\ pkg (snd (CloseLogger s))
         = set_logger None
             (set_logChan (Some (mkChan (buf ch) (cap ch) true)) (pkg s))
      /\ names (env (snd (CloseLogger s))) = names (env s)
      /\ inodes (env (snd (CloseLogger s))) = inodes (env s)
      /\ (forall f, logFile (pkg s) = Some f ->
                    fds (env (snd (CloseLogger s))) !! fd f = None)
      /\ fst ((CloseLogger ;;; CloseLogger) s) = Panic "close of closed channel"
  end.
Proof.
  destruct (logChan (pkg s)) as [ch|] eqn:Hc.
  - destruct (closed ch) eqn:Hcl.
    + unfold CloseLogger, chan_close, bind, getp, panic. rewrite Hc. simpl.
      rewrite Hc, Hcl. destruct s; reflexivity.
    + destruct (CloseLogger_run s ch Hc Hcl) as (s' & Hrun & Hp & Hn & Hi & _ & _ & Hfd).
      rewrite Hrun. simpl.
      repeat split; try assumption.
      unfold bind at 1. rewrite Hrun.
      unfold CloseLogger, chan_close, bind, getp, panic.
      rewrite Hp. simpl. rewrite Hp. reflexivity.
  - unfold CloseLogger, bind, getp, ret. rewrite Hc. destruct s; reflexivity.
Qed.

(** X9.  [CloseLogger] does not flush.  On a running logger the lines
    still in the channel stay there; the writer's next turn takes one,
    panics on the nil [logger] before writing, and the recovered
    goroutine ends: no file has changed, the other lines are never read.
    The panic skips [RUnlock], so the mutex keeps a reader and a later
    [split] parks on [Lock]. *)
Theorem close_does_not_flush (s : State) (ch : Chan) (n k : nat) :
  logChan (pkg s) = Some ch -> closed ch = false ->
  mutex (pkg s) = Some (mkMutex false n) ->
  let s1 := snd (CloseLogger s) in
  let s2 := snd (logWriter (S k) s1) in
  fst (CloseLogger s) = Done tt
  /\ queue s1 = buf ch
  /\ fst (logWriter (S k) s1) = Done false
  /\ inodes (env s2) = inodes (env s)
  /\ queue s2 = tl (buf ch)
  /\ mutex (pkg s2) = Some (mkMutex false (S n))
  /\ fst (split s2) = Block.
Proof.
  intros Hc Hcl Hm.
  destruct (CloseLogger_run s ch Hc Hcl) as (s1 & Hrun & Hp & _ & Hi & _ & _ & _).
  rewrite Hrun. simpl.
  split; [reflexivity |].
  split; [unfold queue; rewrite Hp; reflexivity |].
  unfold logWriter, recovering. cbn [logWriter_for].
  unfold logWriter_body, chan_recv, mutex_RLock, Logger_Output, time_Now.
  cbv beta iota delta [bind getp gete modp mode ret panic]. simpl.
  rewrite Hp. simpl.
  destruct (buf ch) as [|x r] eqn:Hb; simpl;
    repeat (rewrite Hp; simpl); rewrite Hm; simpl; repeat (rewrite Hp; simpl);
    (split; [reflexivity |]; split; [exact Hi |]; split; [reflexivity |];
     split; [reflexivity |]);
    unfold split, mutex_Lock; cbv beta iota delta [bind getp]; simpl; reflexivity.
Qed.

(** X13.  Whatever its result, [BootLogger] leaves the three configured
    strings in [fileDir], [fileName] and [prefix], a fresh empty channel
    of 8000 slots and an unlocked mutex: lines queued before the call are
    gone, and also after a boot that returned an error a send finds
    room. *)
Theorem boot_installs_configuration (s : State) :
  let s' := snd (BootLogger s) in
  fileDir (pkg s') = FileDir (toml (env s))
  /\ fileName (pkg s') = FileName (toml (env s))
  /\ prefix (pkg s') = Prefix (toml (env s))
  /\ logChan (pkg s') = Some (make_chan 8000)
  /\ mutex (pkg s') = Some (mkMutex false 0)
  /\ ready s'.
Proof.
  unfold BootLogger, GetLogsDir, GetLogsFilename, GetLogsPrefix, GetLogsLevel.
  repeat (rewrite bind_gete_run || rewrite bind_modp_run).
  match goal with
  | |- context [snd (?m ?st)] =>
    assert (Hk : keeps (fun s => (config s, logChan (pkg s))) m)
      by (unfold isMustSplit, split, isExistOrCreate; unfold_prims; frame);
    assert (Hm : keeps (fun s => mutex (pkg s)) m)
      by (unfold isMustSplit, isExistOrCreate; unfold_prims;
          repeat first [apply split_keeps_mutex | frame_step]);
    pose proof (Hk st) as E1; pose proof (Hm st) as E2;
    destruct (m st) as [o s1]
  end.
  simpl in E1, E2. unfold config in E1. simpl in E1.
  injection E1 as E1 E3 E4 _ E5. simpl.
  repeat split; try assumption.
  exists (make_chan 8000). split; [exact E5 |]. split; [reflexivity |].
  simpl. lia.
Qed.

(** A write that fails is dropped, and the loop goes on. *)
(** X7.  A failed write is not reported: when the operating system
    refuses the write, the turn of [logWriter] still takes the line off
    the queue, leaves every file as it was, prints nothing, gives the
    mutex back and goes on with the loop. *)
Theorem write_failure_drops_line (s : State) (ch : Chan) (x : string)
        (r : list string) (n : nat) (lg : Logger) (f : File) (d : Descr)
        (e : Errno) (rest : list (option Errno)) :
  logChan (pkg s) = Some ch -> buf ch = x :: r ->
  mutex (pkg s) = Some (mkMutex false n) ->
  logger (pkg s) = Some lg -> out lg = Some f ->
  fds (env s) !! fd f = Some d ->
  faults (env s) = Some e :: rest ->
  exists s',
    logWriter 1 s = (Done true, s')
    /\ queue s' = r
    /\ inodes (env s') = inodes (env s)
    /\ trace (env s') = trace (env s)
    /\ mutex (pkg s') = mutex (pkg s)
    /\ core s' = core s.
Proof.
  intros Hc Hb Hm Hl Ho Hfd Hfa.
  unfold logWriter, recovering. cbn [logWriter_for].
  unfold logWriter_body, chan_recv, mutex_RLock, mutex_RUnlock, Logger_Output,
    File_Write, fault, time_Now.
  cbv beta iota delta [bind getp gete modp mode ret]. simpl.
  rewrite Hc, Hb. simpl. rewrite Hm. simpl. rewrite Hl. simpl. rewrite Ho. simpl.
  rewrite Hfd. simpl. rewrite Hfa. simpl.
  eexists. split; [reflexivity |]. simpl.
  repeat split; reflexivity.
Qed.

(** X10.  [isExistOrCreate] when the operating system does what the file
    system says.  An existing directory: nothing changes.  A missing
    directory whose parent is there: it is created, nothing is printed.
    Otherwise (empty name, or the parent missing too: it is [Mkdir], not
    [MkdirAll]): no name changes and one line goes to standard error.
    The call returns in all three cases and never touches the package
    variables, the file contents or the descriptors. *)
Theorem isExistOrCreate_effect (s : State) :
  faults (env s) = [] ->
  let dir := fileDir (pkg s) in
  let ns := names (env s) in
  let now := clock (env s) (reads (env s)) in
  exists s',
    isExistOrCreate s = (Done tt, s')
    /\ pkg s' = pkg s /\ inodes (env s') = inodes (env s)
    /\ fds (env s') = fds (env s)
    /\ if exists_ ns dir then s' = s
       else if negb (bool_decide (dir = "")) && isDir ns (parentOf dir)
       then names (env s') = <[dir := NDir]> ns
            /\ trace (env s') = trace (env s)
       else names (env s') = ns
            /\ trace (env s') =
               trace (env s) ++
               [EvStderr (formatHeader "" LstdFlags now
                          +:+ withNewline
                                (fmt_Sprintln [strV "Create dir failed, error: ";
                                               errV (PathError "mkdir" dir ENOENT)]))].
Proof.
  intros Hfa dir ns now. subst dir ns now.
  unfold isExistOrCreate, os_Stat, os_Mkdir, fault, log_Println, log_Output,
    time_Now, emit.
  cbv beta iota delta [bind getp gete modp mode ret]. simpl.
  rewrite Hfa. simpl.
  destruct (exists_ (names (env s)) (fileDir (pkg s))) eqn:Hex; simpl.
  - exists s. repeat split; reflexivity.
  - rewrite Hfa. simpl. rewrite Hex. simpl.
    destruct (bool_decide (fileDir (pkg s) = "")) eqn:Hd; simpl.
    + eexists. split; [reflexivity |]. simpl. repeat split; reflexivity.
    + destruct (isDir (names (env s)) (parentOf (fileDir (pkg s)))) eqn:Hp; simpl;
        (eexists; split; [reflexivity |]; simpl; repeat split; reflexivity).
Qed.

Lemma Parse_Format_valid (t : Time) :
  validDate t ->
  Parse_Date (Format_Date t) = (midnight (year t) (month t) (day t), false).
Proof.
  intros (Hy & Hm & Hd).
  pose proof (daysIn_le_31 (month t) (year t)).
  assert (Hdash : forall r, skipDash ("-" +:+ r) = Some r) by reflexivity.
  unfold Parse_Date, Format_Date.
  rewrite getyear_appendInt, Hdash by lia.
  rewrite getnum2_appendInt, Hdash by lia.
  rewrite <- (append_nil_r (appendInt (day t) 2)).
  rewrite getnum2_appendInt by lia. simpl.
  destruct (Z.leb_spec (month t) 0); [lia |].
  destruct (Z.ltb_spec 12 (month t)); [lia |].
  destruct (Z.ltb_spec (day t) 1); [lia |].
  destruct (Z.ltb_spec (daysIn (month t) (year t)) (day t)); [lia |].
  reflexivity.
Qed.

(** X11.  [time.Parse(DateFormat, t.Format(DateFormat))] for a date with
    a four-digit year: no error, and the result is midnight of the day of
    [t].  Formatting that result gives the same text again, and cutting
    it down again changes nothing. *)
Theorem date_round_trip (t : Time) :
  validDate t ->
  Parse_Date (Format_Date t) = (midnight (year t) (month t) (day t), false)
  /\ Format_Date (dayOf t) = Format_Date t
  /\ dayOf (dayOf t) = dayOf t.
Proof.
  intros Hv. pose proof (Parse_Format_valid t Hv) as E.
  assert (Ed : dayOf t = midnight (year t) (month t) (day t))
    by (unfold dayOf; rewrite E; reflexivity).
  split; [exact E |].
  split; [rewrite Ed; reflexivity |].
  rewrite Ed. unfold dayOf.
  change (Format_Date (midnight (year t) (month t) (day t))) with (Format_Date t).
  rewrite E. reflexivity.
Qed.

(** X12.  With an anchor set by [BootLogger] or [split] (the day of some
    reading [t0]), [isMustSplit] answers whether the calendar day of the
    clock is later than that of [t0]: the time of day of neither matters.
    It reads the clock once and changes nothing else. *)
Theorem due_by_calendar_day (s : State) (t0 : Time) :
  let now := clock (env s) (reads (env s)) in
  validDate t0 -> validDate now ->
  date (pkg s) = Some (dayOf t0) ->
  isMustSplit s =
  (Done ((year t0 <? year now)
         || ((year t0 =? year now)
             && ((month t0 <? month now)
                 || ((month t0 =? month now) && (day t0 <? day now))))),
   mkState (pkg s) (set_reads (S (reads (env s))) (env s))).
Proof.
  intros now H0 H1 Hd. subst now.
  rewrite (isMustSplit_run s _ Hd).
  rewrite (dayOf_valid _ H0), (dayOf_valid _ H1).
  unfold After, fields, lexLt. simpl.
  rewrite andb_false_r, orb_false_r. reflexivity.
Qed.

Lemma exists_false_lookup (ns : gmap string Node) (p : string) :
  exists_ ns p = false -> ns !! p = None.
Proof.
  unfold exists_. intros E.
  apply orb_false_elim in E as [_ E].
  apply bool_decide_eq_false in E.
  destruct (ns !! p); [exfalso; apply E; eauto | reflexivity].
Qed.

Lemma isExistOrCreate_grows (s : State) :
  names (env s) ⊆ names (env (snd (isExistOrCreate s)))
  /\ inodes (env (snd (isExistOrCreate s))) = inodes (env s).
Proof.
  unfold isExistOrCreate, os_Stat, os_Mkdir, fault, log_Println, log_Output,
    time_Now, emit.
  cbv beta iota delta [bind getp gete modp mode ret]. simpl.
  destruct (faults (env s)) as [|[e|] rest]; simpl;
    repeat match goal with
           | |- context [if ?b then _ else _] => destruct b eqn:?; simpl
           | |- context [match ?l with [] => _ | _ :: _ => _ end] =>
             destruct l as [|[?|] ?]; simpl
           end;
    try (split; [reflexivity | reflexivity]);
    (split; [| reflexivity]);
    apply insert_subseteq, exists_false_lookup; assumption.
Qed.

Lemma os_OpenFile_grows (p : string) (flag perm : Z) (s : State) :
  names (env s) ⊆ names (env (snd (os_OpenFile p flag perm s)))
  /\ inodes (env s) ⊆ inodes (env (snd (os_OpenFile p flag perm s))).
Proof.
  destruct (os_OpenFile_returns p flag perm s) as ([f e] & s' & E).
  rewrite E. simpl.
  destruct (os_OpenFile_spec _ _ _ _ _ _ _ E) as (_ & _ & _ & Hcase).
  destruct e as [err|].
  - destruct Hcase as (_ & -> & -> & _). split; reflexivity.
  - destruct Hcase as (i & _ & _ & [(_ & -> & ->) | (Hn & -> & -> & ->)]).
    + split; reflexivity.
    + split; apply insert_subseteq; [exact Hn |].
      apply not_elem_of_dom, is_fresh.
Qed.

(** X14.  When the clock does not pass midnight between the two readings
    [BootLogger] takes, boot does not rotate: every name on disk before
    the call is there after it with the same node, every file has the
    content it had, and the anchor is the day of the first reading.  When
    boot returns nil, [logFile] is open on the node that the joined path
    names, with the flags of line 94. *)
Theorem boot_keeps_existing_files (s : State) :
  let r := reads (env s) in
  dayOf (clock (env s) (S r)) = dayOf (clock (env s) r) ->
  let s' := snd (BootLogger s) in
  names (env s) ⊆ names (env s')
  /\ inodes (env s) ⊆ inodes (env s')
  /\ date (pkg s') = Some (dayOf (clock (env s) r))
  /\ (fst (BootLogger s) = Done None ->
      exists f i,
        logFile (pkg s') = Some f
        /\ name f = filepath_Join (FileDir (toml (env s))) (FileName (toml (env s)))
        /\ names (env s') !! name f = Some (NFile i)
        /\ fds (env s') !! fd f = Some (mkDescr i openFlags)).
Proof.
  intros r Hday. subst r.
  unfold BootLogger, GetLogsDir, GetLogsFilename, GetLogsPrefix, GetLogsLevel.
  repeat (rewrite bind_gete_run || rewrite bind_modp_run).
  rewrite bind_time_Now_run, bind_modp_run.
  erewrite (bind_run isMustSplit) by (apply isMustSplit_run; reflexivity).
  simpl reads. simpl clock. rewrite Hday, After_irrefl.
  match goal with
  | |- context [bind (bind isExistOrCreate _) _ ?st] => set (st0 := st)
  end.
  destruct (isExistOrCreate_returns st0) as ([] & s1 & E1).
  pose proof (isExistOrCreate_grows st0) as (Hn1 & Hi1).
  pose proof (isExistOrCreate_keeps_pkg st0) as Hp1.
  rewrite E1 in Hn1, Hi1, Hp1. simpl in Hn1, Hi1, Hp1.
  rewrite bind_assoc, (bind_run _ _ _ _ _ E1).
  repeat (rewrite bind_assoc || rewrite bind_getp_run).
  match goal with
  | |- context [bind (os_OpenFile ?p ?fl ?pm) _ _] =>
    destruct (os_OpenFile_returns p fl pm s1) as ([f e] & s2 & E2);
    pose proof (os_OpenFile_grows p fl pm s1) as (Hn2 & Hi2);
    destruct (os_OpenFile_spec _ _ _ _ _ _ _ E2) as (Hp2 & _ & _ & Hcase)
  end.
  rewrite E2 in Hn2, Hi2. simpl in Hn2, Hi2.
  rewrite (bind_run _ _ _ _ _ E2). cbv beta iota.
  rewrite bind_assoc, bind_modp_run.
  assert (Hn : names (env s) ⊆ names (env s2)) by (etransitivity; eassumption).
  assert (Hi : inodes (env s) ⊆ inodes (env s2)) by (rewrite Hi1 in Hi2; exact Hi2).
  destruct e as [e|]; simpl.
  - rewrite Hp2, Hp1. simpl. repeat split; try assumption. discriminate.
  - rewrite Hp2, Hp1. simpl. repeat split; try assumption.
    intros _.
    destruct Hcase as (i & -> & Hfd & Hnames).
    eexists _, i. split; [reflexivity |]. simpl.
    split; [rewrite Hp1; reflexivity |].
    split.
    + destruct Hnames as [(Hl & -> & _) | (_ & _ & -> & _)];
        [exact Hl | apply lookup_insert_eq].
    + rewrite Hfd. apply lookup_insert_eq.
Qed.

Lemma split_Done_mutex (s s' : State) (r : option error) :
  split s = (Done r, s') -> mutex (pkg s) = Some (mkMutex false 0).
Proof.
  unfold split. intros E. apply bind_Done in E as (u & s0 & E & _).
  unfold mutex_Lock, bind, getp in E.
  destruct (mutex (pkg s)) as [[w n]|]; simpl in E; try discriminate.
  destruct w, n; simpl in E; try discriminate. reflexivity.
Qed.

(** X15.  The first line written after a rotation.  After a [split] that
    returned nil, a turn of [logWriter] puts the line at the head of the
    queue into the file created by the rotation, as its only content,
    behind the configured prefix; the backup still names the node the
    active path had, and no other file has changed. *)
Theorem rotation_then_write (s s1 : State) (ch : Chan) (x : string) (r : list string) :
  split s = (Done None, s1) ->
  logChan (pkg s1) = Some ch -> buf ch = x :: r ->
  faults (env s1) = [] ->
  exists (A : Time) (node : Node) (s2 : State),
    let src := filepath_Join (fileDir (pkg s)) (fileName (pkg s)) in
    let tgt := src +:+ "." +:+ Format_Date A in
    let i := fresh (dom (inodes (env s))) in
    date (pkg s) = Some A
    /\ names (env s) !! src = Some node
    /\ logWriter 1 s1 = (Done true, s2)
    /\ queue s2 = r
    /\ names (env s2) !! tgt = Some node
    /\ names (env s2) !! src = Some (NFile i)
    /\ inodes (env s2) !! i
       = Some [formatHeader (prefix (pkg s)) loggerFlags
                 (clock (env s) (S (reads (env s))))
               +:+ withNewline x]
    /\ (forall j, j <> i -> inodes (env s2) !! j = inodes (env s) !! j).
Proof.
  intros Hrun Hc Hb Hfa.
  pose proof (split_Done_mutex _ _ _ Hrun) as Hm.
  pose proof (split_keeps_mutex s) as Hm1. rewrite Hrun in Hm1. simpl in Hm1.
  rewrite Hm in Hm1.
  destruct (split_inv s s1 None Hrun)
    as (A & HA & node & n & Hsrc & Hn & Hi & Hfd & Hd & Hf & Hl & Hck & Hrd).
  destruct (logWriter_for_run [x] s1 ch r 0 _ (mkFile n _) _ Hc Hb Hm1 Hl eq_refl Hfd Hfa)
    as (s2 & Hw & Hc2 & _ & _ & Hn2 & _ & _ & _ & _ & _ & Hi2 & Hj2).
  exists A, node, s2. simpl in *.
  split; [exact HA |]. split; [exact Hsrc |].
  split; [unfold logWriter, recovering; simpl; rewrite Hw; reflexivity |].
  split; [unfold queue; rewrite Hc2; reflexivity |].
  split.
  { rewrite Hn2, Hn. rewrite lookup_insert_ne by apply backup_name_differs.
    apply lookup_insert_eq. }
  split; [rewrite Hn2, Hn; apply lookup_insert_eq |].
  split.
  { rewrite Hi2, Hi, lookup_insert_eq. simpl. rewrite Hck, Hrd. reflexivity. }
  intros j Hne. rewrite (Hj2 j Hne), Hi. apply lookup_insert_ne. congruence.
Qed.

Lemma File_Close_fds (f : File) (s s' : State) (r : option error) :
  File_Close (Some f) s = (Done r, s') -> fds (env s') !! fd f = None.
Proof.
  unfold File_Close, fault.
  cbv beta iota delta [bind gete mode ret]. simpl.
  destruct (fds (env s) !! fd f) eqn:Hd; simpl.
  - destruct (faults (env s)) as [|[e|] rest]; simpl;
      intros E; injection E as _ <-; simpl; apply lookup_delete_eq.
  - intros E; injection E as _ <-. exact Hd.
Qed.

(** After a [split] that failed in [os.OpenFile], the descriptor the
    logger writes to is closed. *)
Lemma split_open_failure_fds (s s' : State) (p : string) (en : Errno) (f : File) :
  split s = (Done (Some (PathError "open" p en)), s') ->
  logFile (pkg s) = Some f ->
  fds (env s') !! fd f = None.
Proof.
  unfold split. intros Hrun Hf. inv_run;
    repeat match goal with
           | H : File_Close (Some ?g) _ = _ |- _ =>
             pose proof (File_Close_fds _ _ _ _ H); apply File_Close_spec in H;
             destruct H as (? & ? & ? & ? & ?)
           end;
    use_specs; simpl in *;
    repeat match goal with
           | H : _ /\ _ |- _ => destruct H
           | H : exists _, _ |- _ => destruct H
           end; simpl in *; try discriminate; try congruence.
  all: repeat match goal with
           | H : pkg ?x = _ |- _ => is_var x; rewrite H in *; clear H
           | H : env ?x = _ |- _ => is_var x; rewrite H in *; clear H
           end; simpl in *; try congruence.
Qed.

(** X16.  After a [split] that failed in [os.OpenFile], the logger stays
    broken.  The next [split] fails in [os.Rename], whatever the
    operating system does, because the active path names nothing; it
    leaves the names and [logger] as they are and [logFile] nil.  And
    the writer, still holding the logger of the closed descriptor, takes
    each line off the queue and writes it nowhere. *)
Theorem failed_open_is_not_retried (s s1 : State) (p : string) (en : Errno) :
  split s = (Done (Some (PathError "open" p en)), s1) ->
  (exists e' s2,
      split s1 = (Done (Some e'), s2)
      /\ (exists a b c, e' = LinkError "rename" a b c)
      /\ names (env s2) = names (env s1)
      /\ logFile (pkg s2) = None
      /\ logger (pkg s2) = logger (pkg s))
  /\ (forall (lg : Logger) (f : File) (ch : Chan) (x : string) (r : list string),
        logger (pkg s) = Some lg -> out lg = Some f -> logFile (pkg s) = Some f ->
        logChan (pkg s1) = Some ch -> buf ch = x :: r ->
        exists s2,
          logWriter 1 s1 = (Done true, s2)
          /\ queue s2 = r
          /\ inodes (env s2) = inodes (env s)
          /\ names (env s2) = names (env s1)).
Proof.
  intros Hrun.
  pose proof (split_Done_mutex _ _ _ Hrun) as Hm.
  pose proof (split_keeps_mutex s) as Hm1. rewrite Hrun in Hm1. simpl in Hm1.
  rewrite Hm in Hm1.
  pose proof (split_keeps_config s) as Hcfg. rewrite Hrun in Hcfg. simpl in Hcfg.
  unfold config in Hcfg. injection Hcfg as Hdir Hname _ _ _.
  destruct (split_inv s s1 _ Hrun) as (A & HA & Hcase).
  destruct Hcase as [((en' & He) & _) | (_ & Hd & Hf & Hl & Hi & node & Hsrc & Hn)];
    [discriminate He |].
  split.
  - destruct (split_total s1 _ Hm1 Hd) as (r2 & s2 & Hrun2).
    destruct (split_inv s1 s2 _ Hrun2) as (A2 & HA2 & Hcase2).
    rewrite Hdir, Hname in Hcase2.
    assert (Hgone : names (env s1)
                      !! filepath_Join (fileDir (pkg s)) (fileName (pkg s)) = None).
    { rewrite Hn. rewrite lookup_insert_ne
        by (apply not_eq_sym, backup_name_differs).
      apply lookup_delete_eq. }
    destruct r2 as [e2|].
    + destruct Hcase2 as [(He2 & _ & Hf2 & Hl2 & Hn2 & _) | (_ & _ & _ & _ & _ & nd & Hs2 & _)].
      * exists e2, s2. split; [exact Hrun2 |].
        destruct He2 as [c He2]. split; [eauto |].
        split; [exact Hn2 |]. split; congruence.
      * simpl in Hs2. congruence.
    + destruct Hcase2 as (nd & n & Hs2 & _). simpl in Hs2. congruence.
  - intros lg f ch x r Hlg Ho Hlf Hc Hb.
    pose proof (split_open_failure_fds _ _ _ _ _ Hrun Hlf) as Hfd.
    unfold logWriter, recovering. cbn [logWriter_for].
    unfold logWriter_body, chan_recv, mutex_RLock, mutex_RUnlock, Logger_Output,
      File_Write, time_Now.
    cbv beta iota delta [bind getp gete modp mode ret]. simpl.
    rewrite Hc, Hb. simpl. rewrite Hm1. simpl. rewrite Hl, Hlg. simpl.
    rewrite Ho. simpl. rewrite Hfd. simpl.
    eexists. split; [reflexivity |]. simpl.
    repeat split; try reflexivity. exact Hi.
Qed.

Lemma split_keeps_trace :
  keeps (fun s => (trace (env s), stack (env s))) split.
Proof. unfold split; unfold_prims; frame. Qed.

(** X17.  A turn of [fileMonitor] whose rotation is due and fails reports
    through [Error], called at line 176: one red line on standard output
    whatever the threshold, naming the monitor's own file and that line,
    and the stack is as before.  Under OFF nothing is queued and the loop
    goes on; under any other threshold, with room in the channel, the
    [ERROR] record is queued and the loop goes on. *)
Theorem monitor_reports_failure (s s1 : State) (D : Time) (e : error)
        (f : Frame) (rest : list Frame) :
  date (pkg s) = Some D ->
  After (dayOf (clock (env s) (reads (env s)))) D = true ->
  split (mkState (pkg s) (set_reads (S (reads (env s))) (env s)))
  = (Done (Some e), s1) ->
  stack (env s) = f :: rest ->
  let r := fileMonitor_turn s in
  let msg := "Log split error: %v" +:+ nl in
  stdoutLines (trace (env (snd r))) =
  stdoutLines (trace (env s)) ++
    [consoleLine "31" ERROR (fr_file f, 176) (clock (env s1) (reads (env s1)))
       msg [errV e]]
  /\ stack (env (snd r)) = stack (env s)
  /\ (logLevel (pkg s) = OFF -> fst r = Done true /\ queue (snd r) = queue s)
  /\ (logLevel (pkg s) <> OFF -> ready s ->
      fst r = Done true
      /\ queue (snd r) =
         queue s ++ [taggedLine "ERROR" (fr_file f, 176)
                       (fmt_Sprintf (" " +:+ msg) [errV e])]).
Proof.
  intros HD Hdue Hrun Hst r msg. subst r msg.
  pose proof (split_keeps_trace (mkState (pkg s) (set_reads (S (reads (env s))) (env s))))
    as Ht.
  pose proof (split_keeps_config (mkState (pkg s) (set_reads (S (reads (env s))) (env s))))
    as Hc.
  rewrite Hrun in Ht, Hc. simpl in Ht, Hc. unfold config in Hc. simpl in Hc.
  injection Ht as Htr Hstk. injection Hc as _ _ _ Hlvl Hch.
  rewrite Hst in Hstk.
  unfold fileMonitor_turn, fileMonitor_body, recovering.
  rewrite (bind_run _ _ _ _ _ (isMustSplit_run s D HD)). rewrite Hdue.
  rewrite (bind_run _ _ _ _ _ Hrun). cbv beta iota.
  unfold callAt. rewrite Hstk.
  unfold stdoutLines, consoleLine, taggedLine, queue, ready.
  run_emit. rewrite Hlvl, ?Htr.
  destruct (logLevel (pkg s)) eqn:HL; simpl; rewrite ?Hch, ?Htr;
    (destruct (logChan (pkg s)) as [ch|] eqn:Hc; simpl;
     [destruct (closed ch) eqn:Hcl; simpl;
      [| destruct (Z.of_nat (List.length (buf ch)) <? cap ch) eqn:Hroom; simpl] |]);
    rewrite ?Htr, ?omap_app; simpl; rewrite ?app_nil_r;
    (split; [reflexivity |]); (split; [symmetry; exact Hst |]);
    (split; [intros E; try discriminate E; auto |]);
    intros Hne (ch' & E1 & E2 & E3); try (exfalso; apply Hne; reflexivity);
    try discriminate E1;
    injection E1 as <-; try congruence;
    try (apply Z.ltb_lt in E3; congruence); auto.
Qed.

(** ** The struct-based twin *)

Lemma State_eta (s : State) : mkState (pkg s) (env s) = s.
Proof. destruct s; reflexivity. Qed.

Lemma pair_eta {A B} (x : A * B) : (fst x, snd x) = x.
Proof. destruct x; reflexivity. Qed.

Lemma sim_onInstance {A} (a : nat) (p0 : Process) (m : M A) :
  simulates a p0 (onInstance a m) m.
Proof.
  intros s. unfold onInstance, put. cbn [heap world fileLog].
  rewrite lookup_insert_eq, State_eta.
  destruct (m s) as [o s']. cbn [fst snd]. rewrite insert_insert_eq. reflexivity.
Qed.

Lemma sim_outside {A} (a : nat) (p0 : Process) (m : M A) :
  envOnly m -> simulates a p0 (outside m) m.
Proof.
  intros He s. unfold outside, put. cbn [heap world fileLog].
  rewrite (He s zeroServices). 
  pose proof (He s (pkg s)) as E. rewrite State_eta in E.
  destruct (m s) as [o s']. cbn [fst snd] in *.
  injection E as E. rewrite E at 2. reflexivity.
Qed.

Lemma sim_throughFileLog {A} (a : nat) (p0 : Process) (m : M A) :
  fileLog p0 = Some a -> simulates a p0 (throughFileLog m) m.
Proof.
  intros Hf s. unfold throughFileLog, bindS, getS. cbn [fileLog put].
  rewrite Hf. apply (sim_onInstance a p0 m s).
Qed.

Lemma sim_ret {A} (a : nat) (p0 : Process) (x : A) :
  simulates a p0 (retS x) (ret x).
Proof. intros s. reflexivity. Qed.

Lemma sim_bind {A B} (a : nat) (p0 : Process) (tm : St Process A) (m : M A)
      (tk : A -> St Process B) (k : A -> M B) :
  simulates a p0 tm m -> (forall x, simulates a p0 (tk x) (k x)) ->
  simulates a p0 (bindS tm tk) (bind m k).
Proof.
  intros Hm Hk s. unfold bindS, bind. rewrite (Hm s).
  destruct (m s) as [[x| | |] s']; cbn [fst snd]; try reflexivity.
  apply Hk.
Qed.

Lemma envOnly_ret {A} (x : A) : envOnly (ret x).
Proof. intros s pk. reflexivity. Qed.

Lemma envOnly_gete {A} (g : World -> A) : envOnly (gete g).
Proof. intros s pk. reflexivity. Qed.

Lemma envOnly_mode (g : World -> World) : envOnly (mode g).
Proof. intros s pk. reflexivity. Qed.

Lemma envOnly_exit {A} (c : Z) : envOnly (@exit A c).
Proof. intros s pk. reflexivity. Qed.

Lemma envOnly_panic {A} (msg : string) : envOnly (@panic A msg).
Proof. intros s pk. reflexivity. Qed.

Lemma envOnly_bind {A B} (m : M A) (k : A -> M B) :
  envOnly m -> (forall x, envOnly (k x)) -> envOnly (bind m k).
Proof.
  intros Hm Hk s pk. unfold bind. rewrite (Hm s pk).
  destruct (m s) as [[x| | |] s1]; cbn [fst snd]; try reflexivity.
  apply Hk.
Qed.

Ltac env_step :=
  match goal with
  | |- envOnly (ret _) => apply envOnly_ret
  | |- envOnly (gete _) => apply envOnly_gete
  | |- envOnly (mode _) => apply envOnly_mode
  | |- envOnly (emit _) => apply envOnly_mode
  | |- envOnly (exit _) => apply envOnly_exit
  | |- envOnly (panic _) => apply envOnly_panic
  | |- envOnly (bind _ _) => apply envOnly_bind; [| intros ?]
  | |- envOnly (match ?x with _ => _ end) => destruct x
  | |- envOnly (if ?x then _ else _) => destruct x
  end.

Ltac env_only := unfold_prims; repeat env_step.

Ltac sim_step :=
  match goal with
  | |- simulates _ _ (bindS _ _) (bind _ _) => apply sim_bind; [| intros ?]
  | |- simulates _ _ (outside _) _ => apply sim_outside; env_only
  | |- simulates _ _ (throughFileLog _) _ => apply sim_throughFileLog; assumption
  | |- simulates _ _ (onInstance _ _) _ => apply sim_onInstance
  | |- simulates _ _ (retS _) (ret _) => apply sim_ret
  | |- simulates _ _ (match ?x with _ => _ end) _ => destruct x
  | |- simulates _ _ (if ?b then _ else _) _ => destruct b
  end.

Lemma sim_emit (a : nat) (p0 : Process) (f : option nat) (op : EmitOp)
      (format : string) (v : list Value) :
  fileLog p0 = Some a ->
  simulates a p0 (Services_emit f op format v) (emitOp op format v).
Proof.
  intros Hf.
  destruct op;
    unfold Services_emit, Services_Printf, Services_Print, Services_Println,
      Services_Fatal, Services_Fatally, Services_Trace, Services_Debug,
      Services_Info, Services_Warning, Services_Error, Services_leveled;
    unfold_emit; repeat sim_step.
Qed.

Lemma sim_callAt {A} (a : nat) (p0 : Process) (site inner : Z)
      (tm : St Process A) (m : M A) :
  simulates a p0 tm m -> simulates a p0 (callAtP site inner tm) (callAt site inner m).
Proof.
  intros Hm s. unfold callAtP, callAt. cbn [world put fileLog heap].
  match goal with
  | |- context [tm ?q] =>
    change q with (put a p0 (mkState (pkg s)
                               (set_stack
                                  match stack (env s) with
                                  | [] => [mkFrame "" inner]
                                  | f :: r =>
                                    mkFrame (fr_file f) inner
                                      :: mkFrame (fr_file f) site :: r
                                  end (env s))))
  end.
  rewrite Hm.
  destruct (m _) as [o s']. cbn [fst snd put fileLog heap world pkg env].
  reflexivity.
Qed.

Lemma sim_CloseLogger_body (a : nat) (p0 : Process) :
  fileLog p0 = Some a ->
  simulates a p0
    (throughFileLog chan_close ;;~
     throughFileLog (modp (set_logger None)) ;;~
     lf <~ throughFileLog (getp logFile) ;;
     _ <~ outside (File_Close lf) ;;
     retS tt)
    (chan_close ;;;
     modp (set_logger None) ;;;
     lf <- getp logFile ;;
     _ <- File_Close lf ;;
     ret tt).
Proof. intros Hf. repeat sim_step. Qed.

Lemma put_same (a : nat) (p : Process) (inst : Services) :
  heap p !! a = Some inst -> put a p (mkState inst (world p)) = p.
Proof.
  intros Hh. unfold put. cbn [pkg env]. rewrite insert_id by exact Hh.
  destruct p; reflexivity.
Qed.

(** X24.  Once a boot has gone through, the struct-based twin does on the
    struct behind [fileLog] what log.go does on its package variables:
    each of the ten emit methods, whatever its receiver, has the outcome
    and the effects of its namesake, and so have the writer's turn and
    [split] on that struct; [CloseLogger] has them too, the channel of a
    booted struct not being nil. *)
Theorem twin_agrees_when_booted (p : Process) (a : nat) (inst : Services) :
  fileLog p = Some a -> heap p !! a = Some inst ->
  let s := mkState inst (world p) in
  (forall f op format v,
      Services_emit f op format v p
      = (fst (emitOp op format v s), put a p (snd (emitOp op format v s))))
  /\ Services_logWriter_body a p
     = (fst (logWriter_body s), put a p (snd (logWriter_body s)))
  /\ Services_split a p = (fst (split s), put a p (snd (split s)))
  /\ (logChan inst <> None ->
      Services_CloseLogger p = (fst (CloseLogger s), put a p (snd (CloseLogger s)))).
Proof.
  intros Hf Hh s. pose proof (put_same a p inst Hh) as Hp. fold s in Hp.
  split; [| split; [| split]].
  - intros f op format v. rewrite <- Hp at 1. apply sim_emit. exact Hf.
  - rewrite <- Hp at 1. apply sim_onInstance.
  - rewrite <- Hp at 1. apply sim_onInstance.
  - intros Hc.
    destruct (logChan inst) as [ch|] eqn:Hch; [| contradiction].
    assert (E : CloseLogger s
                = (chan_close ;;;
                   modp (set_logger None) ;;;
                   lf <- getp logFile ;;
                   _ <- File_Close lf ;;
                   ret tt) s).
    { unfold CloseLogger. rewrite bind_getp_run. cbn [pkg s]. rewrite Hch.
      reflexivity. }
    rewrite E.
    unfold Services_CloseLogger. unfold bindS at 1. unfold getS at 1. rewrite Hf.
    rewrite <- Hp at 1. apply sim_CloseLogger_body. exact Hf.
Qed.

(** X25.  Before any boot has gone through, [fileLog] is nil and every emit
    method of the twin panics on it, where log.go parks: the caller has
    been asked, the four console lines have been printed, nothing is
    on standard error, no struct has changed, and for [Fatal] the process
    has not been exited.  [CloseLogger] does nothing. *)
Theorem twin_before_boot (p : Process) (f : option nat) (op : EmitOp)
        (format : string) (v : list Value) :
  fileLog p = None ->
  let r := Services_emit f op format v p in
  fst r = Panic "nil pointer dereference"
  /\ fileLog (snd r) = None /\ heap (snd r) = heap p
  /\ stderrLines (trace (world (snd r))) = stderrLines (trace (world p))
  /\ stdoutLines (trace (world (snd r))) =
     stdoutLines (trace (world p)) ++
       match echoColor op, severity op with
       | Some c, Some L =>
         [consoleLine c L
            (match stack (world p) !! 1%nat with
             | Some fr => (fr_file fr, fr_line fr)
             | None => ("", 0)
             end)
            (clock (world p) (reads (world p))) format v]
       | _, _ => []
       end
  /\ Services_CloseLogger p = (Done tt, p).
Proof.
  intros Hf.
  assert (Hclose : Services_CloseLogger p = (Done tt, p)).
  { unfold Services_CloseLogger, bindS, getS, retS. rewrite Hf. reflexivity. }
  unfold stderrLines, stdoutLines, consoleLine.
  destruct op;
    unfold Services_emit, Services_Printf, Services_Print, Services_Println,
      Services_Fatal, Services_Fatally, Services_Trace, Services_Debug,
      Services_Info, Services_Warning, Services_Error, Services_leveled,
      throughFileLog, outside, runtime_Caller, setNowTime, fmt_Printf, time_Now,
      emit;
    cbv beta iota delta [bindS getS retS liftO bind gete mode ret];
    cbn [fileLog heap world fst snd pkg env trace set_trace stack set_reads reads clock];
    (destruct (stack (world p) !! _); cbn;
     rewrite ?Hf; cbn; rewrite ?omap_app; cbn; rewrite ?app_nil_r;
     repeat split; assumption || reflexivity).
Qed.

Lemma boots_bind {A} (a : nat) (p0 : Process) (tm : St Process A) (m : M A)
      (tk : A -> St Process (option error)) (k : A -> M (option error)) :
  simulates a p0 tm m -> (forall x, boots a p0 (tk x) (k x)) ->
  boots a p0 (bindS tm tk) (bind m k).
Proof.
  intros Hm Hk s. unfold bindS, bind. rewrite (Hm s).
  destruct (m s) as [[x| | |] s']; cbn [fst snd]; try reflexivity.
  apply Hk.
Qed.

Lemma boots_ret_error (a : nat) (p0 : Process) (e : error) :
  boots a p0 (retS (Some e)) (ret (Some e)).
Proof. intros s. reflexivity. Qed.

Lemma boots_go (a : nat) (p0 : Process) :
  boots a p0
    (outside (go G_logWriter) ;;~
     outside (go G_fileMonitor) ;;~
     modS (fun p => mkProcess (Some a) (heap p) (world p)) ;;~
     retS None)
    (go G_logWriter ;;; go G_fileMonitor ;;; ret None).
Proof. intros s. reflexivity. Qed.

(** X26.  A boot of the twin is a boot of log.go from the zero values
    carried out on a new struct: same result, same effects on the world,
    and the struct ends with the values log.go's variables end with.
    [fileLog] is set to the new struct only when the boot returns nil, and
    the structs of earlier boots are left as they are, their channels and
    files open. *)
Theorem twin_boot (p : Process) :
  let a := fresh (dom (heap p)) in
  let r := BootLogger (mkState zeroServices (world p)) in
  Services_BootLogger p =
  (fst r,
   mkProcess (match fst r with Done None => Some a | _ => fileLog p end)
             (<[a := pkg (snd r)]> (heap p)) (env (snd r)))
  /\ heap p !! a = None
  /\ (forall b inst, heap p !! b = Some inst ->
                     heap (snd (Services_BootLogger p)) !! b = Some inst).
Proof.
  intros a r.
  assert (Hfresh : heap p !! a = None) by (apply not_elem_of_dom, is_fresh).
  assert (Hrun : Services_BootLogger p =
                 (fst r, booted a p (fst r) (snd r))).
  { subst r. destruct p as [fl hp w].
    unfold Services_BootLogger, BootLogger, GetLogsDir, GetLogsFilename,
      GetLogsPrefix, GetLogsLevel.
    do 4 rewrite bind_gete_run. do 5 rewrite bind_modp_run.
    unfold bindS at 1 2 3 4 5. unfold outside at 1 2 3 4. unfold gete at 1 2 3 4.
    cbn [world env pkg fileLog heap]. unfold new_Services at 1.
    cbn [world env pkg fileLog heap FileDir FileName Prefix Level].
    fold a.
    match goal with
    | |- ?tm ?q = (fst (?m ?s0), _) =>
      change q with (put a (mkProcess fl hp w) s0);
      cut (boots a (mkProcess fl hp w) tm m); [intros Hb; apply Hb |]
    end.
    unfold Services_isMustSplit, Services_split, Services_isExistOrCreate.
    repeat first
      [ apply boots_ret_error
      | apply boots_go
      | apply boots_bind; [| intros ?]
      | sim_step
      | match goal with
        | |- boots _ _ (match ?x with _ => _ end) _ => destruct x
        | |- boots _ _ (if ?x then _ else _) _ => destruct x
        end ]. }
  split; [| split].
  - exact Hrun.
  - exact Hfresh.
  - intros b inst Hb. rewrite Hrun. cbn [snd booted heap].
    rewrite lookup_insert_ne; [exact Hb |]. congruence.
Qed.

Lemma bindS_run {S A B} (m : St S A) (k : A -> St S B) (q q' : S) (x : A) :
  m q = (Done x, q') -> bindS m k q = k x q'.
Proof. intros E. unfold bindS. rewrite E. reflexivity. Qed.

(** X27.  After a second boot the monitor of the first struct reports
    into the second.  When a rotation of the struct at [a] is due and
    fails while [fileLog] points to another struct [b], the turn of the
    monitor has the outcome of [Error] run on [b] from line 183: the
    record is filtered by the threshold of [b] and queued in the channel
    of [b]; the channel of [a] is as it was. *)
Theorem twin_monitor_after_reboot (p : Process) (a b : nat) (ia ib : Services)
        (D : Time) (e : error) (s1 : State) :
  fileLog p = Some b -> a <> b ->
  heap p !! a = Some ia -> heap p !! b = Some ib ->
  date ia = Some D ->
  After (dayOf (clock (world p) (reads (world p)))) D = true ->
  split (mkState ia (set_reads (S (reads (world p))) (world p))) = (Done (Some e), s1) ->
  let r := callAt 183 272 (Error ("Log split error: %v" +:+ nl) [errV e])
                  (mkState ib (env s1)) in
  Services_fileMonitor_body a p =
  (fst r,
   mkProcess (Some b) (<[b := pkg (snd r)]> (<[a := pkg s1]> (heap p))) (env (snd r)))
  /\ logChan (pkg s1) = logChan ia.
Proof.
  intros Hf Hab Ha Hb HD Hdue Hsplit r.
  split.
  - unfold Services_fileMonitor_body, Services_isMustSplit, Services_split.
    pose proof (sim_onInstance a p isMustSplit (mkState ia (world p))) as E1.
    rewrite (put_same a p ia Ha) in E1.
    rewrite (isMustSplit_run (mkState ia (world p)) D HD) in E1.
    cbn [fst snd pkg env] in E1. rewrite Hdue in E1.
    rewrite (bindS_run _ _ _ _ _ E1).
    pose proof (sim_onInstance a p split
                  (mkState ia (set_reads (S (reads (world p))) (world p)))) as E2.
    rewrite Hsplit in E2. cbn [fst snd] in E2.
    rewrite (bindS_run _ _ _ _ _ E2).
    assert (Hb1 : heap (put a p s1) !! b = Some ib).
    { unfold put. cbn [heap]. rewrite lookup_insert_ne by exact Hab. exact Hb. }
    pose proof (put_same b (put a p s1) ib Hb1) as Hp.
    change (world (put a p s1)) with (env s1) in Hp.
    pose proof (sim_callAt b (put a p s1) 183 272 _ _
                  (sim_emit b (put a p s1) (Some a) EError
                     ("Log split error: %v" +:+ nl) [errV e] Hf)
                  (mkState ib (env s1))) as E3.
    rewrite Hp in E3 at 1. cbn [Services_emit emitOp] in E3.
    rewrite E3. fold r. unfold put. cbn [fileLog heap]. rewrite Hf. reflexivity.
  - pose proof (split_keeps_config
                  (mkState ia (set_reads (S (reads (world p))) (world p)))) as Hc.
    rewrite Hsplit in Hc. cbn [fst snd pkg] in Hc. congruence.
Qed.

End Properties.

(** * Properties of config.go and system.go *)

Section Configuration.
Context `{GoLibrary} `{TomlTree}.

(** [filepath.Join] of two elements, as the package uses it, is the
    general one. *)
Lemma Join_two (a b : string) : filepath_Join a b = filepath_Joins [a; b].
Proof.
  unfold filepath_Join. cbn [filepath_Joins joinWith].
  destruct (bool_decide (a = "")); [| reflexivity].
  destruct (bool_decide (b = "")); reflexivity.
Qed.

Lemma HasPrefix_slash (c : ascii) (r : string) :
  strings_HasPrefix (String c r) "/" = Ascii.eqb "/" c.
Proof. cbn [strings_HasPrefix]. apply andb_true_r. Qed.

Lemma LastIndex_cons (c : ascii) (r : string) :
  strings_LastIndex (String c r) "/" =
  if 0 <=? strings_LastIndex r "/" then strings_LastIndex r "/" + 1
  else if Ascii.eqb "/" c then 0 else -1.
Proof. cbn [strings_LastIndex]. rewrite HasPrefix_slash. reflexivity. Qed.

Lemma LastIndex_neg (q : string) :
  strings_LastIndex q "/" < 0 -> strings_LastIndex q "/" = -1.
Proof.
  destruct q as [|d q]; [reflexivity |]. rewrite LastIndex_cons.
  destruct (0 <=? strings_LastIndex q "/") eqn:E1; [apply Z.leb_le in E1; lia |].
  destruct (Ascii.eqb "/" d); lia.
Qed.

Lemma LastIndex_slashFree (s : string) :
  slashFree s <-> strings_LastIndex s "/" = -1.
Proof.
  unfold slashFree. induction s as [|c r IH].
  - split; [reflexivity | intros _ []].
  - rewrite LastIndex_cons. cbn [list_ascii_of_string List.In].
    destruct (Z.leb_spec 0 (strings_LastIndex r "/")) as [Hr|Hr].
    + split; [| lia]. intros Hs. exfalso.
      assert (E : strings_LastIndex r "/" = -1) by (apply IH; tauto). lia.
    + apply LastIndex_neg in Hr. apply IH in Hr.
      destruct (Ascii.eqb_spec "/" c) as [E|E].
      * split; [| discriminate]. intros Hs. exfalso. apply Hs. left. congruence.
      * split; [reflexivity |]. intros _ [E'|Hin]; [congruence | exact (Hr Hin)].
Qed.

Lemma LastIndex_join (a b : string) :
  slashFree b ->
  strings_LastIndex (a +:+ "/" +:+ b) "/" = Z.of_nat (String.length a).
Proof.
  intros Hb. apply LastIndex_slashFree in Hb. induction a as [|c a IH].
  - change ("" +:+ "/" +:+ b) with (String "/" b).
    rewrite LastIndex_cons, Hb. reflexivity.
  - change (String c a +:+ "/" +:+ b) with (String c (a +:+ "/" +:+ b)).
    rewrite LastIndex_cons, IH.
    destruct (Z.leb_spec 0 (Z.of_nat (String.length a))); [| lia].
    cbn [String.length]. lia.
Qed.

Lemma takeBytes_app (a b : string) : takeBytes (String.length a) (a +:+ b) = a.
Proof.
  induction a as [|c a IH]; [destruct b; reflexivity |].
  change (String c a +:+ b) with (String c (a +:+ b)).
  cbn [String.length takeBytes]. rewrite IH. reflexivity.
Qed.

Lemma LastIndex_split (p : string) :
  0 <= strings_LastIndex p "/" ->
  exists b,
    p = takeBytes (Z.to_nat (strings_LastIndex p "/")) p +:+ "/" +:+ b
    /\ slashFree b.
Proof.
  induction p as [|c r IH]; [cbn; lia |].
  rewrite LastIndex_cons.
  destruct (Z.leb_spec 0 (strings_LastIndex r "/")) as [Hr|Hr].
  - intros _. destruct (IH Hr) as (b & E & Hb). exists b. split; [| exact Hb].
    rewrite Z2Nat.inj_add by lia. rewrite Nat.add_comm.
    change (Z.to_nat 1) with 1%nat. cbn [Nat.add takeBytes].
    change (String c ?x +:+ ?y) with (String c (x +:+ y)). f_equal. exact E.
  - destruct (Ascii.eqb_spec "/" c) as [<-|]; [| lia].
    intros _. exists r. split; [reflexivity |].
    apply LastIndex_slashFree, LastIndex_neg. exact Hr.
Qed.

(** X18.  [GetLastPath] cuts a path at its last separator.  A path with
    no separator makes the slice expression panic (the index is -1); a
    path [a/b] with no separator in [b] gives [a], which is the empty
    string for a name directly under the root; and whenever the function
    returns, the path was its result, a separator and a last element. *)
Theorem GetLastPath_spec :
  (forall p, slashFree p -> GetLastPath p = Panic "slice bounds out of range")
  /\ (forall a b, slashFree b -> GetLastPath (a +:+ "/" +:+ b) = Done a)
  /\ (forall p r, GetLastPath p = Done r ->
                  exists b, p = r +:+ "/" +:+ b /\ slashFree b).
Proof.
  split; [| split].
  - intros p Hp. unfold GetLastPath, PathSeparator, sliceTo.
    rewrite (proj1 (LastIndex_slashFree p) Hp). reflexivity.
  - intros a b Hb. unfold GetLastPath, PathSeparator, sliceTo.
    rewrite (LastIndex_join a b Hb).
    assert (E1 : (Z.of_nat (String.length a) <? 0) = false)
      by (apply Z.ltb_ge; lia).
    assert (E2 : (Z.of_nat (String.length (a +:+ "/" +:+ b))
                  <? Z.of_nat (String.length a)) = false)
      by (apply Z.ltb_ge; rewrite append_length; lia).
    rewrite E1, E2. cbn [orb]. rewrite Nat2Z.id, takeBytes_app. reflexivity.
  - intros p r. unfold GetLastPath, PathSeparator, sliceTo.
    destruct (Z.ltb_spec (strings_LastIndex p "/") 0); simpl; [discriminate |].
    destruct (Z.of_nat (String.length p) <? strings_LastIndex p "/"); [discriminate |].
    intros E. injection E as <-. apply LastIndex_split. assumption.
Qed.

Ltac run_toml :=
  repeat progress
    unfold Zone, Get, Fetch, Read, To, AtStr, AtInt, AtBool, ToStr, ToInt, ToBool,
      cfg_Get, assertString, assertInt, assertBool, bindS, getS, modS, retS, liftO,
      lookedUp, asString, asInt, asBool;
  simpl.

(** X19.  The three ways config.go offers to look a key up (Zone, Get and
    an At-method; Zone, Fetch and a To-method; Read of the dotted key and
    a To-method) give the same result and leave the shared object in the
    same state, for strings, ints and booleans; afterwards [keyName] is
    the dotted key and [cfg] is untouched. *)
Theorem lookup_routes_agree (tf : TomlConfig) (zone key : string) :
  let full := zone +:+ "." +:+ key in
  ((Zone zone ;;~ Get key ;;~ AtStr) tf = (Zone zone ;;~ Fetch key ;;~ ToStr) tf
   /\ (Read full ;;~ ToStr) tf = (Zone zone ;;~ Fetch key ;;~ ToStr) tf)
  /\ ((Zone zone ;;~ Get key ;;~ AtInt) tf = (Zone zone ;;~ Fetch key ;;~ ToInt) tf
      /\ (Read full ;;~ ToInt) tf = (Zone zone ;;~ Fetch key ;;~ ToInt) tf)
  /\ ((Zone zone ;;~ Get key ;;~ AtBool) tf = (Zone zone ;;~ Fetch key ;;~ ToBool) tf
      /\ (Read full ;;~ ToBool) tf = (Zone zone ;;~ Fetch key ;;~ ToBool) tf)
  /\ keyName (snd ((Zone zone ;;~ Fetch key ;;~ ToStr) tf)) = full
  /\ cfg (snd ((Zone zone ;;~ Fetch key ;;~ ToStr) tf)) = cfg tf.
Proof.
  run_toml.
  destruct (Tree_Get (cfg tf) (zone +:+ "." +:+ key)) as [v| | |]; simpl;
    try destruct v; simpl; repeat split; reflexivity.
Qed.

(** X20.  A typed lookup returns what the tree holds under the dotted
    key when that has the asked type, and panics in the type assertion
    otherwise: there is no default.  A missing key (nil) panics for all
    three types, an [int64] panics for [ToInt].  And [Get] followed by
    [ToStr] does not look anything up: it asserts on the value an earlier
    call left in the object. *)
Theorem typed_lookup (tf : TomlConfig) (zone key : string) :
  let full := zone +:+ "." +:+ key in
  fst ((Zone zone ;;~ Fetch key ;;~ ToStr) tf) = lookedUp asString (cfg tf) full
  /\ fst ((Zone zone ;;~ Fetch key ;;~ ToInt) tf) = lookedUp asInt (cfg tf) full
  /\ fst ((Zone zone ;;~ Fetch key ;;~ ToBool) tf) = lookedUp asBool (cfg tf) full
  /\ (Tree_Get (cfg tf) full = Done TNil ->
      fst ((Zone zone ;;~ Fetch key ;;~ ToStr) tf) = Panic "interface conversion"
      /\ fst ((Zone zone ;;~ Fetch key ;;~ ToInt) tf) = Panic "interface conversion"
      /\ fst ((Zone zone ;;~ Fetch key ;;~ ToBool) tf) = Panic "interface conversion")
  /\ (forall z, Tree_Get (cfg tf) full = Done (TInt64 z) ->
      fst ((Zone zone ;;~ Fetch key ;;~ ToInt) tf) = Panic "interface conversion")
  /\ fst ((Zone zone ;;~ Get key ;;~ ToStr) tf) = asString (value tf).
Proof.
  run_toml.
  destruct (Tree_Get (cfg tf) (zone +:+ "." +:+ key)) as [v| | |]; simpl;
    try destruct v; simpl; repeat split; try reflexivity; intros; try discriminate;
    try (destruct (value tf); reflexivity);
    repeat split; reflexivity.
Qed.

Ltac run_host :=
  repeat progress
    unfold GetToml, NewToml, GetCustomConfigPath, GetCustomConfigDir, GetRootPath,
      GetCurrentDir, CurrentAndAbsPath, GetAbsPath, SetCurrentPath, filepath_Abs,
      host_Println, onToml, bindS, getS, modS, retS, liftO;
  simpl.

Lemma GetRootPath_frame (h : Host) :
  oracles (snd (GetRootPath h)) = oracles h
  /\ h_Toml (snd (GetRootPath h)) = h_Toml h.
Proof.
  unfold oracles. run_host.
  destruct (h_LookPath h (h_args0 h)) as [path [e|]]; simpl;
    (destruct (filepath_IsAbs path); simpl;
     [| destruct (h_Getwd h) as [wd [e'|]] eqn:Hwd; simpl; rewrite ?Hwd; simpl]);
    repeat match goal with
           | |- context [GetLastPath ?d] => destruct (GetLastPath d); simpl
           end; rewrite ?Hwd; auto.
Qed.

Lemma GetRootPath_det (h h' : Host) :
  oracles h = oracles h' -> fst (GetRootPath h) = fst (GetRootPath h').
Proof.
  unfold oracles. intros E. injection E as E1 E2 E3 E4. run_host.
  rewrite E1, E2.
  destruct (h_LookPath h' (h_args0 h')) as [path [e|]]; simpl;
    (destruct (filepath_IsAbs path); simpl;
     [| rewrite E3; destruct (h_Getwd h') as [wd [e'|]]; simpl]);
    repeat match goal with
           | |- context [GetLastPath ?d] => destruct (GetLastPath d); simpl
           end; auto.
Qed.

Lemma GetToml_run (h : Host) (root : string) (h1 : Host) :
  GetRootPath h = (Done root, h1) ->
  let name := filepath_Joins [filepath_Joins [root; GetConfigDir; PathSeparator];
                              GetConfigPath] in
  exists h2,
    GetToml h = (Done tt, h2)
    /\ oracles h2 = oracles h
    /\ h_Toml h2 = set_cfg (fst (h_LoadFile h name)) (h_Toml h).
Proof.
  intros Hroot name.
  pose proof (GetRootPath_frame h) as [Ho Ht]. rewrite Hroot in Ho, Ht.
  simpl in Ho, Ht. unfold oracles in Ho. injection Ho as Ho1 Ho2 Ho3 Ho4.
  unfold GetToml, NewToml, GetCustomConfigPath, GetCustomConfigDir.
  unfold bindS at 1 2 3. rewrite Hroot. cbv beta iota.
  unfold retS at 1 2. cbv beta iota.
  unfold bindS, getS, retS, onToml, modS, host_Println. fold name.
  rewrite Ho4. unfold oracles.
  destruct (h_LoadFile h name) as [conf [e|]]; simpl;
    (eexists; split; [reflexivity |]; simpl; rewrite Ho1, Ho2, Ho3, Ho4, Ht;
     split; reflexivity).
Qed.

Lemma chain_ToStr (tf : TomlConfig) (zone key : string) :
  exists tf',
    (Zone zone ;;~ Fetch key ;;~ ToStr) tf
    = (lookedUp asString (cfg tf) (zone +:+ "." +:+ key), tf')
    /\ cfg tf' = cfg tf.
Proof.
  run_toml.
  destruct (Tree_Get (cfg tf) (zone +:+ "." +:+ key)) as [v| | |]; simpl;
    try destruct v; simpl; eexists; split; reflexivity.
Qed.

Lemma chain_ToBool (tf : TomlConfig) (zone key : string) :
  exists tf',
    (Zone zone ;;~ Fetch key ;;~ ToBool) tf
    = (lookedUp asBool (cfg tf) (zone +:+ "." +:+ key), tf')
    /\ cfg tf' = cfg tf.
Proof.
  run_toml.
  destruct (Tree_Get (cfg tf) (zone +:+ "." +:+ key)) as [v| | |]; simpl;
    try destruct v; simpl; eexists; split; reflexivity.
Qed.

(** X21.  When the root path can be computed, [GetLogsFilename],
    [GetLogsPrefix] and [GetLogsLevel] load the file config/logs.toml
    under it and return the strings under log.name, log.prefix and
    log.level; a key that is missing or not a string makes the getter
    panic.  What an earlier lookup left in the shared object [Toml]
    does not matter. *)
Theorem getters_read_the_file (h : Host) (root : string) (h1 : Host) :
  GetRootPath h = (Done root, h1) ->
  let name := filepath_Joins [filepath_Joins [root; "config"; "/"]; "logs.toml"] in
  let t := fst (h_LoadFile h name) in
  fst (system.GetLogsFilename h) = lookedUp asString t "log.name"
  /\ fst (system.GetLogsPrefix h) = lookedUp asString t "log.prefix"
  /\ fst (system.GetLogsLevel h) = lookedUp asString t "log.level"
  /\ (forall tf : TomlConfig,
        fst (system.GetLogsLevel (set_h_Toml tf h)) = fst (system.GetLogsLevel h)).
Proof.
  intros Hroot name t.
  assert (Hget : forall key tf,
             fst ((GetToml ;;~ onToml (Zone "log" ;;~ Fetch key ;;~ ToStr))
                    (set_h_Toml tf h))
             = lookedUp asString t ("log" +:+ "." +:+ key)).
  { intros key tf.
    assert (Hroot' : exists h1', GetRootPath (set_h_Toml tf h) = (Done root, h1')).
    { pose proof (GetRootPath_det (set_h_Toml tf h) h eq_refl) as E.
      rewrite Hroot in E. simpl in E.
      destruct (GetRootPath (set_h_Toml tf h)) as [o h1'] eqn:E'. simpl in E.
      subst o. eauto. }
    destruct Hroot' as (h1' & Hroot').
    destruct (GetToml_run _ _ _ Hroot') as (h2 & Hrun & _ & Ht).
    unfold bindS at 1. rewrite Hrun. unfold onToml. rewrite Ht.
    cbn [set_h_Toml h_LoadFile h_Toml].
    change (filepath_Joins [filepath_Joins [root; GetConfigDir; PathSeparator];
                            GetConfigPath]) with name.
    fold t.
    destruct (chain_ToStr (set_cfg t tf) "log" key) as (tf2 & E & _).
    cbn [cfg set_cfg] in E. rewrite E. reflexivity. }
  assert (Hh : set_h_Toml (h_Toml h) h = h) by (destruct h; reflexivity).
  unfold system.GetLogsFilename, system.GetLogsPrefix, system.GetLogsLevel.
  repeat split.
  - rewrite <- Hh at 1. apply Hget.
  - rewrite <- Hh at 1. apply Hget.
  - rewrite <- Hh at 1. apply Hget.
  - intros tf. rewrite Hget. rewrite <- Hh at 1. rewrite Hget. reflexivity.
Qed.

(** X22.  [GetLogsDir] computes the root path first, so a panic there is
    the getter's whatever the file says.  Otherwise it looks up
    log.relative and log.dir in config/logs.toml under the root: with
    [relative] false the directory is returned as written, with
    [relative] true it is joined to the root; a missing or ill-typed key
    panics. *)
Theorem GetLogsDir_spec (h : Host) :
  match GetRootPath h with
  | (Done root, _) =>
    let name := filepath_Joins [filepath_Joins [root; "config"; "/"]; "logs.toml"] in
    let t := fst (h_LoadFile h name) in
    fst (system.GetLogsDir h) =
    match lookedUp asBool t "log.relative" with
    | Done relative =>
      match lookedUp asString t "log.dir" with
      | Done logDir =>
        Done (if relative then filepath_Joins [root; logDir; "/"] else logDir)
      | Exit c => Exit c
      | Panic msg => Panic msg
      | Block => Block
      end
    | Exit c => Exit c
    | Panic msg => Panic msg
    | Block => Block
    end
  | (Exit c, _) => fst (system.GetLogsDir h) = Exit c
  | (Panic msg, _) => fst (system.GetLogsDir h) = Panic msg
  | (Block, _) => fst (system.GetLogsDir h) = Block
  end.
Proof.
  destruct (GetRootPath h) as [[root| | |] h1] eqn:Hroot;
    try (unfold system.GetLogsDir; unfold bindS at 1; rewrite Hroot; reflexivity).
  intros name t.
  pose proof (GetRootPath_frame h) as [Ho Ht]. rewrite Hroot in Ho, Ht.
  simpl in Ho, Ht.
  assert (Hroot1 : exists h1', GetRootPath h1 = (Done root, h1')).
  { pose proof (GetRootPath_det h1 h Ho) as E. rewrite Hroot in E. simpl in E.
    destruct (GetRootPath h1) as [o h1'] eqn:E'. simpl in E. subst o. eauto. }
  destruct Hroot1 as (h1' & Hroot1).
  destruct (GetToml_run _ _ _ Hroot1) as (h2 & Hrun & _ & Hcfg).
  unfold oracles in Ho. injection Ho as _ _ _ Ho4. rewrite Ho4 in Hcfg.
  change (filepath_Joins [filepath_Joins [root; GetConfigDir; PathSeparator];
                          GetConfigPath]) with name in Hcfg.
  fold t in Hcfg.
  unfold system.GetLogsDir. unfold bindS at 1. rewrite Hroot.
  unfold bindS at 1. rewrite Hrun.
  unfold bindS at 1. unfold onToml at 1.
  destruct (chain_ToBool (h_Toml h2) "log" "relative") as (tf3 & E3 & Hc3).
  rewrite E3. rewrite Hcfg. cbn [cfg set_cfg].
  change ("log" +:+ "." +:+ "relative") with "log.relative".
  destruct (lookedUp asBool t "log.relative") as [relative| | |]; try reflexivity.
  unfold bindS at 1. unfold onToml at 1. cbn [h_Toml set_h_Toml].
  destruct (chain_ToStr tf3 "log" "dir") as (tf4 & E4 & Hc4).
  rewrite E4, Hc3, Hcfg. cbn [cfg set_cfg].
  change ("log" +:+ "." +:+ "dir") with "log.dir".
  destruct (lookedUp asString t "log.dir") as [logDir| | |]; try reflexivity.
  destruct relative; reflexivity.
Qed.

(** X23.  When [exec.LookPath] fails and [os.Getwd] fails too, the two
    errors are printed and not returned, the path in hand is empty, its
    directory is "." and [GetLastPath] panics on it: [GetRootPath] and
    with it all four getters panic, after two lines on standard error. *)
Theorem unresolved_paths_panic (h : Host) (e1 e2 : Value) (wd : string) :
  h_LookPath h (h_args0 h) = ("", Some e1) ->
  h_Getwd h = (wd, Some e2) ->
  filepath_Clean "" = "." ->
  fst (GetRootPath h) = Panic "slice bounds out of range"
  /\ h_stderr (snd (GetRootPath h)) =
     h_stderr h ++
     [formatHeader "" LstdFlags (h_clock h (h_reads h))
        +:+ withNewline (fmt_Sprintln [strV "Set the current path error: "; e1]);
      formatHeader "" LstdFlags (h_clock h (S (h_reads h)))
        +:+ withNewline
              (fmt_Sprintln [strV "Get the current absolute of path error: "; e2])]
  /\ fst (system.GetLogsDir h) = Panic "slice bounds out of range"
  /\ fst (system.GetLogsFilename h) = Panic "slice bounds out of range"
  /\ fst (system.GetLogsPrefix h) = Panic "slice bounds out of range"
  /\ fst (system.GetLogsLevel h) = Panic "slice bounds out of range".
Proof.
  intros Hl Hw Hc.
  assert (Hroot : fst (GetRootPath h) = Panic "slice bounds out of range"
                  /\ h_stderr (snd (GetRootPath h)) =
                     h_stderr h ++
                     [formatHeader "" LstdFlags (h_clock h (h_reads h))
                        +:+ withNewline
                              (fmt_Sprintln [strV "Set the current path error: "; e1]);
                      formatHeader "" LstdFlags (h_clock h (S (h_reads h)))
                        +:+ withNewline
                              (fmt_Sprintln
                                 [strV "Get the current absolute of path error: "; e2])]).
  { unfold GetRootPath, GetCurrentDir, CurrentAndAbsPath, GetAbsPath, SetCurrentPath,
      filepath_Abs, host_Println, bindS, getS, retS, liftO.
    rewrite Hl. cbn. rewrite Hw. cbn.
    unfold filepath_Dir. cbn.
    change (takeBytes (Z.to_nat (-1 + 1)) "") with "". rewrite Hc. cbn.
    rewrite <- app_assoc. split; reflexivity. }
  destruct Hroot as [Hp Herr].
  split; [exact Hp |]. split; [exact Herr |].
  destruct (GetRootPath h) as [o h1] eqn:Hrun. simpl in Hp. subst o.
  assert (Ht : fst (GetToml h) = Panic "slice bounds out of range").
  { unfold GetToml, NewToml, GetCustomConfigPath, GetCustomConfigDir.
    unfold bindS at 1 2 3. rewrite Hrun. reflexivity. }
  unfold system.GetLogsDir, system.GetLogsFilename, system.GetLogsPrefix,
    system.GetLogsLevel.
  unfold bindS at 1. rewrite Hrun.
  repeat split; try reflexivity;
    (unfold bindS at 1; destruct (GetToml h) as [o h2]; simpl in Ht; subst o;
     reflexivity).
Qed.

End Configuration.

(** * The package at work *)

#[local] Existing Instance plainLibrary.

(** Scenario A of the specification: with threshold WARN, [Info] then
    [Warning] leave one line in the queue, the warning. *)
Example scenario_A :
  queue (snd ((Info "x" [] ;;; Warning "y" []) demoBooted))
  = ["[WARN] [main.go:42] y"].
Proof. vm_compute. reflexivity. Qed.

(** Scenario B: "bogus" boots like "DEBUG". *)
Example scenario_B : bootLevel "bogus" = bootLevel "DEBUG".
Proof. reflexivity. Qed.

(** A day formats as year, month and day with dashes; cutting a reading
    down to its day drops the time of day; a five-digit year does not
    survive the round trip and leaves [Time{}]. *)
Example Format_Date_ex : Format_Date (mkTime 2021 3 18 13 1 0 0) = "2021-03-18".
Proof. reflexivity. Qed.

Example dayOf_ex : dayOf (mkTime 2021 3 18 13 1 0 0) = midnight 2021 3 18.
Proof. reflexivity. Qed.

Example dayOf_overflow : dayOf (mkTime 12021 3 18 13 1 0 0) = zeroTime.
Proof. reflexivity. Qed.

(** The Kelvin sign folds to the letter k, as [strings.EqualFold] has it. *)
Example EqualFold_kelvin :
  EqualFold (String "226" (String "132" (String "170" ""))) "k" = true.
Proof. reflexivity. Qed.

Lemma demoBooted_ready : ready demoBooted.
Proof.
  exists (make_chan 8000). repeat split; vm_compute; reflexivity.
Qed.

(** Under WARN a warning is queued. *)
Lemma level_gating_witness :
  severity EWarning = Some WARN
  /\ ready demoBooted
  /\ queue (snd (emitOp EWarning "disk %v" (vals ["full"]) demoBooted))
     = ["[WARN] [main.go:42] disk full"].
Proof.
  split; [reflexivity |]. split; [exact demoBooted_ready |].
  destruct (level_gating EWarning WARN "disk %v" (vals ["full"]) demoBooted
              eq_refl demoBooted_ready) as (H1 & _ & _).
  assert (HT : logLevel (pkg demoBooted) <> OFF) by (vm_compute; discriminate).
  assert (HL : LEVEL_byte (logLevel (pkg demoBooted)) <= LEVEL_byte WARN)
    by (vm_compute; discriminate).
  pose proof (proj2 (H1 HT) HL) as Hq.
  vm_compute in Hq |- *. exact Hq.
Defined.

(** Under OFF, Fatal still queues its record and exits. *)
Lemma fatal_unconditional_witness :
  isFatal EFatal = true
  /\ ready demoBooted
  /\ fst (emitOp EFatal "" (vals ["boom"]) (withLevel OFF demoBooted)) = Exit 1
  /\ queue (snd (emitOp EFatal "" (vals ["boom"]) (withLevel OFF demoBooted)))
     = ["[ERROR] [main.go:42]boom" +:+ nl].
Proof.
  split; [reflexivity |]. split; [exact demoBooted_ready |].
  destruct (fatal_unconditional EFatal OFF "" (vals ["boom"]) demoBooted
              eq_refl demoBooted_ready) as (H1 & H2 & _).
  split; [exact H1 |]. vm_compute in H2 |- *. exact H2.
Defined.

(** Under OFF, Println still queues its line, which has no level tag. *)
Lemma print_family_unfiltered_witness :
  isPrintFamily EPrintln = true
  /\ ready demoBooted
  /\ fst (emitOp EPrintln "" (vals ["hello"; "x"]) (withLevel OFF demoBooted)) = Done tt
  /\ queue (snd (emitOp EPrintln "" (vals ["hello"; "x"]) (withLevel OFF demoBooted)))
     = ["[main.go:42]hello x" +:+ nl].
Proof.
  split; [reflexivity |]. split; [exact demoBooted_ready |].
  destruct (print_family_unfiltered EPrintln OFF "" (vals ["hello"; "x"]) demoBooted
              eq_refl demoBooted_ready) as (H1 & H2 & _).
  split; [exact H1 |]. vm_compute in H2 |- *. exact H2.
Defined.

(** Trace run on a stack that agrees with the caller's only in frame 2
    does the same. *)
Lemma caller_depth_witness :
  [mkFrame "a.go" 1; mkFrame "b.go" 2; mkFrame "/src/app/run.go" 7] !! 2%nat
  = stack (env demoBooted) !! 2%nat
  /\ callerQueries (trace (env (snd (emitOp ETrace "t" (vals []) demoBooted)))) = [2%nat]
  /\ trace (env (snd (emitOp ETrace "t" (vals [])
             (withStack [mkFrame "a.go" 1; mkFrame "b.go" 2;
                         mkFrame "/src/app/run.go" 7] demoBooted))))
     = trace (env (snd (emitOp ETrace "t" (vals []) demoBooted))).
Proof.
  assert (Hst : [mkFrame "a.go" 1; mkFrame "b.go" 2; mkFrame "/src/app/run.go" 7] !! 2%nat
                = stack (env demoBooted) !! 2%nat) by (vm_compute; reflexivity).
  split; [exact Hst |].
  destruct (caller_depth ETrace "t" (vals []) demoBooted) as (H1 & H2).
  split.
  - vm_compute in H1 |- *. exact H1.
  - destruct (H2 _ Hst) as (_ & _ & H3). exact H3.
Defined.

(** The booted logger rotates. *)
Lemma split_success_witness :
  split demoBooted = (Done None, snd (split demoBooted))
  /\ names (env (snd (split demoBooted))) !! "logs/app.log.2021-03-18" = Some (NFile 0)
  /\ names (env (snd (split demoBooted))) !! "logs/app.log" = Some (NFile 1)
  /\ inodes (env (snd (split demoBooted))) !! 1%nat = Some []
  /\ date (pkg (snd (split demoBooted))) = Some (midnight 2021 3 18).
Proof.
  assert (Hrun : split demoBooted = (Done None, snd (split demoBooted)))
    by (vm_compute; reflexivity).
  split; [exact Hrun |].
  destruct (split_success demoBooted _ Hrun)
    as (A & node & n & HA & Hsrc & Htgt & Hd & Hnew & _ & Hino & _).
  assert (EA : A = midnight 2021 3 18)
    by (vm_compute in HA; injection HA as HA; rewrite <- HA; reflexivity).
  assert (En : node = NFile 0)
    by (vm_compute in Hsrc; injection Hsrc as Hsrc; rewrite <- Hsrc; reflexivity).
  subst A node.
  split; [vm_compute in Htgt |- *; exact Htgt |].
  split; [vm_compute in Hnew |- *; exact Hnew |].
  split; [vm_compute in Hino |- *; exact Hino |].
  vm_compute in Hd |- *. exact Hd.
Defined.

(** With no active file on disk the rename fails and the anchor stays on
    the day before. *)
Lemma split_failure_witness :
  split demoStale
  = (Done (Some (LinkError "rename" "logs/app.log" "logs/app.log.2021-03-17" ENOENT)),
     snd (split demoStale))
  /\ date (pkg (snd (split demoStale))) = Some (midnight 2021 3 17).
Proof.
  assert (Hrun : split demoStale
                 = (Done (Some (LinkError "rename" "logs/app.log"
                                  "logs/app.log.2021-03-17" ENOENT)),
                    snd (split demoStale)))
    by (vm_compute; reflexivity).
  split; [exact Hrun |].
  destruct (split_failure demoStale _ _ Hrun)
    as (A & HA & [(_ & Hd & _) | ((en & He) & _)]).
  - rewrite Hd. vm_compute. reflexivity.
  - discriminate He.
Defined.

(** The other way to fail: the rename is done, the open finds no
    descriptor left, and the anchor has moved to today. *)
Example split_open_failure :
  fst (split demoNoDescriptors) = Done (Some (PathError "open" "logs/app.log" EMFILE))
  /\ date (pkg demoNoDescriptors) = Some (midnight 2021 3 18)
  /\ date (pkg (snd (split demoNoDescriptors))) = Some (midnight 2021 3 18)
  /\ logFile (pkg (snd (split demoNoDescriptors))) = None
  /\ names (env (snd (split demoNoDescriptors))) !! "logs/app.log" = None.
Proof. vm_compute. auto. Qed.

(** Against C3 as the specification states it: a rotation on 18 March
    whose rename fails leaves the anchor on 17 March. *)
Lemma split_failure_anchor_counterexample :
  exists (e : error) (s' : State),
    split demoStale = (Done (Some e), s')
    /\ dayOf (clock (env demoStale) (reads (env demoStale))) = midnight 2021 3 18
    /\ date (pkg s') = Some (midnight 2021 3 17)
    /\ date (pkg s') <> Some (dayOf (clock (env demoStale) (reads (env demoStale)))).
Proof.
  eexists _, _. split; [vm_compute; reflexivity |].
  split; [vm_compute; reflexivity |].
  split; [vm_compute; reflexivity |].
  vm_compute. discriminate.
Qed.

(** With yesterday's anchor, two rotations in a row leave two backups; and
    on the day of the anchor two due-checks in a row both answer no. *)
Lemma rotation_twice_witness :
  date (pkg demoBooted) = Some (midnight 2021 3 18)
  /\ dayOf (clock (env demoBooted) (reads (env demoBooted))) = midnight 2021 3 18
  /\ dayOf (clock (env demoBooted) (S (reads (env demoBooted)))) = midnight 2021 3 18
  /\ fst ((a <- isMustSplit ;; b <- isMustSplit ;; ret (a, b)) demoBooted)
     = Done (false, false)
  /\ split demoYesterday = (Done None, snd (split demoYesterday))
  /\ split (snd (split demoYesterday))
     = (Done None, snd (split (snd (split demoYesterday))))
  /\ names (env (snd (split (snd (split demoYesterday)))))
       !! "logs/app.log.2021-03-17" = Some (NFile 0)
  /\ names (env (snd (split (snd (split demoYesterday)))))
       !! "logs/app.log.2021-03-18" = Some (NFile 1).
Proof.
  destruct (@rotation_twice plainLibrary) as [Hcheck Htwice].
  assert (HD : date (pkg demoBooted) = Some (midnight 2021 3 18))
    by (vm_compute; reflexivity).
  assert (H1 : dayOf (clock (env demoBooted) (reads (env demoBooted)))
               = midnight 2021 3 18) by (vm_compute; reflexivity).
  assert (H2 : dayOf (clock (env demoBooted) (S (reads (env demoBooted))))
               = midnight 2021 3 18) by (vm_compute; reflexivity).
  assert (Hr1 : split demoYesterday = (Done None, snd (split demoYesterday)))
    by (vm_compute; reflexivity).
  assert (Hr2 : split (snd (split demoYesterday))
                = (Done None, snd (split (snd (split demoYesterday)))))
    by (vm_compute; reflexivity).
  repeat (split; [assumption |]).
  split; [exact (proj2 (Hcheck demoBooted _ HD) H1 H2) |].
  repeat (split; [assumption |]).
  destruct (Htwice _ _ _ Hr1 Hr2)
    as (A & D & node & HA & HDef & _ & Hb1 & _ & Hb2 & Hne & _ & _).
  assert (EA : A = midnight 2021 3 17)
    by (vm_compute in HA; injection HA as HA; rewrite <- HA; reflexivity).
  assert (ED : D = midnight 2021 3 18) by (rewrite HDef; vm_compute; reflexivity).
  subst A. rewrite ED in Hb2, Hne. clear HDef.
  assert (En : node = NFile 0)
    by (vm_compute in Hb1; injection Hb1 as Hb1; rewrite <- Hb1; reflexivity).
  subst node.
  assert (Hdiff : Format_Date (midnight 2021 3 17) <> Format_Date (midnight 2021 3 18))
    by (vm_compute; discriminate).
  destruct (Hne Hdiff) as [_ Hkept].
  split.
  - vm_compute in Hkept |- *. exact Hkept.
  - vm_compute in Hb2 |- *. exact Hb2.
Defined.

(** Against the last part of C6 as the specification states it: the
    booted logger, anchor already today, rotates twice in a row.  The
    first call moves the old line to the backup of 18 March; the second
    renames the empty file the first call created onto that name.  Of the
    three names left none is the first backup. *)
Lemma rotation_clobbers_counterexample :
  exists s1 s2 : State,
    split demoBooted = (Done None, s1) /\ split s1 = (Done None, s2)
    /\ names (env s1) !! "logs/app.log.2021-03-18" = Some (NFile 0)
    /\ inodes (env s1) !! 0%nat = Some ["old line"]
    /\ names (env s2) !! "logs/app.log.2021-03-18" = Some (NFile 1)
    /\ inodes (env s2) !! 1%nat = Some []
    /\ size (names (env s2)) = 3%nat
    /\ names (env s2) !! "logs" = Some NDir
    /\ names (env s2) !! "logs/app.log" = Some (NFile 2).
Proof.
  eexists _, _. split; [vm_compute; reflexivity |].
  split; [vm_compute; reflexivity |].
  vm_compute. repeat split; reflexivity.
Qed.

(** An emit operation leaves [logger] alone and a rotation gives the
    mutex back. *)
Lemma frame_of_operations_witness :
  rotates (Op_emit EError "e" (vals [])) = false
  /\ Op_emit EError "e" (vals []) <> Op_CloseLogger
  /\ logger (pkg (after (Op_emit EError "e" (vals [])) demoBooted))
     = logger (pkg demoBooted)
  /\ mutex (pkg (after Op_split demoBooted)) = mutex (pkg demoBooted).
Proof.
  assert (Hne : Op_emit EError "e" (vals []) <> Op_CloseLogger) by discriminate.
  split; [reflexivity |]. split; [exact Hne |].
  destruct (frame_of_operations (Op_emit EError "e" (vals [])) demoBooted)
    as (_ & _ & H3 & _).
  destruct (frame_of_operations Op_split demoBooted) as (_ & _ & _ & _ & H5).
  split; [exact (H3 eq_refl Hne) |].
  destruct (H5 eq_refl) as (_ & _ & Hm). exact Hm.
Defined.

(** Against C8 as the specification states it: [CloseLogger], which is
    not [split], sets [logger] to nil. *)
Lemma CloseLogger_changes_logger_counterexample :
  @Op_CloseLogger plainLibrary <> Op_split
  /\ rotates (@Op_CloseLogger plainLibrary) = false
  /\ logger (pkg demoBooted)
     = Some (mkLogger (Some (mkFile 0 "logs/app.log")) "[app] " 7)
  /\ logger (pkg (after Op_CloseLogger demoBooted)) = None.
Proof.
  split; [discriminate |]. split; [reflexivity |].
  split; vm_compute; reflexivity.
Qed.

(** Against the first half of C5 as the specification states it: with an
    empty directory name, [os.Stat] and [os.Mkdir] both fail, the failure
    is printed, and the boot goes on to open "app.log", returns nil and
    starts both goroutines. *)
Lemma boot_mkdir_failure_counterexample :
  fst (os_Stat "" emptyDirStart) = Done (Some (PathError "stat" "" ENOENT))
  /\ fst (os_Mkdir "" 493 emptyDirStart) = Done (Some (PathError "mkdir" "" ENOENT))
  /\ fst (BootLogger emptyDirStart) = Done None
  /\ trace (env (snd (BootLogger emptyDirStart)))
     = [EvStderr ("2021/03/18 13:01:00 Create dir failed, error:  mkdir : failed" +:+ nl);
        EvGo G_logWriter; EvGo G_fileMonitor].
Proof. vm_compute. repeat split; reflexivity. Qed.

(** ** More of the package at work *)

(** Cutting at the last separator. *)
Example GetLastPath_ex :
  GetLastPath "/srv/app/bin" = Done "/srv/app"
  /\ GetLastPath "/bin" = Done ""
  /\ GetLastPath "." = Panic "slice bounds out of range".
Proof. repeat split; reflexivity. Qed.

(** The demonstration host keeps its logs in /srv/app/logs. *)
Example GetLogsDir_ex :
  fst (@system.GetLogsDir pathLibrary mapTree demoHost) = Done "/srv/app/logs".
Proof. vm_compute. reflexivity. Qed.

(** The tree holds log.size as an [int64]: [ToInt] panics on it. *)
Example ToInt_int64_ex :
  fst ((Zone "log" ;;~ Fetch "size" ;;~ ToInt)
         (@mkToml mapTree "" TNil TNil (Some demoTree)))
  = Panic "interface conversion".
Proof. vm_compute. reflexivity. Qed.

(** Before boot, [Info] parks. *)
Lemma emit_before_boot_witness :
  pkg emptyDirStart = zeroServices
  /\ fst (emitOp EInfo "up" (vals []) emptyDirStart) = Block.
Proof.
  split; [reflexivity |].
  exact (proj1 (emit_before_boot EInfo "up" (vals []) emptyDirStart eq_refl)).
Defined.

(** With the one slot taken, [Println] parks and [Info], stopped by the
    threshold WARN, returns. *)
Lemma emit_on_full_channel_witness :
  logChan (pkg demoFull) = Some (mkChan ["waiting"] 1 false)
  /\ fst (emitOp EPrintln "" (vals ["x"]) demoFull) = Block
  /\ fst (emitOp EInfo "x" (vals []) demoFull) = Done tt.
Proof.
  assert (Hc : logChan (pkg demoFull) = Some (mkChan ["waiting"] 1 false))
    by (vm_compute; reflexivity).
  assert (Hfull : cap (mkChan ["waiting"] 1 false)
                  <= Z.of_nat (List.length (buf (mkChan ["waiting"] 1 false))))
    by (vm_compute; discriminate).
  split; [exact Hc |].
  destruct (emit_on_full_channel EPrintln "" (vals ["x"]) demoFull _ Hc eq_refl Hfull)
    as (H1 & _).
  destruct (emit_on_full_channel EInfo "x" (vals []) demoFull _ Hc eq_refl Hfull)
    as (H2 & _).
  split; [exact H1 |]. vm_compute in H2 |- *. exact H2.
Defined.

(** After [CloseLogger], [Fatal] panics and the process goes on. *)
Lemma emit_on_closed_channel_witness :
  logChan (pkg demoClosed) = Some (mkChan [] 8000 true)
  /\ fst (emitOp EFatal "" (vals ["boom"]) demoClosed) = Panic "send on closed channel"
  /\ trace (env (snd (emitOp EFatal "" (vals ["boom"]) demoClosed)))
     = trace (env demoClosed) ++ [EvCaller 1].
Proof.
  assert (Hc : logChan (pkg demoClosed) = Some (mkChan [] 8000 true))
    by (vm_compute; reflexivity).
  split; [exact Hc |].
  destruct (emit_on_closed_channel EFatal "" (vals ["boom"]) demoClosed _ Hc eq_refl)
    as (H1 & _ & _ & H4).
  split; [exact H1 | exact (H4 eq_refl)].
Defined.

(** Two turns of the writer put the two waiting lines behind the old
    one. *)
Lemma writer_in_order_witness :
  exists s',
    logWriter 2 demoQueued = (Done true, s')
    /\ queue s' = []
    /\ inodes (env s') !! 0%nat
       = Some ["old line";
               "[app] 2021/03/18 13:01:00.000000 first" +:+ nl;
               "[app] 2021/03/18 13:01:00.000000 second" +:+ nl].
Proof.
  destruct (writer_in_order demoQueued (mkChan ["first"; "second"] 8000 false)
              ["first"; "second"] [] 0
              (mkLogger (Some (mkFile 0 "logs/app.log")) "[app] " 7)
              (mkFile 0 "logs/app.log") (mkDescr 0 openFlags) ["old line"])
    as (s' & Hrun & Hq & Hi & _);
    try (vm_compute; reflexivity).
  exists s'. split; [exact Hrun |]. split; [exact Hq |].
  vm_compute in Hi |- *. exact Hi.
Defined.

(** With the disk full the first line is taken and lost. *)
Lemma write_failure_drops_line_witness :
  exists s',
    logWriter 1 demoDiskFull = (Done true, s')
    /\ queue s' = ["second"]
    /\ inodes (env s') !! 0%nat = Some ["old line"].
Proof.
  destruct (write_failure_drops_line demoDiskFull
              (mkChan ["first"; "second"] 8000 false) "first" ["second"] 0
              (mkLogger (Some (mkFile 0 "logs/app.log")) "[app] " 7)
              (mkFile 0 "logs/app.log") (mkDescr 0 openFlags) ENOSPC [])
    as (s' & Hrun & Hq & Hi & _);
    try (vm_compute; reflexivity).
  exists s'. split; [exact Hrun |]. split; [exact Hq |].
  rewrite Hi. vm_compute. reflexivity.
Defined.

(** Closing with two lines waiting: neither reaches the file. *)
Lemma close_does_not_flush_witness :
  queue (snd (CloseLogger demoQueued)) = ["first"; "second"]
  /\ fst (logWriter 1 (snd (CloseLogger demoQueued))) = Done false
  /\ inodes (env (snd (logWriter 1 (snd (CloseLogger demoQueued)))))
       !! 0%nat = Some ["old line"]
  /\ fst (split (snd (logWriter 1 (snd (CloseLogger demoQueued))))) = Block.
Proof.
  destruct (close_does_not_flush demoQueued (mkChan ["first"; "second"] 8000 false)
              0 0)
    as (_ & Hq & Hw & Hi & _ & _ & Hs);
    try (vm_compute; reflexivity).
  split; [exact Hq |]. split; [exact Hw |].
  split; [rewrite Hi; vm_compute; reflexivity | exact Hs].
Defined.

(** The directory "logs" is missing and "." is there: it is created. *)
Lemma isExistOrCreate_effect_witness :
  faults (env demoNoDir) = []
  /\ names (env demoNoDir) !! "logs" = None
  /\ exists s',
       isExistOrCreate demoNoDir = (Done tt, s')
       /\ names (env s') !! "logs" = Some NDir
       /\ trace (env s') = [].
Proof.
  split; [reflexivity |]. split; [reflexivity |].
  destruct (isExistOrCreate_effect demoNoDir eq_refl) as (s' & Hrun & _ & _ & _ & Hcase).
  assert (E1 : exists_ (names (env demoNoDir)) (fileDir (pkg demoNoDir)) = false)
    by (vm_compute; reflexivity).
  assert (E2 : negb (bool_decide (fileDir (pkg demoNoDir) = ""))
               && isDir (names (env demoNoDir)) (parentOf (fileDir (pkg demoNoDir)))
               = true)
    by (vm_compute; reflexivity).
  cbv zeta in Hcase. rewrite E1, E2 in Hcase. destruct Hcase as [Hn Ht].
  exists s'. split; [exact Hrun |].
  split; [rewrite Hn; vm_compute; reflexivity | exact Ht].
Defined.

Lemma demoNow_valid : validDate demoNow.
Proof. repeat split; vm_compute; discriminate. Qed.

(** 13:01 on 18 March 2021 is cut down to midnight of that day. *)
Lemma date_round_trip_witness :
  validDate demoNow
  /\ Parse_Date (Format_Date demoNow) = (midnight 2021 3 18, false)
  /\ Format_Date (dayOf demoNow) = "2021-03-18".
Proof.
  split; [exact demoNow_valid |].
  destruct (date_round_trip demoNow demoNow_valid) as (H1 & H2 & _).
  split; [exact H1 |]. rewrite H2. reflexivity.
Defined.

(** With the anchor on 17 March, the check at 13:01 on 18 March says
    yes. *)
Lemma due_by_calendar_day_witness :
  validDate (midnight 2021 3 17)
  /\ date (pkg demoYesterday) = Some (dayOf (midnight 2021 3 17))
  /\ fst (isMustSplit demoYesterday) = Done true.
Proof.
  assert (Hv : validDate (midnight 2021 3 17))
    by (repeat split; vm_compute; discriminate).
  assert (Hd : date (pkg demoYesterday) = Some (dayOf (midnight 2021 3 17)))
    by (vm_compute; reflexivity).
  split; [exact Hv |]. split; [exact Hd |].
  rewrite (due_by_calendar_day demoYesterday (midnight 2021 3 17) Hv demoNow_valid Hd).
  reflexivity.
Defined.

(** A boot in the demonstration world finds the old line where it was. *)
Lemma boot_keeps_existing_files_witness :
  dayOf (clock demoWorld 1) = dayOf (clock demoWorld 0)
  /\ names (env (snd (BootLogger (mkState zeroServices demoWorld)))) !! "logs/app.log"
     = Some (NFile 0)
  /\ inodes (env (snd (BootLogger (mkState zeroServices demoWorld)))) !! 0%nat
     = Some ["old line"].
Proof.
  split; [reflexivity |].
  destruct (boot_keeps_existing_files (mkState zeroServices demoWorld) eq_refl)
    as (Hn & Hi & _).
  split.
  - eapply lookup_weaken; [| exact Hn]. vm_compute. reflexivity.
  - eapply lookup_weaken; [| exact Hi]. vm_compute. reflexivity.
Defined.

(** After the rotation of 18 March, the waiting line is the first of the
    new file and the old line is in the backup of 17 March. *)
Lemma rotation_then_write_witness :
  split demoYesterdayQueued = (Done None, snd (split demoYesterdayQueued))
  /\ exists s2,
       logWriter 1 (snd (split demoYesterdayQueued)) = (Done true, s2)
       /\ names (env s2) !! "logs/app.log.2021-03-17" = Some (NFile 0)
       /\ inodes (env s2) !! 0%nat = Some ["old line"]
       /\ names (env s2) !! "logs/app.log" = Some (NFile 1)
       /\ inodes (env s2) !! 1%nat
          = Some ["[app] 2021/03/18 13:01:00.000000 after midnight" +:+ nl].
Proof.
  assert (Hrun : split demoYesterdayQueued
                 = (Done None, snd (split demoYesterdayQueued)))
    by (vm_compute; reflexivity).
  split; [exact Hrun |].
  destruct (rotation_then_write demoYesterdayQueued _
              (mkChan ["after midnight"] 8000 false) "after midnight" [] Hrun)
    as (A & node & s2 & HA & Hsrc & Hw & _ & Htgt & Hnew & Hi & Hj);
    try (vm_compute; reflexivity).
  assert (EA : A = midnight 2021 3 17)
    by (vm_compute in HA; injection HA as HA; rewrite <- HA; reflexivity).
  assert (En : node = NFile 0)
    by (vm_compute in Hsrc; injection Hsrc as Hsrc; rewrite <- Hsrc; reflexivity).
  subst A node.
  exists s2. split; [exact Hw |].
  split; [vm_compute in Htgt |- *; exact Htgt |].
  split.
  { rewrite (Hj 0%nat) by (vm_compute; discriminate). vm_compute. reflexivity. }
  split; [vm_compute in Hnew |- *; exact Hnew |].
  vm_compute in Hi |- *. exact Hi.
Defined.

(** With no descriptor left for the open, the rotation after that fails in
    the rename. *)
Lemma failed_open_is_not_retried_witness :
  split demoNoDescriptors
  = (Done (Some (PathError "open" "logs/app.log" EMFILE)), snd (split demoNoDescriptors))
  /\ exists e' s2,
       split (snd (split demoNoDescriptors)) = (Done (Some e'), s2)
       /\ (exists a b c, e' = LinkError "rename" a b c)
       /\ logFile (pkg s2) = None.
Proof.
  assert (Hrun : split demoNoDescriptors
                 = (Done (Some (PathError "open" "logs/app.log" EMFILE)),
                    snd (split demoNoDescriptors)))
    by (vm_compute; reflexivity).
  split; [exact Hrun |].
  destruct (failed_open_is_not_retried _ _ _ _ Hrun)
    as ((e' & s2 & Hrun2 & He & _ & Hf & _) & _).
  exists e', s2. auto.
Defined.

(** The monitor on 18 March with the anchor on 17 March and no active
    file: the failure is printed in red and, the threshold being WARN,
    queued. *)
Lemma monitor_reports_failure_witness :
  date (pkg demoStale) = Some (midnight 2021 3 17)
  /\ fst (fileMonitor_turn demoStale) = Done true
  /\ stdoutLines (trace (env (snd (fileMonitor_turn demoStale))))
     = ["2021-03-18 13:01:00" +:+ esc
        +:+ "[0;40;31m[ERROR] [log.go:176:Log split error: %v" +:+ nl
        +:+ "[rename logs/app.log logs/app.log.2021-03-17: failed]]"
        +:+ esc +:+ "[0m" +:+ nl]
  /\ queue (snd (fileMonitor_turn demoStale))
     = ["[ERROR] [log.go:176] Log split error: "
        +:+ "rename logs/app.log logs/app.log.2021-03-17: failed" +:+ nl].
Proof.
  assert (HD : date (pkg demoStale) = Some (midnight 2021 3 17))
    by (vm_compute; reflexivity).
  split; [exact HD |].
  destruct (monitor_reports_failure demoStale
              (snd (split (mkState (pkg demoStale)
                             (set_reads (S (reads (env demoStale))) (env demoStale)))))
              (midnight 2021 3 17)
              (LinkError "rename" "logs/app.log" "logs/app.log.2021-03-17" ENOENT)
              (mkFrame "/src/logs/log.go" 235)
              [mkFrame "/src/app/main.go" 42; mkFrame "/src/app/run.go" 7] HD)
    as (Hout & _ & _ & Hq);
    try (vm_compute; reflexivity).
  assert (Hne : logLevel (pkg demoStale) <> OFF) by (vm_compute; discriminate).
  assert (Hready : ready demoStale).
  { exists (make_chan 8000). repeat split; vm_compute; reflexivity. }
  destruct (Hq Hne Hready) as (Hdone & Hqueue).
  split; [exact Hdone |].
  split; [vm_compute in Hout |- *; exact Hout |].
  vm_compute in Hqueue |- *. exact Hqueue.
Defined.

(** The demonstration host: the level comes out of
    /srv/app/config/logs.toml. *)
Lemma getters_read_the_file_witness :
  @GetRootPath pathLibrary mapTree demoHost
  = (Done "/srv/app", snd (@GetRootPath pathLibrary mapTree demoHost))
  /\ fst (@system.GetLogsFilename pathLibrary mapTree demoHost) = Done "app.log"
  /\ fst (@system.GetLogsPrefix pathLibrary mapTree demoHost) = Done "[app] "
  /\ fst (@system.GetLogsLevel pathLibrary mapTree demoHost) = Done "warn".
Proof.
  assert (Hroot : @GetRootPath pathLibrary mapTree demoHost
                  = (Done "/srv/app", snd (@GetRootPath pathLibrary mapTree demoHost)))
    by (vm_compute; reflexivity).
  split; [exact Hroot |].
  destruct (@getters_read_the_file pathLibrary mapTree demoHost _ _ Hroot)
    as (H1 & H2 & H3 & _).
  rewrite H1, H2, H3. vm_compute. repeat split; reflexivity.
Defined.

(** The lost host: two lines on standard error and a panic. *)
Lemma unresolved_paths_panic_witness :
  @filepath_Clean pathLibrary "" = "."
  /\ fst (@system.GetLogsLevel pathLibrary mapTree lostHost)
     = Panic "slice bounds out of range"
  /\ List.length (h_stderr (snd (@GetRootPath pathLibrary mapTree lostHost))) = 2%nat.
Proof.
  split; [reflexivity |].
  destruct (@unresolved_paths_panic pathLibrary mapTree lostHost
              "executable file not found in $PATH"
              "getwd: no such file or directory" "" eq_refl eq_refl eq_refl)
    as (_ & Herr & _ & _ & _ & Hlvl).
  split; [exact Hlvl |]. rewrite Herr. reflexivity.
Defined.

(** ** The twin at work *)

(** The twin's first boot puts a struct at address 0 and [fileLog] on
    it; the struct holds what log.go's variables hold after its boot. *)
Example twin_boot_ex :
  fileLog demoProcess = Some 0%nat
  /\ heap demoProcess !! 0%nat = Some (pkg demoBooted)
  /\ world demoProcess = env demoBooted.
Proof. vm_compute. repeat split; reflexivity. Qed.

(** On the booted twin a warning is queued in the struct. *)
Lemma twin_agrees_when_booted_witness :
  fileLog demoProcess = Some 0%nat
  /\ heap demoProcess !! 0%nat = Some (pkg demoBooted)
  /\ fst (Services_emit None EWarning "disk %v" (vals ["full"]) demoProcess) = Done tt
  /\ (logChan <$>
        heap (snd (Services_emit None EWarning "disk %v" (vals ["full"]) demoProcess))
          !! 0%nat)
     = Some (Some (mkChan ["[WARN] [main.go:42] disk full"] 8000 false)).
Proof.
  assert (Hf : fileLog demoProcess = Some 0%nat) by (vm_compute; reflexivity).
  assert (Hh : heap demoProcess !! 0%nat = Some (pkg demoBooted))
    by (vm_compute; reflexivity).
  split; [exact Hf |]. split; [exact Hh |].
  destruct (twin_agrees_when_booted demoProcess 0 (pkg demoBooted) Hf Hh) as (He & _).
  rewrite (He None EWarning "disk %v" (vals ["full"])).
  vm_compute. split; reflexivity.
Defined.

(** Before boot, [Info] on the twin prints its console line and panics. *)
Lemma twin_before_boot_witness :
  fileLog (mkProcess None ∅ demoWorld) = None
  /\ fst (Services_emit None EInfo "up" (vals []) (mkProcess None ∅ demoWorld))
     = Panic "nil pointer dereference"
  /\ List.length
       (stdoutLines
          (trace (world (snd (Services_emit None EInfo "up" (vals [])
                                (mkProcess None ∅ demoWorld))))))
     = 1%nat.
Proof.
  split; [reflexivity |].
  destruct (twin_before_boot (mkProcess None ∅ demoWorld) None EInfo "up" (vals [])
              eq_refl) as (H1 & _ & _ & _ & H5 & _).
  split; [exact H1 |]. rewrite H5. reflexivity.
Defined.

(** The first struct's rotation fails; the record is queued in the
    second struct, whose threshold is WARN, and the first struct's
    channel stays empty. *)
Lemma twin_monitor_after_reboot_witness :
  fileLog demoTwoBoots = Some 1%nat
  /\ fst (Services_fileMonitor_body 0 demoTwoBoots) = Done tt
  /\ (logChan <$> heap (snd (Services_fileMonitor_body 0 demoTwoBoots)) !! 1%nat)
     = Some (Some (mkChan ["[ERROR] [log.go:183] Log split error: "
                           +:+ "rename logs/app.log logs/app.log.2021-03-17: failed"
                           +:+ nl] 8000 false))
  /\ (logChan <$> heap (snd (Services_fileMonitor_body 0 demoTwoBoots)) !! 0%nat)
     = Some (Some (mkChan [] 8000 false)).
Proof.
  assert (Hf : fileLog demoTwoBoots = Some 1%nat) by reflexivity.
  split; [exact Hf |].
  assert (Hab : 0%nat <> 1%nat) by discriminate.
  assert (Ha : heap demoTwoBoots !! 0%nat = Some (pkg demoStale))
    by (vm_compute; reflexivity).
  assert (Hb : heap demoTwoBoots !! 1%nat = Some (pkg demoBooted))
    by (vm_compute; reflexivity).
  assert (HD : date (pkg demoStale) = Some (midnight 2021 3 17))
    by (vm_compute; reflexivity).
  assert (Hdue : After (dayOf (clock (world demoTwoBoots) (reads (world demoTwoBoots))))
                   (midnight 2021 3 17) = true) by (vm_compute; reflexivity).
  assert (Hsplit : split (mkState (pkg demoStale)
                            (set_reads (S (reads (world demoTwoBoots)))
                                       (world demoTwoBoots)))
                   = (Done (Some (LinkError "rename" "logs/app.log"
                                    "logs/app.log.2021-03-17" ENOENT)),
                      snd (split (mkState (pkg demoStale)
                                    (set_reads (S (reads (world demoTwoBoots)))
                                               (world demoTwoBoots)))))).
  { rewrite (surjective_pairing (split _)) at 1. f_equal. }
  destruct (twin_monitor_after_reboot demoTwoBoots 0 1 (pkg demoStale) (pkg demoBooted)
              (midnight 2021 3 17)
              (LinkError "rename" "logs/app.log" "logs/app.log.2021-03-17" ENOENT)
              _ Hf Hab Ha Hb HD Hdue Hsplit)
    as (Hrun & _).
  rewrite Hrun. vm_compute. repeat split; reflexivity.
Defined.
